(** * slideslive-slides-dl: a shallow embedding of [slideslive-slides-dl.py]

    The script resolves a talk's identifier from its URL, downloads the slide
    manifest (JSON first, XML as fallback), downloads every slide image and
    writes an ffmpeg concat playlist.  Each function of the script is embedded
    under its own name.  Python strings are modelled as byte strings (UTF-8),
    Python [int] as [Z], Python [float] as IEEE binary64 ([spec_float] of the
    Standard Library), dicts as association lists in insertion order, the file
    system as a finite map from paths to entries, and the outside world
    (network, operating system, the JSON and XML parsers) as an [environment]
    of oracles. *)

From Stdlib Require Import ZArith String Ascii List Lia DecimalString SpecFloat.
From stdpp Require Import gmap strings.

Open Scope Z_scope.

(** ** Outcomes of running Python code *)

(** An exception that derives from [Exception]: its class name and [str(e)]. *)
Record exn := Exn { exn_class : string; exn_msg : string }.

(** What evaluating a piece of the script can do: return a value, raise an
    [Exception], raise [SystemExit] (the builtin [exit()]), or leave the part
    of Python that this development models ([Unmodelled]: [repr] of floats
    and containers, format conversions and the like). *)
Inductive outcome (A : Type) : Type :=
| Ok (a : A)
| Raise (e : exn)
| Exit
| Unmodelled.
Arguments Ok {A} a.
Arguments Raise {A} e.
Arguments Exit {A}.
Arguments Unmodelled {A}.

Definition obind {A B} (x : outcome A) (k : A -> outcome B) : outcome B :=
  match x with
  | Ok a => k a
  | Raise e => Raise e
  | Exit => Exit
  | Unmodelled => Unmodelled
  end.

Declare Scope py_scope.
Delimit Scope py_scope with py.
Notation "x <- c ;; k" := (obind c (fun x => k))
  (at level 100, c at next level, right associativity) : py_scope.

Definition TypeError (m : string) : exn := Exn "TypeError" m.
Definition KeyError (m : string) : exn := Exn "KeyError" m.
Definition ValueError (m : string) : exn := Exn "ValueError" m.
Definition IndexError (m : string) : exn := Exn "IndexError" m.
Definition OverflowError (m : string) : exn := Exn "OverflowError" m.
Definition ZeroDivisionError (m : string) : exn := Exn "ZeroDivisionError" m.
Definition HTTPError (m : string) : exn := Exn "HTTPError" m.

(** [for x in l: f(x)] collecting the results, stopping at the first
    exception. *)
Fixpoint omap {A B} (f : A -> outcome B) (l : list A) : outcome (list B) :=
  match l with
  | [] => Ok []
  | x :: l' => (y <- f x ;; ys <- omap f l' ;; Ok (y :: ys))%py
  end.

(** ** Python values *)

(** The values [json.load] and ElementTree hand to the script.  A dict keeps
    its insertion order; lookup takes the first binding of a key. *)
#[warnings="-register-all"]
Inductive value : Type :=
| PyNone
| PyBool (b : bool)
| PyInt (z : Z)
| PyFloat (f : spec_float)
| PyStr (s : string)
| PyList (l : list value)
| PyDict (d : list (string * value)).

(** A dict with string keys, also used for a row (Series) of a DataFrame. *)
Definition row := list (string * value).

Fixpoint dict_lookup {A} (k : string) (d : list (string * A)) : option A :=
  match d with
  | [] => None
  | (k', v) :: d' => if String.eqb k k' then Some v else dict_lookup k d'
  end.

(** [d[k]] on a dict or Series. *)
Definition getitem (d : row) (k : string) : outcome value :=
  match dict_lookup k d with
  | Some v => Ok v
  | None => Raise (KeyError k)
  end.

(** [d.get(k, default)]. *)
Definition dict_get (d : row) (k : string) (default : value) : value :=
  match dict_lookup k d with
  | Some v => v
  | None => default
  end.

(** [v[k]] for a string key [k] on an arbitrary value: only a dict can be
    subscripted by a string. *)
Definition subscript (v : value) (k : string) : outcome value :=
  match v with
  | PyDict d => getitem d k
  | PyList _ => Raise (TypeError "list indices must be integers or slices, not str")
  | PyStr _ => Raise (TypeError "string indices must be integers, not 'str'")
  | _ => Raise (TypeError "object is not subscriptable")
  end.

(** The one-character strings of a string, as [for c in s] yields them. *)
Fixpoint chars (s : string) : list value :=
  match s with
  | EmptyString => []
  | String c s' => PyStr (String c EmptyString) :: chars s'
  end.

(** [for x in v]: the elements of a list, the keys of a dict, the characters
    of a string; anything else is not iterable. *)
Definition iterate (v : value) : outcome (list value) :=
  match v with
  | PyList l => Ok l
  | PyDict d => Ok (map (fun kv => PyStr (fst kv)) d)
  | PyStr s => Ok (chars s)
  | _ => Raise (TypeError "object is not iterable")
  end.

(** [str(z)] for an int. *)
Definition str_of_Z (z : Z) : string := NilZero.string_of_int (Z.to_int z).

(** [str(v)], as [str.format] applies it to a field without a format spec. *)
Definition py_str (v : value) : outcome string :=
  match v with
  | PyNone => Ok "None"%string
  | PyBool true => Ok "True"%string
  | PyBool false => Ok "False"%string
  | PyInt z => Ok (str_of_Z z)
  | PyStr s => Ok s
  | PyFloat S754_nan => Ok "nan"%string
  | PyFloat (S754_infinity false) => Ok "inf"%string
  | PyFloat (S754_infinity true) => Ok "-inf"%string
  | PyFloat (S754_zero false) => Ok "0.0"%string
  | PyFloat (S754_zero true) => Ok "-0.0"%string
  | PyFloat (S754_finite _ _ _) | PyList _ | PyDict _ => Unmodelled
  end.

(** A bool used as a number. *)
Definition int_of_bool (b : bool) : Z := if b then 1 else 0.

(** ** Floats: IEEE binary64 *)

Definition prec : Z := 53.
Definition emax : Z := 1024.

(** [float(z)]: round to nearest even, [OverflowError] beyond the range. *)
Definition float_of_Z (z : Z) : outcome spec_float :=
  match binary_normalize prec emax z 0 false with
  | S754_infinity _ => Raise (OverflowError "int too large to convert to float")
  | f => Ok f
  end.

(** [a / b] on ints: the correctly rounded quotient. *)
Definition int_truediv (a b : Z) : outcome spec_float :=
  if b =? 0 then Raise (ZeroDivisionError "division by zero")
  else
    let neg := xorb (a <? 0) (b <? 0) in
    if a =? 0 then Ok (S754_zero neg)
    else
      let '(q, e, l) := SFdiv_core_binary prec emax (Z.abs a) 0 (Z.abs b) 0 in
      match binary_round_aux prec emax neg q e l with
      | S754_infinity _ =>
          Raise (OverflowError "integer division result too large for a float")
      | f => Ok f
      end.

(** [int(f)]: truncation towards zero. *)
Definition int_of_float (f : spec_float) : outcome Z :=
  match f with
  | S754_zero _ => Ok 0
  | S754_finite s m e =>
      let a := match e with
               | Z0 => Zpos m
               | Zpos p => Z.shiftl (Zpos m) (Zpos p)
               | Zneg p => Z.shiftr (Zpos m) (Zpos p)
               end in
      Ok (if s then - a else a)
  | S754_infinity _ => Raise (OverflowError "cannot convert float infinity to integer")
  | S754_nan => Raise (ValueError "cannot convert float NaN to integer")
  end.

(** [x / d] for an int literal [d]. *)
Definition py_truediv (x : value) (d : Z) : outcome value :=
  match x with
  | PyInt a => (f <- int_truediv a d ;; Ok (PyFloat f))%py
  | PyBool b => (f <- int_truediv (int_of_bool b) d ;; Ok (PyFloat f))%py
  | PyFloat f =>
      if d =? 0 then Raise (ZeroDivisionError "float division by zero")
      else (g <- float_of_Z d ;; Ok (PyFloat (SFdiv prec emax f g)))%py
  | _ => Raise (TypeError "unsupported operand type(s) for /")
  end.

(** [x - y] for an int [y]. *)
Definition py_sub (x : value) (y : Z) : outcome value :=
  match x with
  | PyInt a => Ok (PyInt (a - y))
  | PyBool b => Ok (PyInt (int_of_bool b - y))
  | PyFloat f => (g <- float_of_Z y ;; Ok (PyFloat (SFsub prec emax f g)))%py
  | _ => Raise (TypeError "unsupported operand type(s) for -")
  end.

(** [int(x)]; parsing a string as an int is not modelled. *)
Definition py_int (x : value) : outcome Z :=
  match x with
  | PyInt a => Ok a
  | PyBool b => Ok (int_of_bool b)
  | PyFloat f => int_of_float f
  | PyStr _ => Unmodelled
  | _ => Raise (TypeError "int() argument must be a string, a bytes-like object or a real number")
  end.

(** [a + b]: concatenation of strings and of lists, addition of numbers. *)
Definition py_add (a b : value) : outcome value :=
  match a, b with
  | PyStr s, PyStr t => Ok (PyStr (s +:+ t))
  | PyList l, PyList m => Ok (PyList (l ++ m))
  | PyInt x, PyInt y => Ok (PyInt (x + y))
  | PyInt x, PyBool y => Ok (PyInt (x + int_of_bool y))
  | PyBool x, PyInt y => Ok (PyInt (int_of_bool x + y))
  | PyBool x, PyBool y => Ok (PyInt (int_of_bool x + int_of_bool y))
  | PyFloat x, PyFloat y => Ok (PyFloat (SFadd prec emax x y))
  | PyFloat x, PyInt y => (g <- float_of_Z y ;; Ok (PyFloat (SFadd prec emax x g)))%py
  | PyInt x, PyFloat y => (g <- float_of_Z x ;; Ok (PyFloat (SFadd prec emax g y)))%py
  | PyFloat x, PyBool y =>
      (g <- float_of_Z (int_of_bool y) ;; Ok (PyFloat (SFadd prec emax x g)))%py
  | PyBool x, PyFloat y =>
      (g <- float_of_Z (int_of_bool x) ;; Ok (PyFloat (SFadd prec emax g y)))%py
  | _, _ => Raise (TypeError "unsupported operand type(s) for +")
  end.

(** ** [str.format]

    The replacement-field syntax as far as the script's templates use it:
    literal text, the escapes [{{] and [}}], and fields [{}], [{3}] and
    [{name}].  Conversions ([!r]), format specs ([:...]), attribute and index
    access inside a field are not modelled. *)

Inductive fmt_mode :=
| FLit                       (* in literal text *)
| FOpen                      (* just read a left brace *)
| FField (acc : string)      (* inside a field, its name so far *)
| FClose.                    (* just read a right brace *)

(** Field numbering: [None] before the first numbered field, then automatic
    (with the next index) or manual. *)
Inductive numbering := NumAuto (next : nat) | NumManual.

(** The position of the character [c] in [s], counting from [i]. *)
Fixpoint char_index (c : ascii) (s : string) (i : nat) : option nat :=
  match s with
  | EmptyString => None
  | String d s' => if Ascii.eqb c d then Some i else char_index c s' (S i)
  end.

(** The value of a decimal digit [0-9]. *)
Definition digit_value (c : ascii) : option nat := char_index c "0123456789" 0.

Definition is_digit (c : ascii) : bool :=
  match digit_value c with Some _ => true | None => false end.

(** Every character of [s] satisfies [f]. *)
Fixpoint string_all (f : ascii -> bool) (s : string) : bool :=
  match s with
  | EmptyString => true
  | String c s' => f c && string_all f s'
  end.

Definition all_digits (s : string) : bool := string_all is_digit s.

(** The value of a decimal numeral. *)
Fixpoint nat_of_digits (acc : nat) (s : string) : nat :=
  match s with
  | EmptyString => acc
  | String c s' =>
      nat_of_digits (10 * acc + match digit_value c with Some d => d | None => 0 end)%nat s'
  end.

Definition positional (args : list value) (i : nat) : outcome string :=
  match nth_error args i with
  | Some v => py_str v
  | None => Raise (IndexError "Replacement index out of range for positional args tuple")
  end.

(** Look a completed field up; returns its text and the numbering state. *)
Definition resolve_field (args : list value) (kwargs : row)
    (num : option numbering) (name : string)
  : outcome (string * option numbering) :=
  match name with
  | EmptyString =>
      match num with
      | Some NumManual =>
          Raise (ValueError
            "cannot switch from manual field specification to automatic field numbering")
      | Some (NumAuto i) =>
          (s <- positional args i ;; Ok (s, Some (NumAuto (S i))))%py
      | None => (s <- positional args 0 ;; Ok (s, Some (NumAuto 1)))%py
      end
  | _ =>
      if all_digits name then
        match num with
        | Some (NumAuto _) =>
            Raise (ValueError
              "cannot switch from automatic field numbering to manual field specification")
        | _ => (s <- positional args (nat_of_digits 0 name) ;; Ok (s, Some NumManual))%py
        end
      else
        match dict_lookup name kwargs with
        | Some v => (s <- py_str v ;; Ok (s, num))%py
        | None => Raise (KeyError name)
        end
  end.

Definition str1 (c : ascii) : string := String c EmptyString.

Definition is_field_syntax (c : ascii) : bool :=
  (Ascii.eqb c "!" || Ascii.eqb c ":" || Ascii.eqb c "." || Ascii.eqb c "[")%char.

Fixpoint format_from (args : list value) (kwargs : row) (mode : fmt_mode)
    (num : option numbering) (template : string) : outcome string :=
  match template with
  | EmptyString =>
      match mode with
      | FLit => Ok EmptyString
      | FOpen => Raise (ValueError "Single '{' encountered in format string")
      | FField _ => Raise (ValueError "expected '}' before end of string")
      | FClose => Raise (ValueError "Single '}' encountered in format string")
      end
  | String c t =>
      match mode with
      | FLit =>
          if Ascii.eqb c "{" then format_from args kwargs FOpen num t
          else if Ascii.eqb c "}" then format_from args kwargs FClose num t
          else (r <- format_from args kwargs FLit num t ;; Ok (String c r))%py
      | FOpen =>
          if Ascii.eqb c "{" then
            (r <- format_from args kwargs FLit num t ;; Ok (String c r))%py
          else if Ascii.eqb c "}" then
            (sn <- resolve_field args kwargs num EmptyString ;;
             r <- format_from args kwargs FLit (snd sn) t ;;
             Ok (fst sn +:+ r))%py
          else if is_field_syntax c then Unmodelled
          else format_from args kwargs (FField (str1 c)) num t
      | FField acc =>
          if Ascii.eqb c "}" then
            (sn <- resolve_field args kwargs num acc ;;
             r <- format_from args kwargs FLit (snd sn) t ;;
             Ok (fst sn +:+ r))%py
          else if Ascii.eqb c "{" then
            Raise (ValueError "unexpected '{' in field name")
          else if is_field_syntax c then Unmodelled
          else format_from args kwargs (FField (acc +:+ str1 c)) num t
      | FClose =>
          if Ascii.eqb c "}" then
            (r <- format_from args kwargs FLit num t ;; Ok (String c r))%py
          else Raise (ValueError "Single '}' encountered in format string")
      end
  end.

(** [template.format( *args, **kwargs )]. *)
Definition py_format (template : string) (args : list value) (kwargs : row)
  : outcome string :=
  format_from args kwargs FLit None template.

(** ** [get_video_id]: the URL pattern

    The pattern given to [re.findall] is, group by group: the literal
    [https://slideslive] and an escaped dot; group 1, [com] or [de]; a slash;
    group 2, any number of the digits [0-9]; a slash; group 3, any number of
    characters other than [/] and [?]; group 4, any number of characters other
    than a newline.  [re.findall] scans the string from left to right and
    returns, for every non-overlapping match, the tuple of its four groups. *)

(** [strip_prefix p s]: the rest of [s] after the literal [p], if [s] starts
    with it. *)
Fixpoint strip_prefix (p s : string) : option string :=
  match p, s with
  | EmptyString, _ => Some s
  | String a p', String b s' => if Ascii.eqb a b then strip_prefix p' s' else None
  | String _ _, EmptyString => None
  end.

(** The longest prefix of [s] whose characters satisfy [f], and the rest: a
    greedy star over a character class. *)
Fixpoint span (f : ascii -> bool) (s : string) : string * string :=
  match s with
  | EmptyString => (EmptyString, EmptyString)
  | String c s' =>
      if f c then let '(a, b) := span f s' in (String c a, b)
      else (EmptyString, s)
  end.

(** The class of group 3: neither [/] nor [?]. *)
Definition is_name_char (c : ascii) : bool :=
  negb (Ascii.eqb c "/" || Ascii.eqb c "?")%char.

Definition newline : ascii := ascii_of_nat 10.

(** [.] without [re.DOTALL]: anything but a newline. *)
Definition is_dot_char (c : ascii) : bool := negb (Ascii.eqb c newline).

(** The groups of one match. *)
Record groups := Groups { g_tld : string; g_id : string; g_name : string; g_rest : string }.

(** The pattern after the alternative [tld] of group 1 was chosen: slash,
    group 2, slash, group 3, group 4.  The greedy star of group 2 takes every
    digit; giving digits back cannot help, since the pattern then wants [/]
    where a digit stands.  Groups 3 and 4 cannot fail. *)
Definition match_after_tld (tld : string) (s : string) : option groups :=
  match strip_prefix tld s with
  | None => None
  | Some s1 =>
      match strip_prefix "/" s1 with
      | None => None
      | Some s2 =>
          let '(id, s3) := span is_digit s2 in
          match strip_prefix "/" s3 with
          | None => None
          | Some s4 =>
              let '(name, s5) := span is_name_char s4 in
              let '(rest, _) := span is_dot_char s5 in
              Some (Groups tld id name rest)
          end
      end
  end.

(** A match of the whole pattern that starts at the first character of [s]:
    the alternatives of [(com|de)] are tried in order. *)
Definition match_here (s : string) : option groups :=
  match strip_prefix "https://slideslive." s with
  | None => None
  | Some s0 =>
      match match_after_tld "com" s0 with
      | Some g => Some g
      | None => match_after_tld "de" s0
      end
  end.

(** Number of characters a match consumes. *)
Definition match_length (g : groups) : nat :=
  (19 + String.length (g_tld g) + 1 + String.length (g_id g) + 1
   + String.length (g_name g) + String.length (g_rest g))%nat.

(** [re.findall]: [skip] counts the characters still covered by the previous
    match, at which no new match may start. *)
Fixpoint findall_from (skip : nat) (s : string) : list groups :=
  match s with
  | EmptyString => []
  | String _ s' =>
      match skip with
      | S k => findall_from k s'
      | O =>
          match match_here s with
          | Some g => g :: findall_from (match_length g - 1) s'
          | None => findall_from 0 s'
          end
      end
  end.

Definition re_findall (s : string) : list groups := findall_from 0 s.

(** ** [parse_json]: the slide list of a JSON manifest *)

(** [dict(slides=[...])], the value [parse_json] returns: each slide is a dict
    with the keys [slideName], [slideExt] and [time]. *)
Record slide_dict := SlideDict { slides : list row }.

(** The body of the loop: the dict built from one entry of the manifest.  The
    keyword arguments are evaluated from left to right. *)
Definition slide_entry (slide : value) : outcome row :=
  (image <- subscript slide "image" ;;
   name <- subscript image "name" ;;
   image' <- subscript slide "image" ;;
   extname <- subscript image' "extname" ;;
   time <- subscript slide "time" ;;
   Ok [("slideName"%string, name); ("slideExt"%string, extname); ("time"%string, time)])%py.

(** [parse_json] after [json.load]: [parsed] is the loaded document. *)
Definition parse_json_value (parsed : value) : outcome slide_dict :=
  (entries <- subscript parsed "slides" ;;
   items <- iterate entries ;;
   rows <- omap slide_entry items ;;
   Ok (SlideDict rows))%py.

(** ** [parse_xml]: the rows of an XML manifest *)

(** An ElementTree element: tag, text ([None] for an empty element) and
    child elements. *)
#[warnings="-register-all"]
Inductive element : Type :=
| Element (tag : string) (text : option string) (children : list element).

Definition tag_of (e : element) : string := let 'Element t _ _ := e in t.
Definition text_of (e : element) : option string := let 'Element _ x _ := e in x.
Definition children_of (e : element) : list element := let 'Element _ _ c := e in c.

(** A plain tag name: letters, digits, [_] and [-] only, and not empty.  For
    such a name [node.find(el)] compares tags; any other text is read by
    ElementTree as a path expression, which is not modelled. *)
Definition is_tag_char (c : ascii) : bool :=
  match char_index c "abcdefghijklmnopqrstuvwxyzABCDEFGHIJKLMNOPQRSTUVWXYZ0123456789_-" 0 with
  | Some _ => true
  | None => false
  end.

Definition plain_tag (el : string) : bool :=
  match el with
  | EmptyString => false
  | _ => string_all is_tag_char el
  end.

(** [node.find(el)] for a plain tag name [el]: the first child with that
    tag. *)
Fixpoint find_child (el : string) (cs : list element) : option element :=
  match cs with
  | [] => None
  | c :: cs' => if String.eqb (tag_of c) el then Some c else find_child el cs'
  end.

Definition node_find (node : element) (el : string) : option element :=
  find_child el (children_of node).

(** [d[k] = v] on a dict: a present key keeps its place. *)
Fixpoint dict_set {A} (k : string) (v : A) (d : list (string * A)) : list (string * A) :=
  match d with
  | [] => [(k, v)]
  | (k', v') :: d' =>
      if String.eqb k k' then (k, v) :: d' else (k', v') :: dict_set k v d'
  end.

(** The inner loop: the text of the sub-element named by each column, [None]
    where the row has no such sub-element or the sub-element has no text. *)
Definition cell (node : element) (el : string) : value :=
  match node_find node el with
  | Some e => match text_of e with Some s => PyStr s | None => PyNone end
  | None => PyNone
  end.

(** The dict comprehension over the columns and the cells of a node. *)
Definition row_of_node (df_cols : list string) (node : element) : row :=
  fold_left (fun d kv => dict_set (fst kv) (snd kv) d)
            (combine df_cols (map (cell node) df_cols)) [].

(** A pandas DataFrame built from a list of dicts: its columns and its rows,
    indexed 0, 1, 2, ...; a row is what [iterrows] yields for it. *)
Record DataFrame := MkDataFrame { df_columns : list string; df_rows : list row }.

(** How pandas stores a cell that is [None]: as [None] or as the float
    [nan], depending on its version and on the column. *)
Inductive missing := MissingNone | MissingNaN.

Definition missing_value (m : missing) : value :=
  match m with
  | MissingNone => PyNone
  | MissingNaN => PyFloat S754_nan
  end.

Definition store_cell (m : missing) (v : value) : value :=
  match v with
  | PyNone => missing_value m
  | _ => v
  end.

Definition store_row (na : string -> missing) (r : row) : row :=
  map (fun kv => (fst kv, store_cell (na (fst kv)) (snd kv))) r.

(** The columns are distinct. *)
Fixpoint distinct (l : list string) : bool :=
  match l with
  | [] => true
  | x :: l' => negb (existsb (String.eqb x) l') && distinct l'
  end.

(** The column lists for which [parse_xml] is modelled: one or more distinct
    plain tag names. *)
Definition plain_columns (df_cols : list string) : bool :=
  match df_cols with
  | [] => false
  | _ => forallb plain_tag df_cols && distinct df_cols
  end.

(** [pd.DataFrame(rows, columns=df_cols)] for dicts [rows] over the distinct
    columns [df_cols]: a text cell is kept, a [None] cell is stored as the
    missing value that [na] names for its row and column. *)
Definition pd_DataFrame (na : nat -> string -> missing) (rows : list row)
    (columns : list string) : DataFrame :=
  MkDataFrame columns (imap (fun i r => store_row (na i) r) rows).

(** [parse_xml] after [et.parse(xml_file).getroot()], for distinct plain tag
    names [df_cols]: the loop over the children of the root, then the
    DataFrame. *)
Definition parse_xml_root (na : nat -> string -> missing) (xroot : element)
    (df_cols : list string) : DataFrame :=
  pd_DataFrame na (map (row_of_node df_cols) (children_of xroot)) df_cols.

(** [enumerate(l)]. *)
Fixpoint enumerate_from {A} (i : nat) (l : list A) : list (nat * A) :=
  match l with
  | [] => []
  | x :: l' => (i, x) :: enumerate_from (S i) l'
  end.

Definition enumerate {A} (l : list A) : list (nat * A) := enumerate_from 0 l.

(** [df.iterrows()]: the index label and the row, as a Series, of every
    row. *)
Definition iterrows (df : DataFrame) : list (nat * row) := enumerate (df_rows df).

(** What [download_slides_info] returns: the dict of [parse_json] or the
    DataFrame of [parse_xml]; [isinstance(slides_info, dict)] tells them
    apart. *)
Inductive slides_info :=
| FromJson (d : slide_dict)
| FromXml (df : DataFrame).

Definition isinstance_dict (i : slides_info) : bool :=
  match i with FromJson _ => true | FromXml _ => false end.

(** ** The outside world *)

(** A file system entry. *)
Inductive entry := File (data : string) | Dir.

(** An HTTP response as [requests] presents it. *)
Record response := Response {
  status_code : Z;
  reason : string;
  resp_url : string;
  content : string
}.

Definition headers := list (string * string).

(** What the run does to the outside, in order. *)
Inductive event :=
| EvGet (url : string) (h : headers)      (* a network fetch *)
| EvSleep (secs : spec_float)
| EvPrint (msg : string).

(** The state of a run: the files and directories, and the events so far
    (oldest first). *)
Record world := World { fs : gmap string entry; trace : list event }.

(** Calls into the operating system that can fail. *)
Inductive syscall :=
| SysMkdir (path : string)
| SysOpenRead (path : string)
| SysOpenWrite (path : string)
| SysOpenAppend (path : string)
| SysWrite (path : string)
| SysSleep (secs : spec_float).

(** The environment of a run.  [requests_get] is the transport: a response,
    or the exception [requests.get] raises.  [os_error] says whether a system
    call fails, and with what exception ([time.sleep] with a negative
    duration is such a failure).  [json_load] and [et_parse] are the two
    parsers, from the text of a file to a document or an exception.  The
    oracles see the world, so that their answers may change during a run.
    [pandas_na] is the installed pandas: how it stores the [None] cell of a
    row and column. *)
Record environment := Environment {
  requests_get : world -> string -> headers -> exn + response;
  os_error : world -> syscall -> option exn;
  json_load : string -> exn + value;
  et_parse : string -> exn + element;
  pandas_na : nat -> string -> missing
}.

(** A computation: from the world to an outcome and the world after it. *)
Definition M (A : Type) : Type := world -> outcome A * world.

Definition ret {A} (a : A) : M A := fun w => (Ok a, w).

Definition bind {A B} (c : M A) (k : A -> M B) : M B :=
  fun w => match c w with
           | (Ok a, w') => k a w'
           | (Raise e, w') => (Raise e, w')
           | (Exit, w') => (Exit, w')
           | (Unmodelled, w') => (Unmodelled, w')
           end.

Definition lift {A} (o : outcome A) : M A := fun w => (o, w).

Declare Scope io_scope.
Delimit Scope io_scope with io.
Notation "x <- c ;; k" := (bind c (fun x => k))
  (at level 100, c at next level, right associativity) : io_scope.
Notation "c ;;; k" := (bind c (fun _ => k))
  (at level 100, right associativity) : io_scope.

(** [try: c  except: h] -- a bare [except] catches every exception,
    [SystemExit] included. *)
Definition try_except_all {A} (c : M A) (h : M A) : M A :=
  fun w => match c w with
           | (Raise _, w') => h w'
           | (Exit, w') => h w'
           | r => r
           end.

(** [try: c  except Exception as e: h(e)]. *)
Definition try_except_Exception {A} (c : M A) (h : exn -> M A) : M A :=
  fun w => match c w with
           | (Raise e, w') => h e w'
           | r => r
           end.

(** [for x in l: body(x)]. *)
Fixpoint for_each {A} (l : list A) (body : A -> M unit) : M unit :=
  match l with
  | [] => ret tt
  | x :: l' => (body x ;;; for_each l' body)%io
  end.

Definition log (e : event) : M unit :=
  fun w => (Ok tt, World (fs w) (trace w ++ [e])).

Definition print (msg : string) : M unit := log (EvPrint msg).

(** [exit()]. *)
Definition exit {A} : M A := fun w => (Exit, w).

(** ** Remote URLs and local names

    The expressions the two download loops and the playlist loop build for one
    slide, under names of their own. *)

(** [folder_name = '{0}-{1}'.format(video_id, video_name)]. *)
Definition folder_name_of (video_id video_name : string) : outcome string :=
  py_format "{0}-{1}" [PyStr video_id; PyStr video_name] [].

(** [download_slides_json]: [slide_name] and [img_url] of a slide.  The base
    URL is part of the template that [format] reads. *)
Definition img_url_json (base_url video_id : string) (slide : row) (size : value)
  : outcome string :=
  let base_img_url :=
    base_url +:+ "/{video_id}/slides/{slide_name}?h={size}&f=webp&s=lambda&accelerate_s3=1" in
  (name <- getitem slide "slideName" ;;
   ext <- getitem slide "slideExt" ;;
   slide_name <- py_add name ext ;;
   py_format base_img_url []
     [("video_id", PyStr video_id); ("slide_name", slide_name); ("size", size)]%string)%py.

(** [download_slides_json]: [file_path] of a slide. *)
Definition file_path_json (folder_name : string) (slide : row) (size : value)
  : outcome string :=
  (name <- getitem slide "slideName" ;;
   time <- getitem slide "time" ;;
   ext <- getitem slide "slideExt" ;;
   py_format "{0}/{1}-{2}-{3}{4}" [PyStr folder_name; name; size; time; ext] [])%py.

(** [download_slides_xml]: [img_url] of a row. *)
Definition img_url_xml (base_url video_id : string) (r : row) (size : value)
  : outcome string :=
  let base_img_url := base_url +:+ "/{0}/slides/{2}/{1}.jpg" in
  (name <- getitem r "slideName" ;;
   py_format base_img_url [PyStr video_id; name; size] [])%py.

(** [download_slides_xml]: [file_path] of a row. *)
Definition file_path_xml (folder_name : string) (r : row) (size : value)
  : outcome string :=
  (name <- getitem r "slideName" ;;
   time <- getitem r "time" ;;
   py_format "{0}/{3}-{1}-{2}.jpg" [PyStr folder_name; name; size; time] [])%py.

(** [create_ffmpeg_concat_file]: [file_path] of a row, the name written into
    the playlist. *)
Definition concat_file_path (folder_name : string) (r : row) (size : value)
  : outcome string :=
  (name <- getitem r "slideName" ;;
   time <- getitem r "time" ;;
   py_format "{3}-{1}-{2}.jpg" [PyStr folder_name; name; size; time] [])%py.

(** [size_conversion = dict(big=1080, medium=540)] and
    [size_conversion.get(args.size, args.size)]. *)
Definition size_conversion : row := [("big", PyInt 1080); ("medium", PyInt 540)]%string.

Definition resolve_size (size : string) : value :=
  dict_get size_conversion size (PyStr size).

Definition nl : string := String newline EmptyString.

(** [time_sec = row.get('timeSec', row['time']/1000)]: the default is computed
    before [get] is called. *)
Definition time_sec_of (r : row) : outcome value :=
  (time <- getitem r "time" ;;
   default <- py_truediv time 1000 ;;
   Ok (dict_get r "timeSec" default))%py.

Section Script.

Context (E : environment).

(** *** Library calls *)

(** A system call asks the environment whether it fails. *)
Definition sys (c : syscall) : M unit :=
  fun w => match os_error E w c with
           | Some e => (Raise e, w)
           | None => (Ok tt, w)
           end.

(** [os.path.exists(p)]. *)
Definition path_exists (p : string) : M bool :=
  fun w => (Ok (match fs w !! p with Some _ => true | None => false end), w).

(** [os.path.isfile(p)]. *)
Definition path_isfile (p : string) : M bool :=
  fun w => (Ok (match fs w !! p with Some (File _) => true | _ => false end), w).

(** [os.mkdir(p)]. *)
Definition os_mkdir (p : string) : M unit :=
  (sys (SysMkdir p) ;;;
   fun w => match fs w !! p with
            | Some _ => (Raise (Exn "FileExistsError" p), w)
            | None => (Ok tt, World (<[p := Dir]> (fs w)) (trace w))
            end)%io.

(** [open(p, 'r')]: the text that will be read from the file. *)
Definition open_read (p : string) : M string :=
  (sys (SysOpenRead p) ;;;
   fun w => match fs w !! p with
            | Some (File d) => (Ok d, w)
            | Some Dir => (Raise (Exn "IsADirectoryError" p), w)
            | None => (Raise (Exn "FileNotFoundError" p), w)
            end)%io.

(** [open(p, 'wb')]: the file is created or truncated. *)
Definition open_write (p : string) : M unit :=
  (sys (SysOpenWrite p) ;;;
   fun w => match fs w !! p with
            | Some Dir => (Raise (Exn "IsADirectoryError" p), w)
            | _ => (Ok tt, World (<[p := File EmptyString]> (fs w)) (trace w))
            end)%io.

(** [open(p, 'a')]: the file is created if it is missing. *)
Definition open_append (p : string) : M unit :=
  (sys (SysOpenAppend p) ;;;
   fun w => match fs w !! p with
            | Some Dir => (Raise (Exn "IsADirectoryError" p), w)
            | Some (File _) => (Ok tt, w)
            | None => (Ok tt, World (<[p := File EmptyString]> (fs w)) (trace w))
            end)%io.

(** [f.write(data)] on the open file [p]: the data goes to its end. *)
Definition file_write (p : string) (data : string) : M unit :=
  (sys (SysWrite p) ;;;
   fun w => let old := match fs w !! p with Some (File d) => d | _ => EmptyString end in
            (Ok tt, World (<[p := File (old +:+ data)]> (fs w)) (trace w)))%io.

(** [time.sleep(secs)]. *)
Definition time_sleep (secs : spec_float) : M unit :=
  (sys (SysSleep secs) ;;; log (EvSleep secs))%io.

(** [requests.get(url, headers=headers)]: one network fetch. *)
Definition requests_dot_get (url : string) (h : headers) : M response :=
  fun w => let w' := World (fs w) (trace w ++ [EvGet url h]) in
           match requests_get E w url h with
           | inl e => (Raise e, w')
           | inr r => (Ok r, w')
           end.

(** [r.raise_for_status()] of [requests]: an [HTTPError] for a status from
    400 to 599. *)
Definition raise_for_status (r : response) : M unit :=
  if (400 <=? status_code r) && (status_code r <? 500) then
    lift (Raise (HTTPError (str_of_Z (status_code r) +:+ " Client Error: " +:+ reason r
                            +:+ " for url: " +:+ resp_url r)))
  else if (500 <=? status_code r) && (status_code r <? 600) then
    lift (Raise (HTTPError (str_of_Z (status_code r) +:+ " Server Error: " +:+ reason r
                            +:+ " for url: " +:+ resp_url r)))
  else ret tt.

(** [json.load(f)] and [et.parse(f).getroot()] on the text of a file. *)
Definition json_dot_load (text : string) : M value :=
  lift (match json_load E text with inl e => Raise e | inr v => Ok v end).

Definition et_dot_parse (text : string) : M element :=
  lift (match et_parse E text with inl e => Raise e | inr v => Ok v end).

(** *** The functions of the script *)

(** Other column lists than distinct plain tag names are not modelled. *)
Definition parse_xml (xml_file : string) (df_cols : list string) : M DataFrame :=
  (xroot <- et_dot_parse xml_file ;;
   if plain_columns df_cols then ret (parse_xml_root (pandas_na E) xroot df_cols)
   else lift Unmodelled)%io.

Definition parse_json (json_file : string) : M slide_dict :=
  (parsed <- json_dot_load json_file ;;
   lift (parse_json_value parsed))%io.

Definition get_video_id (video_url : string) : M (string * string) :=
  let ids := re_findall video_url in
  match ids with
  | [] =>
      (msg <- lift (py_format "Error: {0} is not a correct url." [PyStr video_url] []) ;;
       print msg ;;;
       exit)%io
  | g :: _ => ret (g_id g, g_name g)
  end.

Definition download_save_file (url save_path : string) (h : headers)
    (wait_time : spec_float) : M unit :=
  (r <- requests_dot_get url h ;;
   raise_for_status r ;;;
   open_write save_path ;;;
   file_write save_path (content r) ;;;
   time_sleep wait_time)%io.

Definition download_slides_info_xml (base_xml_url video_id download_folder : string)
    (h : headers) (wait_time : spec_float) : M string :=
  (file_path <- lift (py_format "{0}/{1}.xml" [PyStr download_folder; PyStr video_id] []) ;;
   present <- path_exists file_path ;;
   (if negb present then
      xml_url <- lift (py_format "{0}/{1}/{1}.xml" [PyStr base_xml_url; PyStr video_id] []) ;;
      msg <- lift (py_format "downloading {}" [PyStr file_path] []) ;;
      print msg ;;;
      download_save_file xml_url file_path h wait_time
    else ret tt) ;;;
   open_read file_path)%io.

Definition download_slides_info_json (base_url video_id download_folder : string)
    (h : headers) (wait_time : spec_float) : M string :=
  (file_path <- lift (py_format "{0}/slides.json" [PyStr download_folder; PyStr video_id] []) ;;
   present <- path_exists file_path ;;
   (if negb present then
      url <- lift (py_format "{0}/{1}/v6/slides.json" [PyStr base_url; PyStr video_id] []) ;;
      msg <- lift (py_format "downloading {}" [PyStr file_path] []) ;;
      print msg ;;;
      download_save_file url file_path h wait_time
    else ret tt) ;;;
   open_read file_path)%io.

(** [download_slides_info], block by block.  First the folder of the video:
    created when missing; a plain file of that name ends the run. *)
Definition ensure_folder (folder_name : string) : M unit :=
  (present <- path_exists folder_name ;;
   (if negb present then os_mkdir folder_name else ret tt) ;;;
   isfile <- path_isfile folder_name ;;
   if isfile then
     msg <- lift (py_format "Error: {0} is a file, can't create a folder with that name"
                            [PyStr folder_name] []) ;;
     print msg ;;;
     exit
   else ret tt)%io.

(** The body of the [try]: the JSON manifest. *)
Definition json_attempt (base_json_url video_id folder_name : string)
    (h : headers) (wait_time : spec_float) : M slides_info :=
  (info_json <- download_slides_info_json base_json_url video_id folder_name h wait_time ;;
   d <- parse_json info_json ;;
   ret (FromJson d))%io.

(** The body of the [except]: the XML manifest. *)
Definition xml_fallback (base_xml_url video_id folder_name : string)
    (h : headers) (wait_time : spec_float) : M slides_info :=
  (print "Failed downloading JSON, falling back to XML" ;;;
   xml <- download_slides_info_xml base_xml_url video_id folder_name h wait_time ;;
   df <- parse_xml xml ["orderId"; "timeSec"; "time"; "slideName"]%string ;;
   ret (FromXml df))%io.

Definition download_slides_info (base_json_url base_xml_url video_id video_name : string)
    (h : headers) (wait_time : spec_float) : M slides_info :=
  (folder_name <- lift (folder_name_of video_id video_name) ;;
   ensure_folder folder_name ;;;
   try_except_all
     (json_attempt base_json_url video_id folder_name h wait_time)
     (xml_fallback base_xml_url video_id folder_name h wait_time))%io.

(** The [try] of both download loops: a failed download of one image is
    reported and skipped. *)
Definition try_download (img_url file_path : string) (h : headers)
    (wait_time : spec_float) : M unit :=
  try_except_Exception
    (download_save_file img_url file_path h wait_time)
    (fun e =>
       msg <- lift (py_format "Skipping due to error: {}" [PyStr (exn_msg e)] []) ;;
       print msg)%io.

(** The body of the loop of [download_slides_json]. *)
Definition download_slide_json (video_id folder_name : string) (size : value)
    (base_url : string) (h : headers) (wait_time : spec_float) (slide : row) : M unit :=
  (img_url <- lift (img_url_json base_url video_id slide size) ;;
   file_path <- lift (file_path_json folder_name slide size) ;;
   msg <- lift (py_format "downloading {}" [PyStr file_path] []) ;;
   print msg ;;;
   try_download img_url file_path h wait_time)%io.

Definition download_slides_json (video_id video_name : string) (slide_info : slide_dict)
    (size : value) (base_url : string) (h : headers) (wait_time : spec_float) : M unit :=
  (folder_name <- lift (folder_name_of video_id video_name) ;;
   for_each (slides slide_info)
     (download_slide_json video_id folder_name size base_url h wait_time))%io.

(** The body of the loop of [download_slides_xml]. *)
Definition download_slide_xml (video_id folder_name : string) (size : value)
    (base_url : string) (h : headers) (wait_time : spec_float) (item : nat * row)
  : M unit :=
  let '(index, row) := item in
  (img_url <- lift (img_url_xml base_url video_id row size) ;;
   file_path <- lift (file_path_xml folder_name row size) ;;
   msg <- lift (py_format "downloading {}" [PyStr file_path] []) ;;
   print msg ;;;
   try_download img_url file_path h wait_time)%io.

Definition download_slides_xml (video_id video_name : string) (slide_info : DataFrame)
    (size : value) (base_url : string) (h : headers) (wait_time : spec_float) : M unit :=
  (folder_name <- lift (folder_name_of video_id video_name) ;;
   for_each (iterrows slide_info)
     (download_slide_xml video_id folder_name size base_url h wait_time))%io.

(** The loop of [create_ffmpeg_concat_file] on the open file [f], with its two
    variables [last_time] and [last_file_path] passed along; it returns the
    final [last_file_path]. *)
Fixpoint concat_loop (f folder_name : string) (size : value)
    (slides_iterator : list (nat * row)) (last_time : Z) (last_file_path : string)
  : M string :=
  match slides_iterator with
  | [] => ret last_file_path
  | (index, row) :: rest =>
      (time_sec <- lift (time_sec_of row) ;;
       diff <- lift (py_sub time_sec last_time) ;;
       duration <- lift (py_int diff) ;;
       (if negb (index =? 0)%nat then
          line <- lift (py_format ("duration {0}" +:+ nl) [PyInt duration] []) ;;
          file_write f line
        else ret tt) ;;;
       file_path <- lift (concat_file_path folder_name row size) ;;
       line' <- lift (py_format ("file '{0}'" +:+ nl) [PyStr file_path] []) ;;
       file_write f line' ;;;
       last_time' <- lift (py_int time_sec) ;;
       concat_loop f folder_name size rest last_time' file_path)%io
  end.

Definition create_ffmpeg_concat_file (video_id video_name : string)
    (slides_iterator : list (nat * row)) (size : value) : M unit :=
  (folder_name <- lift (folder_name_of video_id video_name) ;;
   ffmpeg_file_path <- lift (py_format "{0}/ffmpeg_concat.txt" [PyStr folder_name] []) ;;
   present <- path_exists ffmpeg_file_path ;;
   if present then ret tt
   else
     open_append ffmpeg_file_path ;;;
     last_file_path <- concat_loop ffmpeg_file_path folder_name size slides_iterator
                         0 EmptyString ;;
     file_write ffmpeg_file_path ("duration 30" +:+ nl) ;;;
     line <- lift (py_format ("file '{0}'" +:+ nl) [PyStr last_file_path] []) ;;
     file_write ffmpeg_file_path line)%io.

(** *** The entry point *)

(** The parsed command line. *)
Record arguments := MkArguments {
  arg_url : string;
  arg_size : string;
  arg_useragent : string;
  arg_baseolddataurl : string;
  arg_basedataurl : string;
  arg_basemetadataurl : string;
  arg_waittime : spec_float
}.

(** [s.rstrip('/')]. *)
Fixpoint rstrip_slash (s : string) : string :=
  match s with
  | EmptyString => EmptyString
  | String c s' =>
      match rstrip_slash s' with
      | EmptyString => if Ascii.eqb c "/" then EmptyString else String c EmptyString
      | r => String c r
      end
  end.

(** The block under the [__main__] guard, after [parse_args]. *)
Definition main (args : arguments) : M unit :=
  let basedataurl := rstrip_slash (arg_basedataurl args) in
  let basemetadataurl := rstrip_slash (arg_basemetadataurl args) in
  let h : headers := [("User-Agent", arg_useragent args)]%string in
  (ids <- get_video_id (arg_url args) ;;
   let '(video_id, video_name) := ids in
   info <- download_slides_info basemetadataurl basemetadataurl video_id video_name
             h (arg_waittime args) ;;
   match info with
   | FromJson d =>
       let size := resolve_size (arg_size args) in
       download_slides_json video_id video_name d size basedataurl h (arg_waittime args) ;;;
       create_ffmpeg_concat_file video_id video_name (enumerate (slides d))
         (PyStr (arg_size args))
   | FromXml df =>
       print "Failed to download using JSON metadata, falling back to XML" ;;;
       download_slides_xml video_id video_name df (PyStr (arg_size args))
         (arg_baseolddataurl args) h (arg_waittime args) ;;;
       create_ffmpeg_concat_file video_id video_name (iterrows df) (PyStr (arg_size args))
   end)%io.

End Script.

(** * Specification vocabulary

    Predicates and data that the properties below are stated with. *)

(** Where a greedy star over the class [f] stops: at the end of the string or
    at a character outside the class. *)
Definition stops (f : ascii -> bool) (s : string) : Prop :=
  match s with
  | EmptyString => True
  | String c _ => f c = false
  end.

Definition is_tld (tld : string) : Prop := tld = "com" \/ tld = "de".

(** The text a match covers, group by group. *)
Definition matched_text (tld id name rest : string) : string :=
  "https://slideslive." +:+ tld +:+ "/" +:+ id +:+ "/" +:+ name +:+ rest.

(** The pattern occurs in [url]: some part of it reads
    [https://slideslive.<tld>/<digits>/...]. *)
Definition pattern_occurs (url : string) : Prop :=
  exists pre tld id name rest,
    is_tld tld /\ all_digits id = true /\ string_all is_name_char name = true /\
    url = pre +:+ matched_text tld id name rest.


(** *** Manifests *)

(** A field of a raw JSON object, and a field of its [image] object. *)
Definition raw_field (k : string) (v : value) : option value :=
  match v with
  | PyDict d => dict_lookup k d
  | _ => None
  end.

Definition raw_image_field (k : string) (slide : value) : option value :=
  match raw_field "image" slide with
  | Some image => raw_field k image
  | None => None
  end.

(** An entry of the [slides] array that has the structure [parse_json] reads:
    an object with an [image] object holding [name] and [extname], and a
    [time]. *)
Definition valid_entry (slide : value) : Prop :=
  is_Some (raw_image_field "name" slide) /\
  is_Some (raw_image_field "extname" slide) /\
  is_Some (raw_field "time" slide).

(** A structurally valid JSON manifest and its [slides] array. *)
Definition valid_manifest (parsed : value) (entries : list value) : Prop :=
  raw_field "slides" parsed = Some (PyList entries) /\ Forall valid_entry entries.

(** The columns [download_slides_info] asks [parse_xml] for. *)
Definition manifest_columns : list string := ["orderId"; "timeSec"; "time"; "slideName"].

(** A decimal numeral read as a number. *)
Definition Z_of_decimal (s : string) : option Z :=
  match NilZero.int_of_string s with
  | Some d => Some (Z.of_int d)
  | None => None
  end.

(** A cell read as a number: an int, or text that is a decimal numeral. *)
Definition as_number (v : value) : option Z :=
  match v with
  | PyInt z => Some z
  | PyStr s => Z_of_decimal s
  | _ => None
  end.

(** A row carries a time stamp in milliseconds derived from its [timeSec]:
    some cell of the row is the number 1000 times [timeSec]. *)
Definition millis_from_timeSec (r : row) : Prop :=
  exists sec k v,
    (match dict_lookup "timeSec" r with Some c => as_number c | None => None end) = Some sec /\
    dict_lookup k r = Some v /\
    as_number v = Some (sec * 1000).

(** *** Example data *)

(** An XML manifest with one slide, shown 5 seconds into the talk, whose
    [time] element reads 7. *)
Definition xml_one_slide : element :=
  Element "videoContent" None [
    Element "slide" None [
      Element "orderId" (Some "0") [];
      Element "timeSec" (Some "5") [];
      Element "time" (Some "7") [];
      Element "slideName" (Some "slide_0001") []]].

(** A JSON manifest with three slides at 0, 2000 and 5000 milliseconds. *)
Definition json_entry (name : string) (time : Z) : value :=
  PyDict [("image", PyDict [("name", PyStr name); ("extname", PyStr ".png")]);
          ("time", PyInt time)].

Definition json_three_slides : value :=
  PyDict [("slides", PyList [json_entry "a" 0; json_entry "b" 2000; json_entry "c" 5000])].

(** An environment with a working operating system: a fetch of [url] is
    answered with status [status_of url] and body [body_of url]; the parsers
    read the text [JSON] as [json_three_slides] and the text [XML] as
    [xml_one_slide], and reject any other text; pandas stores a missing cell
    as [nan]. *)
Definition example_env (status_of : string -> Z) (body_of : string -> string) : environment :=
  Environment
    (fun _ url _ => inr (Response (status_of url) "" url (body_of url)))
    (fun _ _ => None)
    (fun text => if String.eqb text "JSON" then inr json_three_slides
                 else inl (Exn "JSONDecodeError" "Expecting value"))
    (fun text => if String.eqb text "XML" then inr xml_one_slide
                 else inl (Exn "ParseError" "syntax error"))
    (fun _ _ => MissingNaN).

(** *** URLs and names *)

(** A base URL without braces: [str.format] copies it unchanged. *)
Definition is_brace (c : ascii) : bool := (Ascii.eqb c "{" || Ascii.eqb c "}")%char.

Definition brace_free (s : string) : Prop :=
  string_all (fun c => negb (is_brace c)) s = true.


(** The query string of a JSON-schema image URL for the height [h]. *)
Definition image_query (h : string) : string :=
  "?h=" +:+ h +:+ "&f=webp&s=lambda&accelerate_s3=1".

(** *** Traces *)

(** The world in which the fetch of a missing manifest is issued: the
    [downloading] line has been printed. *)
Definition announced (w : world) (path : string) : world :=
  World (fs w) (trace w ++ [EvPrint ("downloading " +:+ path)]).

(** The world in which the XML fallback starts: its line has been printed. *)
Definition told_of_fallback (w : world) : world :=
  World (fs w) (trace w ++ [EvPrint "Failed downloading JSON, falling back to XML"]).

(** The URLs fetched over the network, in order. *)
Fixpoint fetches (t : list event) : list string :=
  match t with
  | [] => []
  | EvGet url _ :: t' => url :: fetches t'
  | _ :: t' => fetches t'
  end.



(** *** An example run

    The talk [https://slideslive.com/123/talk] with the default command line;
    its JSON manifest is [json_three_slides], its XML manifest
    [xml_one_slide]. *)

Definition example_args : arguments :=
  MkArguments "https://slideslive.com/123/talk" "big" "Mozilla/5.0"
    "https://d2ygwrecguqg66.cloudfront.net/data/presentations"
    "https://d1qcbvwoy8vxsg.cloudfront.net/"
    "https://slides.slideslive.com"
    (S754_finite false 7205759403792794 (-55)).

Definition example_json_url : string := "https://slides.slideslive.com/123/v6/slides.json".
Definition example_xml_url : string := "https://slides.slideslive.com/123/123.xml".
Definition example_image_url (name : string) : string :=
  "https://d1qcbvwoy8vxsg.cloudfront.net/123/slides/" +:+ name
  +:+ ".png?h=1080&f=webp&s=lambda&accelerate_s3=1".

Definition example_body (url : string) : string :=
  if String.eqb url example_json_url then "JSON"
  else if String.eqb url example_xml_url then "XML"
  else "IMG".

(** Every fetch succeeds. *)
Definition env_ok : environment := example_env (fun _ => 200) example_body.

(** The JSON manifest is answered 404. *)
Definition env_json_404 : environment :=
  example_env (fun url => if String.eqb url example_json_url then 404 else 200) example_body.

(** The JSON manifest is answered 300, with its text as the body. *)
Definition env_json_300 : environment :=
  example_env (fun url => if String.eqb url example_json_url then 300 else 200) example_body.

(** The image of the second slide is answered 404. *)
Definition env_image_404 : environment :=
  example_env (fun url => if String.eqb url (example_image_url "b") then 404 else 200)
    example_body.

(** The slides [parse_json] returns for [json_three_slides]. *)
Definition example_slide (name : string) (time : Z) : row :=
  [("slideName", PyStr name); ("slideExt", PyStr ".png"); ("time", PyInt time)].

Definition example_slides : slide_dict :=
  SlideDict [example_slide "a" 0; example_slide "b" 2000; example_slide "c" 5000].

Definition empty_world : world := World ∅ [].

(** The world after [c] has run in [w]. *)
Definition after {A} (c : M A) (w : world) : world := snd (c w).

(** *** The playlist *)

(** A line of [ffmpeg_concat.txt]. *)
Inductive playlist_line :=
| FileLine (path : string)
| DurationLine (seconds : Z).

Definition render_line (l : playlist_line) : string :=
  match l with
  | FileLine p => "file '" +:+ p +:+ "'" +:+ nl
  | DurationLine d => "duration " +:+ str_of_Z d +:+ nl
  end.

Fixpoint render (ls : list playlist_line) : string :=
  match ls with
  | [] => ""
  | l :: ls' => render_line l +:+ render ls'
  end.

Definition is_file_line (l : playlist_line) : bool :=
  match l with FileLine _ => true | DurationLine _ => false end.

Definition is_duration_line (l : playlist_line) : bool :=
  match l with FileLine _ => false | DurationLine _ => true end.

(** The operating system never fails. *)
Definition os_reliable (E : environment) : Prop :=
  forall w c, os_error E w c = None.

(** The world [w] with the text of the file [f] replaced. *)
Definition with_file (f data : string) (w : world) : world :=
  World (<[f := File data]> (fs w)) (trace w).

(** A slide as [parse_json] builds it. *)
Definition json_slide (name : string) (ext : value) (time : Z) : row :=
  [("slideName", PyStr name); ("slideExt", ext); ("time", PyInt time)].

(** The playlist of three slides named [n1], [n2], [n3] that start at 0, 2000
    and 5000 milliseconds, for the size [big]. *)
Definition three_slide_playlist (n1 n2 n3 : string) : list playlist_line :=
  [FileLine ("0-" +:+ n1 +:+ "-big.jpg"); DurationLine 2;
   FileLine ("2000-" +:+ n2 +:+ "-big.jpg"); DurationLine 3;
   FileLine ("5000-" +:+ n3 +:+ "-big.jpg"); DurationLine 30;
   FileLine ("5000-" +:+ n3 +:+ "-big.jpg")].

(** The path of the playlist of a video. *)
Definition playlist_path (video_id video_name : string) : string :=
  (video_id +:+ "-" +:+ video_name) +:+ "/ffmpeg_concat.txt".

(** *** Further vocabulary *)

(** The character [c] occurs in [s]. *)
Fixpoint has_char (c : ascii) (s : string) : bool :=
  match s with
  | EmptyString => false
  | String d s' => Ascii.eqb c d || has_char c s'
  end.

(** The last character of [s] is [c]. *)
Fixpoint ends_with (c : ascii) (s : string) : bool :=
  match s with
  | EmptyString => false
  | String d EmptyString => Ascii.eqb c d
  | String _ s' => ends_with c s'
  end.

(** [n] copies of the character [c]. *)
Fixpoint replicate_char (n : nat) (c : ascii) : string :=
  match n with
  | O => EmptyString
  | S n' => String c (replicate_char n' c)
  end.

(** The headers of every fetch in a trace are [h]. *)
Fixpoint fetched_with (h : headers) (t : list event) : Prop :=
  match t with
  | [] => True
  | EvGet _ h' :: t' => h' = h /\ fetched_with h t'
  | _ :: t' => fetched_with h t'
  end.

(** The lines of the playlist of a deck: the file of every slide in order,
    each but the first preceded by the duration of the slide before it, then
    the closing [duration 30] and the file of the last slide once more. *)
Fixpoint inner_lines (paths : list string) (durations : list Z) : list playlist_line :=
  match paths, durations with
  | p :: paths', d :: durations' =>
      DurationLine d :: FileLine p :: inner_lines paths' durations'
  | _, _ => []
  end.

Definition deck_lines (first : string) (paths : list string) (durations : list Z)
  : list playlist_line :=
  FileLine first :: inner_lines paths durations
  ++ [DurationLine 30; FileLine (List.last paths first)].

(** The lines the playlist loop writes from the index [i] on: the duration
    line is left out at index 0. *)
Fixpoint loop_lines (i : nat) (paths : list string) (durations : list Z)
  : list playlist_line :=
  match paths, durations with
  | p :: paths', d :: durations' =>
      (if (i =? 0)%nat then [] else [DurationLine d])
      ++ FileLine p :: loop_lines (S i) paths' durations'
  | _, _ => []
  end.

(** From [w] to [w'] the run has only added events, and every fetch among
    them was sent with the headers [h]. *)
Definition run_within (h : headers) (w w' : world) : Prop :=
  exists t, trace w' = trace w ++ t /\ fetched_with h t.

(** Every run of the computation [c] stays within [h]. *)
Definition stays_within (h : headers) {A} (c : M A) : Prop :=
  forall w o w', c w = (o, w') -> run_within h w w'.
(** * Properties *)

#[local] Arguments String.append !s1 s2 : simpl nomatch.

(** ** Strings *)

Lemma append_empty_r (s : string) : s +:+ "" = s.
Proof. induction s as [|c s IH]; simpl; congruence. Qed.

Lemma append_assoc (a b c : string) : (a +:+ b) +:+ c = a +:+ (b +:+ c).
Proof. induction a as [|x a IH]; simpl; congruence. Qed.

Lemma strip_prefix_app (p s : string) : strip_prefix p (p +:+ s) = Some s.
Proof.
  induction p as [|c p IH]; simpl; [reflexivity|].
  rewrite Ascii.eqb_refl. exact IH.
Qed.

Lemma strip_prefix_Some (p s r : string) : strip_prefix p s = Some r -> s = p +:+ r.
Proof.
  revert s. induction p as [|c p IH]; intros s H; simpl in *.
  - congruence.
  - destruct s as [|d s]; [discriminate|].
    destruct (Ascii.eqb c d) eqn:Hcd; [|discriminate].
    apply Ascii.eqb_eq in Hcd. subst d. f_equal. auto.
Qed.

Lemma span_app (f : ascii -> bool) (a b : string) :
  string_all f a = true -> stops f b -> span f (a +:+ b) = (a, b).
Proof.
  induction a as [|c a IH]; simpl; intros Ha Hb.
  - destruct b as [|d b]; simpl in *; [reflexivity|]. rewrite Hb. reflexivity.
  - apply andb_true_iff in Ha as [Hc Ha]. rewrite Hc, (IH Ha Hb). reflexivity.
Qed.

Lemma span_spec (f : ascii -> bool) (s a b : string) :
  span f s = (a, b) -> s = a +:+ b /\ string_all f a = true /\ stops f b.
Proof.
  revert a b. induction s as [|c s IH]; simpl; intros a b H.
  - inversion H; subst. simpl. auto.
  - destruct (f c) eqn:Hc.
    + destruct (span f s) as [a' b'] eqn:Hs. inversion H; subst.
      destruct (IH a' b eq_refl) as (-> & Ha & Hb). simpl. rewrite Hc. auto.
    + inversion H; subst. simpl. auto.
Qed.

(** ** The URL pattern *)

Lemma match_after_tld_app (tld id name rest : string) :
  all_digits id = true -> string_all is_name_char name = true ->
  stops is_name_char rest ->
  exists r, match_after_tld tld (tld +:+ "/" +:+ id +:+ "/" +:+ name +:+ rest)
            = Some (Groups tld id name r).
Proof.
  intros Hid Hname Hrest. unfold match_after_tld.
  rewrite strip_prefix_app. simpl.
  rewrite (span_app is_digit id (String "/" (name +:+ rest)) Hid eq_refl). simpl.
  rewrite (span_app is_name_char name rest Hname Hrest).
  destruct (span is_dot_char rest) as [r t]. eauto.
Qed.

Lemma match_here_matched (tld id name rest : string) :
  is_tld tld -> all_digits id = true -> string_all is_name_char name = true ->
  stops is_name_char rest ->
  exists r, match_here (matched_text tld id name rest) = Some (Groups tld id name r).
Proof.
  intros Htld Hid Hname Hrest.
  destruct (match_after_tld_app tld id name rest Hid Hname Hrest) as [r Hr].
  exists r. unfold match_here, matched_text.
  rewrite strip_prefix_app.
  destruct Htld as [-> | ->].
  - rewrite Hr. reflexivity.
  - replace (match_after_tld "com" ("de" +:+ "/" +:+ id +:+ "/" +:+ name +:+ rest))
      with (@None groups) by reflexivity.
    exact Hr.
Qed.

Lemma match_after_tld_inv (tld s : string) (g : groups) :
  match_after_tld tld s = Some g ->
  g_tld g = tld /\ all_digits (g_id g) = true /\
  string_all is_name_char (g_name g) = true /\
  exists tail, s = tld +:+ "/" +:+ g_id g +:+ "/" +:+ g_name g +:+ tail.
Proof.
  unfold match_after_tld. intros H.
  destruct (strip_prefix tld s) as [s1|] eqn:H1; [|discriminate].
  destruct (strip_prefix "/" s1) as [s2|] eqn:H2; [|discriminate].
  destruct (span is_digit s2) as [id s3] eqn:H3.
  destruct (strip_prefix "/" s3) as [s4|] eqn:H4; [|discriminate].
  destruct (span is_name_char s4) as [name s5] eqn:H5.
  destruct (span is_dot_char s5) as [rest t] eqn:H6.
  inversion H; subst g; simpl.
  apply strip_prefix_Some in H1, H2, H4.
  apply span_spec in H3 as (H3 & Hid & _).
  apply span_spec in H5 as (H5 & Hname & _).
  repeat split; auto.
  exists s5. subst. reflexivity.
Qed.

Lemma match_here_inv (s : string) (g : groups) :
  match_here s = Some g ->
  is_tld (g_tld g) /\ all_digits (g_id g) = true /\
  string_all is_name_char (g_name g) = true /\
  exists tail, s = matched_text (g_tld g) (g_id g) (g_name g) tail.
Proof.
  unfold match_here, matched_text. intros H.
  destruct (strip_prefix "https://slideslive." s) as [s0|] eqn:H0; [|discriminate].
  apply strip_prefix_Some in H0.
  assert (exists tld, is_tld tld /\ match_after_tld tld s0 = Some g) as (tld & Htld & Hm).
  { destruct (match_after_tld "com" s0) eqn:Hc.
    - exists "com". split; [left; reflexivity | congruence].
    - exists "de". split; [right; reflexivity | assumption]. }
  apply match_after_tld_inv in Hm as (Ht & Hid & Hname & tail & ->).
  rewrite Ht. repeat split; auto. exists tail. subst. reflexivity.
Qed.

(** Every match that [re.findall] reports starts somewhere in the string. *)
Lemma findall_from_inv (s : string) (k : nat) (g : groups) (l : list groups) :
  findall_from k s = g :: l ->
  exists pre suf, s = pre +:+ suf /\ match_here suf = Some g.
Proof.
  revert k. induction s as [|c s IH]; intros k H; simpl in H; [discriminate|].
  destruct k as [|k].
  - destruct (match_here (String c s)) as [g'|] eqn:Hm.
    + inversion H; subst. exists "", (String c s). auto.
    + destruct (IH 0%nat H) as (pre & suf & -> & Hs).
      exists (String c pre), suf. auto.
  - destruct (IH k H) as (pre & suf & -> & Hs).
    exists (String c pre), suf. auto.
Qed.

Lemma re_findall_head (tld id name rest : string) :
  is_tld tld -> all_digits id = true -> string_all is_name_char name = true ->
  stops is_name_char rest ->
  exists r l, re_findall (matched_text tld id name rest) = Groups tld id name r :: l.
Proof.
  intros Htld Hid Hname Hrest.
  destruct (match_here_matched tld id name rest Htld Hid Hname Hrest) as [r Hr].
  exists r. unfold re_findall.
  remember (matched_text tld id name rest) as s eqn:Hs.
  destruct s as [|c s]; [discriminate|].
  simpl. rewrite Hr. eauto.
Qed.

Lemma re_findall_occurs (url : string) (g : groups) (l : list groups) :
  re_findall url = g :: l ->
  exists pre rest,
    is_tld (g_tld g) /\ all_digits (g_id g) = true /\
    string_all is_name_char (g_name g) = true /\
    url = pre +:+ matched_text (g_tld g) (g_id g) (g_name g) rest.
Proof.
  intros H. apply findall_from_inv in H as (pre & suf & -> & Hm).
  apply match_here_inv in Hm as (Ht & Hid & Hname & tail & ->).
  exists pre, tail. auto.
Qed.

Lemma format_error_url (url : string) :
  py_format "Error: {0} is not a correct url." [PyStr url] []
  = Ok ("Error: " +:+ url +:+ " is not a correct url.").
Proof. reflexivity. Qed.

Lemma get_video_id_anchored (tld id name rest : string) (w : world) :
  is_tld tld -> all_digits id = true -> string_all is_name_char name = true ->
  stops is_name_char rest ->
  get_video_id (matched_text tld id name rest) w = (Ok (id, name), w).
Proof.
  intros Htld Hid Hname Hrest.
  destruct (re_findall_head tld id name rest Htld Hid Hname Hrest) as (r & l & H).
  unfold get_video_id. rewrite H. reflexivity.
Qed.

Lemma get_video_id_no_match (url : string) (w : world) :
  re_findall url = [] ->
  get_video_id url w
  = (Exit, World (fs w)
             (trace w ++ [EvPrint ("Error: " +:+ url +:+ " is not a correct url.")])).
Proof.
  intros H. unfold get_video_id. rewrite H.
  unfold bind, lift. rewrite format_error_url. reflexivity.
Qed.


(** The pattern occurs exactly when [re.findall] finds a match. *)
Lemma findall_from_occurrence (pre tld id tail : string) :
  is_tld tld -> all_digits id = true ->
  findall_from 0 (pre +:+ matched_text tld id tail "") <> [].
Proof.
  intros Htld Hid.
  destruct (span is_name_char tail) as [name rest] eqn:Hsp.
  apply span_spec in Hsp as (-> & Hname & Hrest).
  assert (matched_text tld id (name +:+ rest) "" = matched_text tld id name rest) as ->.
  { unfold matched_text. now rewrite append_empty_r. }
  destruct (match_here_matched tld id name rest Htld Hid Hname Hrest) as [r Hr].
  induction pre as [|c pre IH].
  - change ("" +:+ matched_text tld id name rest) with (matched_text tld id name rest).
    remember (matched_text tld id name rest) as s eqn:Hs.
    destruct s as [|c s]; [discriminate|].
    simpl. rewrite Hr. discriminate.
  - simpl. destruct (match_here (String c (pre +:+ matched_text tld id name rest))).
    + discriminate.
    + exact IH.
Qed.

Lemma pattern_occurs_findall (url : string) :
  pattern_occurs url <-> re_findall url <> [].
Proof.
  split.
  - intros (pre & tld & id & name & rest & Htld & Hid & _ & ->).
    assert (matched_text tld id name rest = matched_text tld id (name +:+ rest) "") as ->.
    { unfold matched_text. now rewrite append_empty_r. }
    now apply findall_from_occurrence.
  - intros H. destruct (re_findall url) as [|g l] eqn:Hf; [congruence|].
    apply re_findall_occurs in Hf as (pre & rest & Ht & Hid & Hname & ->).
    exists pre, (g_tld g), (g_id g), (g_name g), rest. auto.
Qed.


(** C10: the identifier may be empty.  A URL with nothing between the two
    slashes after the host, such as [https://slideslive.com//name], is
    accepted, and the identifier it resolves to is the empty string. *)
Theorem get_video_id_empty_id :
  get_video_id "https://slideslive.com//name" (World ∅ []) = (Ok ("", "name"), World ∅ [])
  /\ forall tld name rest w,
       is_tld tld -> string_all is_name_char name = true -> stops is_name_char rest ->
       get_video_id ("https://slideslive." +:+ tld +:+ "//" +:+ name +:+ rest) w
       = (Ok ("", name), w).
Proof.
  split; [reflexivity|].
  intros tld name rest w Htld Hname Hrest.
  assert ("https://slideslive." +:+ tld +:+ "//" +:+ name +:+ rest
          = matched_text tld "" name rest) as ->.
  { reflexivity. }
  now apply get_video_id_anchored.
Qed.

Lemma get_video_id_empty_id_witness :
  get_video_id ("https://slideslive." +:+ "de" +:+ "//" +:+ "some-talk" +:+ "?t=1")
    (World ∅ [EvPrint "start"])
  = (Ok ("", "some-talk"), World ∅ [EvPrint "start"]).
Proof.
  apply (proj2 get_video_id_empty_id "de" "some-talk" "?t=1");
    [right; reflexivity | reflexivity | reflexivity].
Defined.

(** ** The JSON manifest *)

Lemma subscript_raw_field (v : value) (k : string) (x : value) :
  raw_field k v = Some x -> subscript v k = Ok x.
Proof.
  destruct v; simpl; try discriminate. unfold getitem. now intros ->.
Qed.

Lemma slide_entry_valid (slide : value) :
  valid_entry slide ->
  exists name ext time,
    raw_image_field "name" slide = Some name /\
    raw_image_field "extname" slide = Some ext /\
    raw_field "time" slide = Some time /\
    slide_entry slide = Ok [("slideName", name); ("slideExt", ext); ("time", time)].
Proof.
  intros ([name Hn] & [ext He] & [time Ht]).
  exists name, ext, time. repeat split; auto.
  unfold raw_image_field in *.
  destruct (raw_field "image" slide) as [image|] eqn:Hi; [|discriminate].
  unfold slide_entry.
  rewrite (subscript_raw_field _ _ _ Hi). simpl.
  rewrite (subscript_raw_field _ _ _ Hn). simpl.
  rewrite (subscript_raw_field _ _ _ He). simpl.
  rewrite (subscript_raw_field _ _ _ Ht). reflexivity.
Qed.

Lemma omap_slide_entry (entries : list value) :
  Forall valid_entry entries ->
  exists rows,
    omap slide_entry entries = Ok rows /\
    length rows = length entries /\
    forall i entry, entries !! i = Some entry ->
      exists r, rows !! i = Some r /\
        dict_lookup "slideName" r = raw_image_field "name" entry /\
        dict_lookup "slideExt" r = raw_image_field "extname" entry /\
        dict_lookup "time" r = raw_field "time" entry.
Proof.
  induction 1 as [|entry entries Hv _ IH].
  - exists []. repeat split; auto. intros i e H. destruct i; discriminate.
  - destruct IH as (rows & Hrows & Hlen & Hnth).
    destruct (slide_entry_valid entry Hv) as (name & ext & time & Hn & He & Ht & Hs).
    exists ([("slideName", name); ("slideExt", ext); ("time", time)] :: rows).
    split; [|split].
    + simpl. rewrite Hs. simpl. rewrite Hrows. reflexivity.
    + simpl. congruence.
    + intros [|i] e Hi; simpl in Hi.
      * inversion Hi; subst e. eexists. split; [reflexivity|].
        rewrite Hn, He, Ht. auto.
      * apply Hnth. exact Hi.
Qed.

(** C9: on a structurally valid JSON manifest [parse_json] succeeds, leaves
    the world alone, and returns as many slides as the manifest's [slides]
    array has and in the same order: slide [i] of the output carries the
    [time] of entry [i] unchanged (and its image name and extension). *)
Theorem parse_json_preserves (E : environment) (json_file : string)
    (parsed : value) (entries : list value) (w : world) :
  json_load E json_file = inr parsed ->
  valid_manifest parsed entries ->
  exists d,
    parse_json E json_file w = (Ok d, w) /\
    length (slides d) = length entries /\
    forall i entry, entries !! i = Some entry ->
      exists r, slides d !! i = Some r /\
        dict_lookup "time" r = raw_field "time" entry /\
        dict_lookup "slideName" r = raw_image_field "name" entry /\
        dict_lookup "slideExt" r = raw_image_field "extname" entry.
Proof.
  intros Hload [Hslides Hvalid].
  destruct (omap_slide_entry entries Hvalid) as (rows & Hrows & Hlen & Hnth).
  exists (SlideDict rows). split; [|split].
  - unfold parse_json, json_dot_load, bind, lift. rewrite Hload.
    unfold parse_json_value. rewrite (subscript_raw_field _ _ _ Hslides). simpl.
    rewrite Hrows. reflexivity.
  - exact Hlen.
  - intros i entry Hi. destruct (Hnth i entry Hi) as (r & Hr & Hn & He & Ht).
    exists r. auto.
Qed.

Lemma parse_json_preserves_witness :
  exists d,
    parse_json (example_env (fun _ => 200) (fun _ => "JSON")) "JSON" (World ∅ [])
    = (Ok d, World ∅ []) /\
    length (slides d) = 3%nat /\
    forall i entry,
      [json_entry "a" 0; json_entry "b" 2000; json_entry "c" 5000] !! i = Some entry ->
      exists r, slides d !! i = Some r /\
        dict_lookup "time" r = raw_field "time" entry /\
        dict_lookup "slideName" r = raw_image_field "name" entry /\
        dict_lookup "slideExt" r = raw_image_field "extname" entry.
Proof.
  apply (parse_json_preserves (example_env (fun _ => 200) (fun _ => "JSON")) "JSON"
           json_three_slides [json_entry "a" 0; json_entry "b" 2000; json_entry "c" 5000]).
  - reflexivity.
  - split; [reflexivity|].
    repeat constructor; simpl; eauto.
Defined.

(** ** The XML manifest *)

Lemma row_of_node_manifest (node : element) :
  row_of_node manifest_columns node
  = [("orderId", cell node "orderId"); ("timeSec", cell node "timeSec");
     ("time", cell node "time"); ("slideName", cell node "slideName")].
Proof. reflexivity. Qed.

(** A cell is the text of the sub-element, never a number. *)
Lemma cell_text (node : element) (el : string) :
  cell node el = match node_find node el with
                 | Some (Element _ (Some s) _) => PyStr s
                 | _ => PyNone
                 end.
Proof.
  unfold cell. destruct (node_find node el) as [[t [s|] c]|]; reflexivity.
Qed.

(** The rows of the DataFrame: the dict of each child of the root, with its
    missing cells as pandas stores them. *)
Lemma dict_lookup_store_row (na : string -> missing) (r : row) (k : string) :
  dict_lookup k (store_row na r) = store_cell (na k) <$> dict_lookup k r.
Proof.
  induction r as [|[k' v] r IH]; simpl; [reflexivity|].
  destruct (String.eqb k k') eqn:He; [|exact IH].
  apply String.eqb_eq in He. subst k'. reflexivity.
Qed.

Lemma store_row_keys (na : string -> missing) (r : row) :
  map fst (store_row na r) = map fst r.
Proof. unfold store_row. rewrite map_map. reflexivity. Qed.

Lemma parse_xml_root_lookup (na : nat -> string -> missing) (xroot : element)
    (df_cols : list string) (i : nat) :
  df_rows (parse_xml_root na xroot df_cols) !! i
  = (fun node => store_row (na i) (row_of_node df_cols node)) <$> children_of xroot !! i.
Proof.
  unfold parse_xml_root, pd_DataFrame. cbn [df_rows].
  rewrite list_lookup_imap, list_lookup_fmap.
  destruct (children_of xroot !! i); reflexivity.
Qed.

Lemma parse_xml_root_length (na : nat -> string -> missing) (xroot : element)
    (df_cols : list string) :
  length (df_rows (parse_xml_root na xroot df_cols)) = length (children_of xroot).
Proof.
  unfold parse_xml_root, pd_DataFrame. cbn [df_rows].
  rewrite length_imap. apply length_map.
Qed.

Lemma parse_xml_manifest (E : environment) (xml_file : string) (xroot : element)
    (w : world) :
  et_parse E xml_file = inr xroot ->
  parse_xml E xml_file manifest_columns w
  = (Ok (parse_xml_root (pandas_na E) xroot manifest_columns), w).
Proof.
  intros Hparse. unfold parse_xml, et_dot_parse, bind, lift. rewrite Hparse. reflexivity.
Qed.

(** A cell whose sub-element has text is that text in the row of the
    DataFrame, whatever pandas does with missing cells. *)
Lemma manifest_cell_text (na : string -> missing) (node : element) (c t s : string)
    (cs : list element) :
  c ∈ manifest_columns ->
  node_find node c = Some (Element t (Some s) cs) ->
  getitem (store_row na (row_of_node manifest_columns node)) c = Ok (PyStr s).
Proof.
  intros Hc Hfind. unfold getitem.
  rewrite dict_lookup_store_row, row_of_node_manifest.
  unfold manifest_columns in Hc.
  repeat (apply elem_of_cons in Hc as [-> | Hc]);
    [| | | | inversion Hc];
    cbn [dict_lookup String.eqb Ascii.eqb Bool.eqb fmap option_fmap option_map];
    rewrite cell_text, Hfind; reflexivity.
Qed.

(** C3, as the code has it: [parse_xml] returns one row per child of the
    root, in order; every row has the columns [orderId], [timeSec], [time] and
    [slideName], and where the sub-element of that name has text, the cell is
    that text, unchanged, as a string.  So the [time] of a row is the text of
    its [time] element; nothing is computed from [timeSec]. *)
Theorem parse_xml_rows_verbatim (E : environment) (xml_file : string)
    (xroot : element) (w : world) :
  et_parse E xml_file = inr xroot ->
  exists df,
    parse_xml E xml_file manifest_columns w = (Ok df, w) /\
    length (df_rows df) = length (children_of xroot) /\
    forall i node, children_of xroot !! i = Some node ->
      exists r, df_rows df !! i = Some r /\
        map fst r = manifest_columns /\
        forall c t s cs,
          c ∈ manifest_columns ->
          node_find node c = Some (Element t (Some s) cs) ->
          getitem r c = Ok (PyStr s).
Proof.
  intros Hparse.
  exists (parse_xml_root (pandas_na E) xroot manifest_columns). split; [|split].
  - now apply parse_xml_manifest.
  - apply parse_xml_root_length.
  - intros i node Hi.
    exists (store_row (pandas_na E i) (row_of_node manifest_columns node)).
    split; [|split].
    + rewrite parse_xml_root_lookup, Hi. reflexivity.
    + rewrite store_row_keys. reflexivity.
    + intros c t s cs. apply manifest_cell_text.
Qed.

Lemma parse_xml_rows_verbatim_witness :
  exists df,
    parse_xml (example_env (fun _ => 200) (fun _ => "XML")) "XML" manifest_columns
      (World ∅ []) = (Ok df, World ∅ []) /\
    length (df_rows df) = 1%nat /\
    forall i node, children_of xml_one_slide !! i = Some node ->
      exists r, df_rows df !! i = Some r /\
        map fst r = manifest_columns /\
        forall c t s cs,
          c ∈ manifest_columns ->
          node_find node c = Some (Element t (Some s) cs) ->
          getitem r c = Ok (PyStr s).
Proof.
  apply (parse_xml_rows_verbatim (example_env (fun _ => 200) (fun _ => "XML")) "XML"
           xml_one_slide (World ∅ [])).
  reflexivity.
Defined.

(** C3 as stated fails: the manifest [xml_one_slide] is well-formed, its one
    row has [timeSec] 5, and no cell of the row [parse_xml] returns for it is
    the number 5000: the row holds the texts 0, 5, 7 and [slide_0001]. *)
Lemma parse_xml_no_millis :
  exists df,
    parse_xml (example_env (fun _ => 200) (fun _ => "XML")) "XML" manifest_columns
      (World ∅ []) = (Ok df, World ∅ []) /\
    df_rows df
    = [[("orderId", PyStr "0"); ("timeSec", PyStr "5"); ("time", PyStr "7");
        ("slideName", PyStr "slide_0001")]] /\
    ~ (forall r, r ∈ df_rows df -> millis_from_timeSec r).
Proof.
  eexists. split; [reflexivity|]. split; [reflexivity|].
  intros H.
  destruct (H [("orderId", PyStr "0"); ("timeSec", PyStr "5"); ("time", PyStr "7");
               ("slideName", PyStr "slide_0001")]) as (sec & k & v & Hsec & Hk & Hv).
  { left. }
  assert (sec = 5) as -> by (vm_compute in Hsec; congruence).
  cbn [dict_lookup] in Hk.
  repeat match type of Hk with
         | (if ?b then _ else _) = _ => destruct b
         end;
    try discriminate; inversion Hk; subst v; vm_compute in Hv; discriminate.
Qed.

(** ** Remote URLs and local names *)

Lemma format_from_literal (args : list value) (kwargs : row) (num : option numbering)
    (pre template : string) :
  brace_free pre ->
  format_from args kwargs FLit num (pre +:+ template)
  = (r <- format_from args kwargs FLit num template ;; Ok (pre +:+ r))%py.
Proof.
  unfold brace_free. induction pre as [|c pre IH]; simpl; intros H.
  - destruct (format_from args kwargs FLit num template); reflexivity.
  - apply andb_true_iff in H as [Hc H]. unfold is_brace in Hc.
    apply negb_true_iff, orb_false_iff in Hc as [-> ->].
    rewrite (IH H).
    destruct (format_from args kwargs FLit num template); reflexivity.
Qed.

Lemma folder_name_of_eq (video_id video_name : string) :
  folder_name_of video_id video_name = Ok (video_id +:+ "-" +:+ video_name).
Proof. unfold folder_name_of. cbn. now rewrite append_empty_r. Qed.

Lemma img_url_json_eq (base_url video_id : string) (slide : row) (size : value)
    (name ext h : string) :
  brace_free base_url ->
  getitem slide "slideName" = Ok (PyStr name) ->
  getitem slide "slideExt" = Ok (PyStr ext) ->
  py_str size = Ok h ->
  img_url_json base_url video_id slide size
  = Ok (base_url +:+ "/" +:+ video_id +:+ "/slides/" +:+ name +:+ ext +:+ image_query h).
Proof.
  intros Hb Hn He Hs. unfold img_url_json, py_format.
  rewrite Hn, He. cbn [obind py_add].
  rewrite (format_from_literal _ _ _ _ _ Hb). cbn. rewrite Hs. cbn.
  now rewrite append_assoc.
Qed.

(** C7: the size aliases [big] and [medium] resolve to the heights 1080 and
    540, any other token resolves to itself, and the resolved size is what the
    JSON-schema image URL carries as its [h] parameter: [h=1080] for [big],
    [h=540] for [medium], and the token verbatim (for example [h=720]) for
    anything else. *)
Theorem size_alias_in_image_url :
  resolve_size "big" = PyInt 1080 /\
  resolve_size "medium" = PyInt 540 /\
  resolve_size "720" = PyStr "720" /\
  (forall size, size <> "big" -> size <> "medium" -> resolve_size size = PyStr size) /\
  (forall base_url video_id slide name ext,
      brace_free base_url ->
      getitem slide "slideName" = Ok (PyStr name) ->
      getitem slide "slideExt" = Ok (PyStr ext) ->
      img_url_json base_url video_id slide (resolve_size "big")
      = Ok (base_url +:+ "/" +:+ video_id +:+ "/slides/" +:+ name +:+ ext
            +:+ "?h=1080&f=webp&s=lambda&accelerate_s3=1") /\
      img_url_json base_url video_id slide (resolve_size "medium")
      = Ok (base_url +:+ "/" +:+ video_id +:+ "/slides/" +:+ name +:+ ext
            +:+ "?h=540&f=webp&s=lambda&accelerate_s3=1") /\
      forall size, size <> "big" -> size <> "medium" ->
        img_url_json base_url video_id slide (resolve_size size)
        = Ok (base_url +:+ "/" +:+ video_id +:+ "/slides/" +:+ name +:+ ext
              +:+ "?h=" +:+ size +:+ "&f=webp&s=lambda&accelerate_s3=1")).
Proof.
  assert (Hother : forall size, size <> "big" -> size <> "medium" ->
                                resolve_size size = PyStr size).
  { intros size Hb Hm. unfold resolve_size, dict_get, size_conversion. simpl.
    destruct (String.eqb size "big") eqn:E1; [apply String.eqb_eq in E1; contradiction|].
    destruct (String.eqb size "medium") eqn:E2; [apply String.eqb_eq in E2; contradiction|].
    reflexivity. }
  split; [reflexivity|]. split; [reflexivity|]. split; [reflexivity|].
  split; [exact Hother|].
  intros base_url video_id slide name ext Hb Hn He.
  split; [|split].
  - exact (img_url_json_eq _ _ _ (PyInt 1080) _ _ "1080" Hb Hn He eq_refl).
  - exact (img_url_json_eq _ _ _ (PyInt 540) _ _ "540" Hb Hn He eq_refl).
  - intros size H1 H2. rewrite (Hother size H1 H2).
    exact (img_url_json_eq _ _ _ (PyStr size) _ _ size Hb Hn He eq_refl).
Qed.

Lemma size_alias_in_image_url_witness :
  img_url_json "https://d1qcbvwoy8vxsg.cloudfront.net" "38956531"
    [("slideName", PyStr "slide_0001"); ("slideExt", PyStr ".png"); ("time", PyInt 0)]
    (resolve_size "big")
  = Ok "https://d1qcbvwoy8vxsg.cloudfront.net/38956531/slides/slide_0001.png?h=1080&f=webp&s=lambda&accelerate_s3=1"
  /\ img_url_json "https://d1qcbvwoy8vxsg.cloudfront.net" "38956531"
       [("slideName", PyStr "slide_0001"); ("slideExt", PyStr ".png"); ("time", PyInt 0)]
       (resolve_size "720")
     = Ok "https://d1qcbvwoy8vxsg.cloudfront.net/38956531/slides/slide_0001.png?h=720&f=webp&s=lambda&accelerate_s3=1".
Proof.
  destruct size_alias_in_image_url as (_ & _ & _ & _ & H).
  destruct (H "https://d1qcbvwoy8vxsg.cloudfront.net" "38956531"
              [("slideName", PyStr "slide_0001"); ("slideExt", PyStr ".png");
               ("time", PyInt 0)]
              "slide_0001" ".png" eq_refl eq_refl eq_refl) as (Hbig & _ & Hother).
  split.
  - exact Hbig.
  - apply (Hother "720"); discriminate.
Defined.

(** ** The fetch layer *)

Lemma fetches_app (t1 t2 : list event) : fetches (t1 ++ t2) = fetches t1 ++ fetches t2.
Proof.
  induction t1 as [|e t1 IH]; simpl; [reflexivity|].
  destruct e; simpl; congruence.
Qed.

Ltac unfold_io :=
  unfold download_save_file, requests_dot_get, raise_for_status, open_write, open_read,
    open_append, file_write, time_sleep, os_mkdir, path_exists, path_isfile, sys, log,
    print, exit, lift, ret, bind in *.

(** A download that succeeds fetched once, stored the body and slept. *)
Lemma download_save_file_ok (E : environment) (url save_path : string) (h : headers)
    (wait_time : spec_float) (w w' : world) :
  download_save_file E url save_path h wait_time w = (Ok tt, w') ->
  exists r,
    requests_get E w url h = inr r /\
    fs w' = <[save_path := File (content r)]> (fs w) /\
    trace w' = trace w ++ [EvGet url h; EvSleep wait_time].
Proof.
  intros H. unfold_io.
  repeat (case_match; simplify_eq/=; rewrite ?lookup_insert_eq in *; simplify_eq/=);
    eexists; (split; [reflexivity|]);
    rewrite ?insert_insert_eq, <- ?app_assoc; simpl; auto.
Qed.



Lemma format_downloading (path : string) :
  py_format "downloading {}" [PyStr path] [] = Ok ("downloading " +:+ path).
Proof. cbn. now rewrite append_empty_r. Qed.



Lemma file_path_json_eq (folder_name : string) (slide : row) (size time : value)
    (name ext s t : string) :
  getitem slide "slideName" = Ok (PyStr name) ->
  getitem slide "slideExt" = Ok (PyStr ext) ->
  getitem slide "time" = Ok time ->
  py_str size = Ok s -> py_str time = Ok t ->
  file_path_json folder_name slide size
  = Ok (folder_name +:+ "/" +:+ name +:+ "-" +:+ s +:+ "-" +:+ t +:+ ext).
Proof.
  intros Hn He Ht Hs Hpt. unfold file_path_json. rewrite Hn, Ht, He.
  cbn. rewrite Hs. cbn. rewrite Hpt. cbn. now rewrite append_empty_r.
Qed.

Lemma img_url_xml_eq (base_url video_id : string) (r : row) (size name : value)
    (n s : string) :
  brace_free base_url ->
  getitem r "slideName" = Ok name ->
  py_str name = Ok n -> py_str size = Ok s ->
  img_url_xml base_url video_id r size
  = Ok (base_url +:+ "/" +:+ video_id +:+ "/slides/" +:+ s +:+ "/" +:+ n +:+ ".jpg").
Proof.
  intros Hb Hn Hpn Hs. unfold img_url_xml, py_format. rewrite Hn. cbn [obind].
  rewrite (format_from_literal _ _ _ _ _ Hb). cbn. rewrite Hs. cbn. rewrite Hpn. cbn.
  reflexivity.
Qed.

Lemma file_path_xml_eq (folder_name : string) (r : row) (size name time : value)
    (n s t : string) :
  getitem r "slideName" = Ok name -> getitem r "time" = Ok time ->
  py_str name = Ok n -> py_str size = Ok s -> py_str time = Ok t ->
  file_path_xml folder_name r size
  = Ok (folder_name +:+ "/" +:+ t +:+ "-" +:+ n +:+ "-" +:+ s +:+ ".jpg").
Proof.
  intros Hn Ht Hpn Hs Hpt. unfold file_path_xml. rewrite Hn, Ht.
  cbn. rewrite Hpt. cbn. rewrite Hpn. cbn. rewrite Hs. reflexivity.
Qed.

Lemma concat_file_path_eq (folder_name : string) (r : row) (size name time : value)
    (n s t : string) :
  getitem r "slideName" = Ok name -> getitem r "time" = Ok time ->
  py_str name = Ok n -> py_str size = Ok s -> py_str time = Ok t ->
  concat_file_path folder_name r size
  = Ok (t +:+ "-" +:+ n +:+ "-" +:+ s +:+ ".jpg").
Proof.
  intros Hn Ht Hpn Hs Hpt. unfold concat_file_path. rewrite Hn, Ht.
  cbn. rewrite Hpt. cbn. rewrite Hpn. cbn. rewrite Hs. reflexivity.
Qed.







(** When the JSON attempt raises, [download_slides_info] is the XML
    fallback. *)
Lemma download_slides_info_fallback (E : environment)
    (base_json_url base_xml_url video_id video_name : string) (h : headers)
    (wait_time : spec_float) (w w1 w2 : world) (e : exn) :
  ensure_folder E (video_id +:+ "-" +:+ video_name) w = (Ok tt, w1) ->
  json_attempt E base_json_url video_id (video_id +:+ "-" +:+ video_name) h wait_time w1
  = (Raise e, w2) ->
  download_slides_info E base_json_url base_xml_url video_id video_name h wait_time w
  = xml_fallback E base_xml_url video_id (video_id +:+ "-" +:+ video_name) h wait_time w2.
Proof.
  intros Hfolder Hjson. unfold download_slides_info, bind, lift.
  rewrite folder_name_of_eq, Hfolder. unfold try_except_all. rewrite Hjson. reflexivity.
Qed.


(** ** The metadata resolver *)

Lemma file_write_appends (E : environment) (f data d : string) (w : world) :
  os_reliable E -> fs w !! f = Some (File d) ->
  file_write E f data w = (Ok tt, with_file f (d +:+ data) w).
Proof.
  intros Hos Hf. unfold file_write, sys, bind. rewrite Hos, Hf. reflexivity.
Qed.

Lemma with_file_lookup (f data : string) (w : world) :
  fs (with_file f data w) !! f = Some (File data).
Proof. apply lookup_insert_eq. Qed.

Lemma with_file_twice (f d1 d2 : string) (w : world) :
  with_file f d2 (with_file f d1 w) = with_file f d2 w.
Proof. unfold with_file. cbn [fs trace]. now rewrite insert_insert_eq. Qed.

Lemma bind_run {A B} (c : M A) (k : A -> M B) (w w' : world) (a : A) :
  c w = (Ok a, w') -> bind c k w = k a w'.
Proof. intros H. unfold bind. now rewrite H. Qed.

Lemma bind_lift {A B} (o : outcome A) (k : A -> M B) (w : world) (a : A) :
  o = Ok a -> bind (lift o) k w = k a w.
Proof. intros ->. reflexivity. Qed.

Lemma open_write_truncates (E : environment) (p : string) (w : world) :
  os_reliable E -> fs w !! p <> Some Dir ->
  open_write E p w = (Ok tt, with_file p "" w).
Proof.
  intros Hos Hp. unfold open_write, sys, bind. rewrite Hos.
  destruct (fs w !! p) as [[d|]|]; try congruence; reflexivity.
Qed.

Lemma time_sleep_logs (E : environment) (secs : spec_float) (w : world) :
  os_reliable E ->
  time_sleep E secs w = (Ok tt, World (fs w) (trace w ++ [EvSleep secs])).
Proof.
  intros Hos. unfold time_sleep, sys, bind. rewrite Hos. reflexivity.
Qed.

Lemma print_logs (msg : string) (w : world) :
  print msg w = (Ok tt, World (fs w) (trace w ++ [EvPrint msg])).
Proof. reflexivity. Qed.

Lemma open_read_file (E : environment) (p d : string) (w : world) :
  os_reliable E -> fs w !! p = Some (File d) -> open_read E p w = (Ok d, w).
Proof.
  intros Hos Hp. unfold open_read, sys, bind. rewrite Hos, Hp. reflexivity.
Qed.

Lemma raise_for_status_passes (r : response) :
  status_code r < 400 \/ 600 <= status_code r -> raise_for_status r = ret tt.
Proof.
  intros Hstatus. unfold raise_for_status.
  destruct Hstatus as [Hlt | Hge].
  - replace (400 <=? status_code r) with false by (symmetry; apply Z.leb_gt; lia).
    replace (500 <=? status_code r) with false by (symmetry; apply Z.leb_gt; lia).
    reflexivity.
  - replace (status_code r <? 500) with false by (symmetry; apply Z.ltb_ge; lia).
    replace (status_code r <? 600) with false by (symmetry; apply Z.ltb_ge; lia).
    rewrite !andb_false_r. reflexivity.
Qed.

(** A response that [raise_for_status] lets pass is written to the local
    path. *)
Lemma download_save_file_good (E : environment) (url save_path : string)
    (h : headers) (wait_time : spec_float) (w : world) (r : response) :
  os_reliable E ->
  requests_get E w url h = inr r ->
  status_code r < 400 \/ 600 <= status_code r ->
  fs w !! save_path <> Some Dir ->
  download_save_file E url save_path h wait_time w
  = (Ok tt, World (<[save_path := File (content r)]> (fs w))
              (trace w ++ [EvGet url h; EvSleep wait_time])).
Proof.
  intros Hos Hget Hstatus Hdir.
  unfold download_save_file, requests_dot_get, bind at 1. rewrite Hget.
  rewrite (raise_for_status_passes r Hstatus).
  erewrite bind_run by reflexivity.
  erewrite bind_run by (apply open_write_truncates; assumption).
  erewrite bind_run by (apply file_write_appends; [assumption | apply with_file_lookup]).
  rewrite (time_sleep_logs E _ _ Hos), with_file_twice.
  unfold with_file. cbn [fs trace]. rewrite <- app_assoc. reflexivity.
Qed.

Lemma format_slides_json_path (folder video_id : string) :
  py_format "{0}/slides.json" [PyStr folder; PyStr video_id] []
  = Ok (folder +:+ "/slides.json").
Proof. reflexivity. Qed.

Lemma format_slides_json_url (base_url video_id : string) :
  py_format "{0}/{1}/v6/slides.json" [PyStr base_url; PyStr video_id] []
  = Ok (base_url +:+ "/" +:+ video_id +:+ "/v6/slides.json").
Proof. reflexivity. Qed.

Lemma format_xml_path (folder video_id : string) :
  py_format "{0}/{1}.xml" [PyStr folder; PyStr video_id] []
  = Ok (folder +:+ "/" +:+ video_id +:+ ".xml").
Proof. reflexivity. Qed.

Lemma format_xml_url (base_url video_id : string) :
  py_format "{0}/{1}/{1}.xml" [PyStr base_url; PyStr video_id] []
  = Ok (base_url +:+ "/" +:+ video_id +:+ "/" +:+ video_id +:+ ".xml").
Proof. reflexivity. Qed.

(** A transport failure of the JSON fetch makes the JSON attempt raise. *)
Lemma json_attempt_network_failure (E : environment) (base_url video_id folder : string)
    (h : headers) (wait_time : spec_float) (w : world) (e : exn) :
  fs w !! (folder +:+ "/slides.json") = None ->
  requests_get E (announced w (folder +:+ "/slides.json"))
    (base_url +:+ "/" +:+ video_id +:+ "/v6/slides.json") h = inl e ->
  exists w', json_attempt E base_url video_id folder h wait_time w = (Raise e, w').
Proof.
  intros Hfile Hget.
  unfold json_attempt, download_slides_info_json, bind, lift.
  rewrite format_slides_json_path. unfold path_exists at 1. rewrite Hfile. cbn [negb].
  rewrite format_slides_json_url, format_downloading.
  unfold print, log, download_save_file, bind, requests_dot_get.
  unfold announced in Hget. cbn [fs trace]. rewrite Hget. eauto.
Qed.

(** So does a response with an error status, from 400 to 599. *)
Lemma json_attempt_http_error (E : environment) (base_url video_id folder : string)
    (h : headers) (wait_time : spec_float) (w : world) (r : response) :
  fs w !! (folder +:+ "/slides.json") = None ->
  requests_get E (announced w (folder +:+ "/slides.json"))
    (base_url +:+ "/" +:+ video_id +:+ "/v6/slides.json") h = inr r ->
  400 <= status_code r < 600 ->
  exists e w',
    json_attempt E base_url video_id folder h wait_time w = (Raise e, w') /\
    exn_class e = "HTTPError".
Proof.
  intros Hfile Hget Hstatus.
  unfold json_attempt, download_slides_info_json, bind, lift.
  rewrite format_slides_json_path. unfold path_exists at 1. rewrite Hfile. cbn [negb].
  rewrite format_slides_json_url, format_downloading.
  unfold print, log, download_save_file, bind, requests_dot_get.
  unfold announced in Hget. cbn [fs trace]. rewrite Hget.
  unfold raise_for_status, lift.
  destruct (status_code r <? 500) eqn:H5.
  - replace (400 <=? status_code r) with true by (symmetry; apply Z.leb_le; lia).
    cbn [andb]. eauto.
  - replace (500 <=? status_code r) with true
      by (symmetry; apply Z.leb_le; apply Z.ltb_ge in H5; lia).
    replace (status_code r <? 600) with true by (symmetry; apply Z.ltb_lt; lia).
    rewrite andb_false_r. cbn [andb]. eauto.
Qed.

(** And so does a manifest that cannot be parsed or lacks the structure
    [parse_json] reads. *)
Lemma json_attempt_malformed (E : environment) (base_url video_id folder : string)
    (h : headers) (wait_time : spec_float) (w w' : world) (text : string) (e : exn) :
  download_slides_info_json E base_url video_id folder h wait_time w = (Ok text, w') ->
  (json_load E text = inl e \/
   exists parsed, json_load E text = inr parsed /\ parse_json_value parsed = Raise e) ->
  json_attempt E base_url video_id folder h wait_time w = (Raise e, w').
Proof.
  intros Hdl Hbad. unfold json_attempt, bind. rewrite Hdl.
  unfold parse_json, json_dot_load, bind, lift.
  destruct Hbad as [-> | (parsed & -> & ->)]; reflexivity.
Qed.

(** What the XML fallback returns is a DataFrame. *)
Lemma xml_fallback_tag (E : environment) (base_xml_url video_id folder : string)
    (h : headers) (wait_time : spec_float) (w w' : world) (info : slides_info) :
  xml_fallback E base_xml_url video_id folder h wait_time w = (Ok info, w') ->
  exists df, info = FromXml df.
Proof.
  unfold xml_fallback, bind, ret. intros H.
  repeat (case_match; simplify_eq/=). eauto.
Qed.

(** A missing XML manifest is fetched from [<base>/<id>/<id>.xml], written to
    [<folder>/<id>.xml] and read back. *)
Lemma download_slides_info_xml_fetched (E : environment) (base_url video_id folder : string)
    (h : headers) (wait_time : spec_float) (w : world) (r : response) :
  os_reliable E ->
  fs w !! (folder +:+ "/" +:+ video_id +:+ ".xml") = None ->
  requests_get E (announced w (folder +:+ "/" +:+ video_id +:+ ".xml"))
    (base_url +:+ "/" +:+ video_id +:+ "/" +:+ video_id +:+ ".xml") h = inr r ->
  status_code r < 400 \/ 600 <= status_code r ->
  download_slides_info_xml E base_url video_id folder h wait_time w
  = (Ok (content r),
     World (<[folder +:+ "/" +:+ video_id +:+ ".xml" := File (content r)]> (fs w))
       (trace w ++ [EvPrint ("downloading " +:+ (folder +:+ "/" +:+ video_id +:+ ".xml"));
                    EvGet (base_url +:+ "/" +:+ video_id +:+ "/" +:+ video_id +:+ ".xml") h;
                    EvSleep wait_time])).
Proof.
  intros Hos Hfile Hget Hstatus.
  unfold download_slides_info_xml.
  rewrite (bind_lift _ _ _ _ (format_xml_path folder video_id)).
  erewrite bind_run by (unfold path_exists; rewrite Hfile; reflexivity).
  cbn [negb].
  erewrite bind_run.
  2:{ rewrite (bind_lift _ _ _ _ (format_xml_url base_url video_id)).
      rewrite (bind_lift _ _ _ _ (format_downloading _)).
      erewrite bind_run by apply print_logs.
      apply (download_save_file_good E _ _ h wait_time _ r Hos Hget Hstatus).
      unfold announced. cbn [fs]. rewrite Hfile. discriminate. }
  rewrite (open_read_file E _ (content r)); [|assumption|apply lookup_insert_eq].
  unfold announced. cbn [fs trace]. rewrite <- app_assoc. reflexivity.
Qed.

(** An XML manifest that is on disk is read, not fetched. *)
Lemma download_slides_info_xml_on_disk (E : environment) (base_url video_id folder : string)
    (h : headers) (wait_time : spec_float) (w : world) (text : string) :
  os_reliable E ->
  fs w !! (folder +:+ "/" +:+ video_id +:+ ".xml") = Some (File text) ->
  download_slides_info_xml E base_url video_id folder h wait_time w = (Ok text, w).
Proof.
  intros Hos Hfile.
  unfold download_slides_info_xml.
  rewrite (bind_lift _ _ _ _ (format_xml_path folder video_id)).
  erewrite bind_run by (unfold path_exists; rewrite Hfile; reflexivity).
  cbn [negb]. erewrite bind_run by reflexivity.
  now apply open_read_file.
Qed.

(** A missing JSON manifest is fetched from [<base>/<id>/v6/slides.json],
    written to [<folder>/slides.json] and read back. *)
Lemma download_slides_info_json_fetched (E : environment) (base_url video_id folder : string)
    (h : headers) (wait_time : spec_float) (w : world) (r : response) :
  os_reliable E ->
  fs w !! (folder +:+ "/slides.json") = None ->
  requests_get E (announced w (folder +:+ "/slides.json"))
    (base_url +:+ "/" +:+ video_id +:+ "/v6/slides.json") h = inr r ->
  status_code r < 400 \/ 600 <= status_code r ->
  download_slides_info_json E base_url video_id folder h wait_time w
  = (Ok (content r),
     World (<[folder +:+ "/slides.json" := File (content r)]> (fs w))
       (trace w ++ [EvPrint ("downloading " +:+ (folder +:+ "/slides.json"));
                    EvGet (base_url +:+ "/" +:+ video_id +:+ "/v6/slides.json") h;
                    EvSleep wait_time])).
Proof.
  intros Hos Hfile Hget Hstatus.
  unfold download_slides_info_json.
  rewrite (bind_lift _ _ _ _ (format_slides_json_path folder video_id)).
  erewrite bind_run by (unfold path_exists; rewrite Hfile; reflexivity).
  cbn [negb].
  erewrite bind_run.
  2:{ rewrite (bind_lift _ _ _ _ (format_slides_json_url base_url video_id)).
      rewrite (bind_lift _ _ _ _ (format_downloading _)).
      erewrite bind_run by apply print_logs.
      apply (download_save_file_good E _ _ h wait_time _ r Hos Hget Hstatus).
      unfold announced. cbn [fs]. rewrite Hfile. discriminate. }
  rewrite (open_read_file E _ (content r)); [|assumption|apply lookup_insert_eq].
  unfold announced. cbn [fs trace]. rewrite <- app_assoc. reflexivity.
Qed.

(** When the JSON attempt returns, [download_slides_info] returns what it
    returned. *)
Lemma download_slides_info_json_path (E : environment)
    (base_json_url base_xml_url video_id video_name : string) (h : headers)
    (wait_time : spec_float) (w w1 w2 : world) (info : slides_info) :
  ensure_folder E (video_id +:+ "-" +:+ video_name) w = (Ok tt, w1) ->
  json_attempt E base_json_url video_id (video_id +:+ "-" +:+ video_name) h wait_time w1
  = (Ok info, w2) ->
  download_slides_info E base_json_url base_xml_url video_id video_name h wait_time w
  = (Ok info, w2).
Proof.
  intros Hfolder Hjson. unfold download_slides_info, bind, lift.
  rewrite folder_name_of_eq, Hfolder. unfold try_except_all. now rewrite Hjson.
Qed.

(** The XML fallback, step by step, when the manifest has to be fetched. *)
Lemma xml_fallback_fetched (E : environment) (base_xml_url video_id folder : string)
    (h : headers) (wait_time : spec_float) (w : world) (r : response) (xroot : element) :
  os_reliable E ->
  fs w !! (folder +:+ "/" +:+ video_id +:+ ".xml") = None ->
  requests_get E (announced (told_of_fallback w) (folder +:+ "/" +:+ video_id +:+ ".xml"))
    (base_xml_url +:+ "/" +:+ video_id +:+ "/" +:+ video_id +:+ ".xml") h = inr r ->
  status_code r < 400 \/ 600 <= status_code r ->
  et_parse E (content r) = inr xroot ->
  xml_fallback E base_xml_url video_id folder h wait_time w
  = (Ok (FromXml (parse_xml_root (pandas_na E) xroot manifest_columns)),
     World (<[folder +:+ "/" +:+ video_id +:+ ".xml" := File (content r)]> (fs w))
       (trace w ++ [EvPrint "Failed downloading JSON, falling back to XML";
                    EvPrint ("downloading " +:+ (folder +:+ "/" +:+ video_id +:+ ".xml"));
                    EvGet (base_xml_url +:+ "/" +:+ video_id +:+ "/" +:+ video_id +:+ ".xml") h;
                    EvSleep wait_time])).
Proof.
  intros Hos Hfile Hget Hstatus Hparse.
  unfold xml_fallback.
  erewrite bind_run by apply print_logs.
  erewrite bind_run
    by (apply (download_slides_info_xml_fetched E base_xml_url video_id folder h wait_time
                 (told_of_fallback w) r Hos Hfile Hget Hstatus)).
  erewrite bind_run by (apply (parse_xml_manifest E _ xroot _ Hparse)).
  unfold ret, told_of_fallback. cbn [fs trace]. rewrite <- app_assoc. reflexivity.
Qed.

(** The XML fallback when the manifest is on disk. *)
Lemma xml_fallback_on_disk (E : environment) (base_xml_url video_id folder : string)
    (h : headers) (wait_time : spec_float) (w : world) (text : string) (xroot : element) :
  os_reliable E ->
  fs w !! (folder +:+ "/" +:+ video_id +:+ ".xml") = Some (File text) ->
  et_parse E text = inr xroot ->
  xml_fallback E base_xml_url video_id folder h wait_time w
  = (Ok (FromXml (parse_xml_root (pandas_na E) xroot manifest_columns)), told_of_fallback w).
Proof.
  intros Hos Hfile Hparse.
  unfold xml_fallback.
  erewrite bind_run by apply print_logs.
  erewrite bind_run
    by (apply (download_slides_info_xml_on_disk E base_xml_url video_id folder h wait_time
                 (told_of_fallback w) text Hos Hfile)).
  erewrite bind_run by (apply (parse_xml_manifest E _ xroot _ Hparse)).
  reflexivity.
Qed.

Lemma main_xml_branch (E : environment) (args : arguments) (video_id video_name : string)
    (df : DataFrame) (w w' : world) :
  get_video_id (arg_url args) w = (Ok (video_id, video_name), w) ->
  download_slides_info E (rstrip_slash (arg_basemetadataurl args))
    (rstrip_slash (arg_basemetadataurl args)) video_id video_name
    [("User-Agent", arg_useragent args)] (arg_waittime args) w = (Ok (FromXml df), w') ->
  main E args w
  = (print "Failed to download using JSON metadata, falling back to XML" ;;;
     download_slides_xml E video_id video_name df (PyStr (arg_size args))
       (arg_baseolddataurl args) [("User-Agent", arg_useragent args)] (arg_waittime args) ;;;
     create_ffmpeg_concat_file E video_id video_name (iterrows df)
       (PyStr (arg_size args)))%io w'.
Proof.
  intros Hid Hinfo. unfold main. unfold bind at 1. rewrite Hid.
  unfold bind at 1. rewrite Hinfo. reflexivity.
Qed.

(** C4, as the code has it: a failure of the JSON path falls back to the XML
    manifest.  When the JSON attempt raises, for whatever reason,
    [download_slides_info] prints the fallback line and then, the operating
    system working: if [<folder>/<id>.xml] is missing, it requests
    [<base>/<id>/<id>.xml]; a response with a status outside 400..599 is
    written to that file, and when the parser reads its body as [xroot] the
    result is the DataFrame of the rows of [xroot], with exactly one request
    after the failure; if the file is on disk, its text is parsed and nothing
    is requested.  In every case, what is returned after a failed JSON attempt
    is a DataFrame, never a dict.  A transport failure, a response with a
    status from 400 to 599 and a manifest that cannot be parsed or is
    malformed each make the JSON attempt raise.  Downstream, [main] takes the
    XML branch for a DataFrame: the XML download loop and the playlist over
    its rows.  A response with any other status is no failure: when its body
    is a well-formed manifest, it is written to [<folder>/slides.json] and
    [download_slides_info] returns the dict of its slides. *)
Theorem json_failure_falls_back_to_xml (E : environment) :
  (forall base_json_url base_xml_url video_id video_name h wait_time w w1 w2 e r xroot,
      os_reliable E ->
      ensure_folder E (video_id +:+ "-" +:+ video_name) w = (Ok tt, w1) ->
      json_attempt E base_json_url video_id (video_id +:+ "-" +:+ video_name) h wait_time w1
      = (Raise e, w2) ->
      fs w2 !! ((video_id +:+ "-" +:+ video_name) +:+ "/" +:+ video_id +:+ ".xml") = None ->
      requests_get E
        (announced (told_of_fallback w2)
           ((video_id +:+ "-" +:+ video_name) +:+ "/" +:+ video_id +:+ ".xml"))
        (base_xml_url +:+ "/" +:+ video_id +:+ "/" +:+ video_id +:+ ".xml") h = inr r ->
      status_code r < 400 \/ 600 <= status_code r ->
      et_parse E (content r) = inr xroot ->
      download_slides_info E base_json_url base_xml_url video_id video_name h wait_time w
      = (Ok (FromXml (parse_xml_root (pandas_na E) xroot manifest_columns)),
         World (<[(video_id +:+ "-" +:+ video_name) +:+ "/" +:+ video_id +:+ ".xml"
                  := File (content r)]> (fs w2))
           (trace w2
            ++ [EvPrint "Failed downloading JSON, falling back to XML";
                EvPrint ("downloading "
                         +:+ ((video_id +:+ "-" +:+ video_name) +:+ "/" +:+ video_id +:+ ".xml"));
                EvGet (base_xml_url +:+ "/" +:+ video_id +:+ "/" +:+ video_id +:+ ".xml") h;
                EvSleep wait_time])))
  /\ (forall base_json_url base_xml_url video_id video_name h wait_time w w1 w2 e text xroot,
      os_reliable E ->
      ensure_folder E (video_id +:+ "-" +:+ video_name) w = (Ok tt, w1) ->
      json_attempt E base_json_url video_id (video_id +:+ "-" +:+ video_name) h wait_time w1
      = (Raise e, w2) ->
      fs w2 !! ((video_id +:+ "-" +:+ video_name) +:+ "/" +:+ video_id +:+ ".xml")
      = Some (File text) ->
      et_parse E text = inr xroot ->
      download_slides_info E base_json_url base_xml_url video_id video_name h wait_time w
      = (Ok (FromXml (parse_xml_root (pandas_na E) xroot manifest_columns)),
         told_of_fallback w2))
  /\ (forall base_json_url base_xml_url video_id video_name h wait_time w w1 w2 e,
      ensure_folder E (video_id +:+ "-" +:+ video_name) w = (Ok tt, w1) ->
      json_attempt E base_json_url video_id (video_id +:+ "-" +:+ video_name) h wait_time w1
      = (Raise e, w2) ->
      download_slides_info E base_json_url base_xml_url video_id video_name h wait_time w
      = xml_fallback E base_xml_url video_id (video_id +:+ "-" +:+ video_name) h wait_time w2
      /\ forall info w3,
           download_slides_info E base_json_url base_xml_url video_id video_name
             h wait_time w = (Ok info, w3) ->
           isinstance_dict info = false /\ exists df, info = FromXml df)
  /\ (forall base_url video_id folder h wait_time w e,
      fs w !! (folder +:+ "/slides.json") = None ->
      requests_get E (announced w (folder +:+ "/slides.json"))
        (base_url +:+ "/" +:+ video_id +:+ "/v6/slides.json") h = inl e ->
      exists w', json_attempt E base_url video_id folder h wait_time w = (Raise e, w'))
  /\ (forall base_url video_id folder h wait_time w r,
      fs w !! (folder +:+ "/slides.json") = None ->
      requests_get E (announced w (folder +:+ "/slides.json"))
        (base_url +:+ "/" +:+ video_id +:+ "/v6/slides.json") h = inr r ->
      400 <= status_code r < 600 ->
      exists e w',
        json_attempt E base_url video_id folder h wait_time w = (Raise e, w') /\
        exn_class e = "HTTPError")
  /\ (forall base_url video_id folder h wait_time w w' text e,
      download_slides_info_json E base_url video_id folder h wait_time w = (Ok text, w') ->
      (json_load E text = inl e \/
       exists parsed, json_load E text = inr parsed /\ parse_json_value parsed = Raise e) ->
      json_attempt E base_url video_id folder h wait_time w = (Raise e, w'))
  /\ (forall args video_id video_name df w w',
      get_video_id (arg_url args) w = (Ok (video_id, video_name), w) ->
      download_slides_info E (rstrip_slash (arg_basemetadataurl args))
        (rstrip_slash (arg_basemetadataurl args)) video_id video_name
        [("User-Agent", arg_useragent args)] (arg_waittime args) w
      = (Ok (FromXml df), w') ->
      main E args w
      = (print "Failed to download using JSON metadata, falling back to XML" ;;;
         download_slides_xml E video_id video_name df (PyStr (arg_size args))
           (arg_baseolddataurl args) [("User-Agent", arg_useragent args)]
           (arg_waittime args) ;;;
         create_ffmpeg_concat_file E video_id video_name (iterrows df)
           (PyStr (arg_size args)))%io w')
  /\ (forall base_json_url base_xml_url video_id video_name h wait_time w w1 r parsed d,
      os_reliable E ->
      ensure_folder E (video_id +:+ "-" +:+ video_name) w = (Ok tt, w1) ->
      fs w1 !! ((video_id +:+ "-" +:+ video_name) +:+ "/slides.json") = None ->
      requests_get E (announced w1 ((video_id +:+ "-" +:+ video_name) +:+ "/slides.json"))
        (base_json_url +:+ "/" +:+ video_id +:+ "/v6/slides.json") h = inr r ->
      status_code r < 400 \/ 600 <= status_code r ->
      json_load E (content r) = inr parsed ->
      parse_json_value parsed = Ok d ->
      download_slides_info E base_json_url base_xml_url video_id video_name h wait_time w
      = (Ok (FromJson d),
         World (<[(video_id +:+ "-" +:+ video_name) +:+ "/slides.json"
                  := File (content r)]> (fs w1))
           (trace w1
            ++ [EvPrint ("downloading "
                         +:+ ((video_id +:+ "-" +:+ video_name) +:+ "/slides.json"));
                EvGet (base_json_url +:+ "/" +:+ video_id +:+ "/v6/slides.json") h;
                EvSleep wait_time]))).
Proof.
  split; [|split; [|split; [|split; [|split; [|split; [|split]]]]]].
  - intros until xroot. intros Hos Hfolder Hjson Hfile Hget Hstatus Hparse.
    rewrite (download_slides_info_fallback E base_json_url base_xml_url video_id
               video_name h wait_time w w1 w2 e Hfolder Hjson).
    now apply xml_fallback_fetched.
  - intros until xroot. intros Hos Hfolder Hjson Hfile Hparse.
    rewrite (download_slides_info_fallback E base_json_url base_xml_url video_id
               video_name h wait_time w w1 w2 e Hfolder Hjson).
    now apply (xml_fallback_on_disk E base_xml_url video_id _ h wait_time w2 text).
  - intros until e. intros Hfolder Hjson.
    pose proof (download_slides_info_fallback E base_json_url base_xml_url video_id
                  video_name h wait_time w w1 w2 e Hfolder Hjson) as Hfb.
    split; [exact Hfb|].
    intros info w3 Hok. rewrite Hfb in Hok.
    apply xml_fallback_tag in Hok as [df ->]. split; [reflexivity | eauto].
  - intros. eapply json_attempt_network_failure; eassumption.
  - intros. eapply json_attempt_http_error; eassumption.
  - intros. eapply json_attempt_malformed; eassumption.
  - intros. now apply main_xml_branch.
  - intros until d. intros Hos Hfolder Hfile Hget Hstatus Hload Hvalue.
    apply (download_slides_info_json_path E base_json_url base_xml_url video_id
             video_name h wait_time w w1 _ _ Hfolder).
    unfold json_attempt.
    erewrite bind_run
      by (apply (download_slides_info_json_fetched E base_json_url video_id _ h wait_time
                   w1 r Hos Hfile Hget Hstatus)).
    unfold parse_json, json_dot_load. rewrite Hload.
    erewrite bind_run by (unfold bind, lift; rewrite Hvalue; reflexivity).
    reflexivity.
Qed.

Lemma json_failure_falls_back_to_xml_witness :
  download_slides_info env_json_404 "https://slides.slideslive.com"
    "https://slides.slideslive.com" "123" "talk" [] (arg_waittime example_args) empty_world
  = (Ok (FromXml (parse_xml_root (pandas_na env_json_404) xml_one_slide manifest_columns)),
     World (<[("123" +:+ "-" +:+ "talk") +:+ "/" +:+ "123" +:+ ".xml"
              := File (content (Response 200 "" example_xml_url "XML"))]>
              (fs (after (json_attempt env_json_404 "https://slides.slideslive.com" "123"
                            "123-talk" [] (arg_waittime example_args))
                         (after (ensure_folder env_json_404 "123-talk") empty_world))))
       (trace (after (json_attempt env_json_404 "https://slides.slideslive.com" "123"
                        "123-talk" [] (arg_waittime example_args))
                     (after (ensure_folder env_json_404 "123-talk") empty_world))
        ++ [EvPrint "Failed downloading JSON, falling back to XML";
            EvPrint ("downloading "
                     +:+ (("123" +:+ "-" +:+ "talk") +:+ "/" +:+ "123" +:+ ".xml"));
            EvGet ("https://slides.slideslive.com" +:+ "/" +:+ "123" +:+ "/" +:+ "123"
                   +:+ ".xml") [];
            EvSleep (arg_waittime example_args)])).
Proof.
  apply (proj1 (json_failure_falls_back_to_xml env_json_404)
           "https://slides.slideslive.com" "https://slides.slideslive.com" "123" "talk" []
           (arg_waittime example_args) empty_world
           (after (ensure_folder env_json_404 "123-talk") empty_world)
           (after (json_attempt env_json_404 "https://slides.slideslive.com" "123"
                     "123-talk" [] (arg_waittime example_args))
                  (after (ensure_folder env_json_404 "123-talk") empty_world))
           (HTTPError "404 Client Error:  for url: https://slides.slideslive.com/123/v6/slides.json")
           (Response 200 "" example_xml_url "XML") xml_one_slide).
  - intros w c. reflexivity.
  - vm_compute. reflexivity.
  - vm_compute. reflexivity.
  - vm_compute. reflexivity.
  - vm_compute. reflexivity.
  - left. cbn. lia.
  - reflexivity.
Defined.

(** C4 as stated fails for the statuses that [raise_for_status] lets pass.
    The JSON manifest is answered with status 300, which is not a 2xx status,
    and the manifest is the body: the body is saved and parsed,
    [download_slides_info] returns the dict of the JSON manifest, the XML
    manifest is neither requested nor written, and [main] downloads the
    images of the JSON slides. *)
Lemma json_status_300_no_fallback :
  requests_get env_json_300 (announced (after (ensure_folder env_json_300 "123-talk")
                                          empty_world) "123-talk/slides.json")
    example_json_url [] = inr (Response 300 "" example_json_url "JSON")
  /\ fst (download_slides_info env_json_300 "https://slides.slideslive.com"
            "https://slides.slideslive.com" "123" "talk" [] (arg_waittime example_args)
            empty_world)
     = Ok (FromJson example_slides)
  /\ trace (after (download_slides_info env_json_300 "https://slides.slideslive.com"
                     "https://slides.slideslive.com" "123" "talk" []
                     (arg_waittime example_args)) empty_world)
     = [EvPrint "downloading 123-talk/slides.json"; EvGet example_json_url [];
        EvSleep (arg_waittime example_args)]
  /\ fs (after (download_slides_info env_json_300 "https://slides.slideslive.com"
                  "https://slides.slideslive.com" "123" "talk" []
                  (arg_waittime example_args)) empty_world) !! "123-talk/123.xml"
     = None
  /\ fetches (trace (after (main env_json_300 example_args) empty_world))
     = [example_json_url;
        example_image_url "a"; example_image_url "b"; example_image_url "c"]
  /\ ~ (forall E base_json_url base_xml_url video_id video_name h wait_time w info w',
          (forall w0 r,
              requests_get E w0 (base_json_url +:+ "/" +:+ video_id +:+ "/v6/slides.json") h
              = inr r ->
              ~ (200 <= status_code r < 300)) ->
          fs w = ∅ ->
          download_slides_info E base_json_url base_xml_url video_id video_name h wait_time w
          = (Ok info, w') ->
          isinstance_dict info = false).
Proof.
  split; [reflexivity|].
  split; [vm_compute; reflexivity|].
  split; [vm_compute; reflexivity|].
  split; [vm_compute; reflexivity|].
  split; [vm_compute; reflexivity|].
  intros H.
  specialize (H env_json_300 "https://slides.slideslive.com" "https://slides.slideslive.com"
                "123" "talk" [] (arg_waittime example_args) empty_world
                (FromJson example_slides)
                (after (download_slides_info env_json_300 "https://slides.slideslive.com"
                          "https://slides.slideslive.com" "123" "talk" []
                          (arg_waittime example_args)) empty_world)).
  assert (isinstance_dict (FromJson example_slides) = false) as Hdict; [|discriminate Hdict].
  apply H.
  - intros w0 r Hget. cbn in Hget.
    injection Hget as <-. cbn. lia.
  - reflexivity.
  - vm_compute. reflexivity.
Qed.


(** ** Fetching once *)

Lemma open_read_world (E : environment) (p : string) (w w' : world) (o : outcome string) :
  open_read E p w = (o, w') -> w' = w.
Proof.
  unfold open_read, sys, bind. intros H.
  repeat (case_match; simplify_eq/=); reflexivity.
Qed.

(** A manifest that is already on disk is not fetched: the call leaves the
    world as it is. *)
Lemma download_slides_info_json_cached (E : environment) (base_url video_id folder : string)
    (h : headers) (wait_time : spec_float) (w : world) :
  is_Some (fs w !! (folder +:+ "/slides.json")) ->
  exists o, download_slides_info_json E base_url video_id folder h wait_time w = (o, w).
Proof.
  intros [x Hx]. unfold download_slides_info_json, bind, lift.
  rewrite format_slides_json_path. unfold path_exists at 1. rewrite Hx. cbn [negb ret].
  destruct (open_read E (folder +:+ "/slides.json") w) as [o w'] eqn:Hr.
  apply open_read_world in Hr as Hw. subst w'. eauto.
Qed.

Lemma download_slides_info_xml_cached (E : environment) (base_url video_id folder : string)
    (h : headers) (wait_time : spec_float) (w : world) :
  is_Some (fs w !! (folder +:+ "/" +:+ video_id +:+ ".xml")) ->
  exists o, download_slides_info_xml E base_url video_id folder h wait_time w = (o, w).
Proof.
  intros [x Hx]. unfold download_slides_info_xml, bind, lift.
  rewrite format_xml_path. unfold path_exists at 1. rewrite Hx. cbn [negb ret].
  destruct (open_read E (folder +:+ "/" +:+ video_id +:+ ".xml") w) as [o w'] eqn:Hr.
  apply open_read_world in Hr as Hw. subst w'. eauto.
Qed.

(** A missing manifest that is downloaded successfully was fetched once, and
    is on disk afterwards. *)
Lemma download_slides_info_json_fresh (E : environment) (base_url video_id folder : string)
    (h : headers) (wait_time : spec_float) (w w1 : world) (text : string) :
  fs w !! (folder +:+ "/slides.json") = None ->
  download_slides_info_json E base_url video_id folder h wait_time w = (Ok text, w1) ->
  fetches (trace w1)
  = fetches (trace w) ++ [base_url +:+ "/" +:+ video_id +:+ "/v6/slides.json"] /\
  is_Some (fs w1 !! (folder +:+ "/slides.json")).
Proof.
  intros Hfile. unfold download_slides_info_json, bind, lift.
  rewrite format_slides_json_path. unfold path_exists at 1. rewrite Hfile. cbn [negb].
  rewrite format_slides_json_url, format_downloading. unfold print, log.
  match goal with
  | |- context [download_save_file E ?u ?p h wait_time ?w0] =>
      destruct (download_save_file E u p h wait_time w0) as [[[]| | |] w2] eqn:Hdl;
        try discriminate
  end.
  apply download_save_file_ok in Hdl as (r & _ & Hfs & Htr). cbn [fs trace] in Hfs, Htr.
  intros Hread.
  destruct (open_read E (folder +:+ "/slides.json") w2) as [o w3] eqn:Hr.
  apply open_read_world in Hr as Hw. inversion Hread; subst.
  rewrite Hfs, Htr, lookup_insert_eq, !fetches_app. simpl.
  rewrite app_nil_r. eauto.
Qed.

Lemma download_slides_info_xml_fresh (E : environment) (base_url video_id folder : string)
    (h : headers) (wait_time : spec_float) (w w1 : world) (text : string) :
  fs w !! (folder +:+ "/" +:+ video_id +:+ ".xml") = None ->
  download_slides_info_xml E base_url video_id folder h wait_time w = (Ok text, w1) ->
  fetches (trace w1)
  = fetches (trace w) ++ [base_url +:+ "/" +:+ video_id +:+ "/" +:+ video_id +:+ ".xml"] /\
  is_Some (fs w1 !! (folder +:+ "/" +:+ video_id +:+ ".xml")).
Proof.
  intros Hfile. unfold download_slides_info_xml, bind, lift.
  rewrite format_xml_path. unfold path_exists at 1. rewrite Hfile. cbn [negb].
  rewrite format_xml_url, format_downloading. unfold print, log.
  match goal with
  | |- context [download_save_file E ?u ?p h wait_time ?w0] =>
      destruct (download_save_file E u p h wait_time w0) as [[[]| | |] w2] eqn:Hdl;
        try discriminate
  end.
  apply download_save_file_ok in Hdl as (r & _ & Hfs & Htr). cbn [fs trace] in Hfs, Htr.
  intros Hread.
  destruct (open_read E (folder +:+ "/" +:+ video_id +:+ ".xml") w2) as [o w3] eqn:Hr.
  apply open_read_world in Hr as Hw. inversion Hread; subst.
  rewrite Hfs, Htr, lookup_insert_eq, !fetches_app. simpl.
  rewrite app_nil_r. eauto.
Qed.

(** C2, as the code has it: the two metadata downloads fetch once.  A
    manifest whose local file exists is not fetched and the call changes
    nothing; a manifest that was missing and is downloaded successfully was
    fetched exactly once, and a second call with the same arguments fetches
    nothing. *)
Theorem metadata_fetched_once (E : environment) :
  (forall base_url video_id folder h wait_time w,
      is_Some (fs w !! (folder +:+ "/slides.json")) ->
      exists o, download_slides_info_json E base_url video_id folder h wait_time w = (o, w))
  /\ (forall base_url video_id folder h wait_time w w1 text,
      fs w !! (folder +:+ "/slides.json") = None ->
      download_slides_info_json E base_url video_id folder h wait_time w = (Ok text, w1) ->
      fetches (trace w1)
      = fetches (trace w) ++ [base_url +:+ "/" +:+ video_id +:+ "/v6/slides.json"] /\
      exists o, download_slides_info_json E base_url video_id folder h wait_time w1 = (o, w1))
  /\ (forall base_url video_id folder h wait_time w,
      is_Some (fs w !! (folder +:+ "/" +:+ video_id +:+ ".xml")) ->
      exists o, download_slides_info_xml E base_url video_id folder h wait_time w = (o, w))
  /\ (forall base_url video_id folder h wait_time w w1 text,
      fs w !! (folder +:+ "/" +:+ video_id +:+ ".xml") = None ->
      download_slides_info_xml E base_url video_id folder h wait_time w = (Ok text, w1) ->
      fetches (trace w1)
      = fetches (trace w) ++ [base_url +:+ "/" +:+ video_id +:+ "/" +:+ video_id +:+ ".xml"] /\
      exists o, download_slides_info_xml E base_url video_id folder h wait_time w1 = (o, w1)).
Proof.
  split; [|split; [|split]].
  - intros. now apply download_slides_info_json_cached.
  - intros until text. intros Hfile Hrun.
    destruct (download_slides_info_json_fresh _ _ _ _ _ _ _ _ _ Hfile Hrun) as [Hf Hex].
    split; [exact Hf|]. now apply download_slides_info_json_cached.
  - intros. now apply download_slides_info_xml_cached.
  - intros until text. intros Hfile Hrun.
    destruct (download_slides_info_xml_fresh _ _ _ _ _ _ _ _ _ Hfile Hrun) as [Hf Hex].
    split; [exact Hf|]. now apply download_slides_info_xml_cached.
Qed.

Lemma metadata_fetched_once_witness :
  fetches (trace (after (download_slides_info_json env_ok "https://slides.slideslive.com"
                           "123" "123-talk" [] (arg_waittime example_args)) empty_world))
  = fetches (trace empty_world) ++ ["https://slides.slideslive.com/123/v6/slides.json"]
  /\ exists o,
       download_slides_info_json env_ok "https://slides.slideslive.com" "123" "123-talk" []
         (arg_waittime example_args)
         (after (download_slides_info_json env_ok "https://slides.slideslive.com"
                   "123" "123-talk" [] (arg_waittime example_args)) empty_world)
       = (o, after (download_slides_info_json env_ok "https://slides.slideslive.com"
                      "123" "123-talk" [] (arg_waittime example_args)) empty_world).
Proof.
  apply (proj1 (proj2 (metadata_fetched_once env_ok))
           "https://slides.slideslive.com" "123" "123-talk" [] (arg_waittime example_args)
           empty_world _ "JSON").
  - reflexivity.
  - vm_compute. reflexivity.
Defined.

(** C2 as stated fails for images: [download_save_file] has no check of the
    local path.  Called twice with the same URL and path, it fetches twice,
    although the file is on disk after the first call; and a second run of the
    whole script fetches every image again, but not the manifest. *)
Lemma download_save_file_fetches_again :
  fs (after (download_save_file env_ok (example_image_url "a") "123-talk/a-1080-0.png" []
               (arg_waittime example_args)) empty_world) !! "123-talk/a-1080-0.png"
  = Some (File "IMG")
  /\ fetches (trace (after (download_save_file env_ok (example_image_url "a")
                              "123-talk/a-1080-0.png" [] (arg_waittime example_args))
                      (after (download_save_file env_ok (example_image_url "a")
                                "123-talk/a-1080-0.png" [] (arg_waittime example_args))
                             empty_world)))
     = [example_image_url "a"; example_image_url "a"]
  /\ fetches (trace (after (main env_ok example_args)
                      (after (main env_ok example_args) empty_world)))
     = [example_json_url;
        example_image_url "a"; example_image_url "b"; example_image_url "c";
        example_image_url "a"; example_image_url "b"; example_image_url "c"]
  /\ ~ (forall E url path h wait_time w,
          length (fetches (trace (after (download_save_file E url path h wait_time)
                                    (after (download_save_file E url path h wait_time) w))))
          = S (length (fetches (trace w)))).
Proof.
  split; [vm_compute; reflexivity|].
  split; [vm_compute; reflexivity|].
  split; [vm_compute; reflexivity|].
  intros H.
  specialize (H env_ok (example_image_url "a") "123-talk/a-1080-0.png" []
                (arg_waittime example_args) empty_world).
  vm_compute in H. discriminate.
Qed.

(** ** The playlist *)

Lemma format_duration_line (z : Z) :
  py_format ("duration {0}" +:+ nl) [PyInt z] [] = Ok (render_line (DurationLine z)).
Proof. reflexivity. Qed.

Lemma format_file_line (p : string) :
  py_format ("file '{0}'" +:+ nl) [PyStr p] [] = Ok (render_line (FileLine p)).
Proof. reflexivity. Qed.

(** One turn of the playlist loop, when nothing fails: the duration of the
    previous slide (except on the first turn) and the file of this one go to
    the end of the playlist. *)
Lemma concat_loop_step (E : environment) (f folder : string) (size : value)
    (index : nat) (r : row) (rest : list (nat * row)) (last_time : Z)
    (last_file_path d : string) (w : world)
    (time_sec diff : value) (duration last_time' : Z) (file_path : string) :
  os_reliable E -> fs w !! f = Some (File d) ->
  time_sec_of r = Ok time_sec ->
  py_sub time_sec last_time = Ok diff ->
  py_int diff = Ok duration ->
  concat_file_path folder r size = Ok file_path ->
  py_int time_sec = Ok last_time' ->
  concat_loop E f folder size ((index, r) :: rest) last_time last_file_path w
  = concat_loop E f folder size rest last_time' file_path
      (with_file f (d +:+ (if negb (index =? 0)%nat
                           then render_line (DurationLine duration) else "")
                      +:+ render_line (FileLine file_path)) w).
Proof.
  intros Hos Hf Hts Hdiff Hdur Hpath Hlast.
  cbn [concat_loop].
  rewrite (bind_lift _ _ _ _ Hts), (bind_lift _ _ _ _ Hdiff), (bind_lift _ _ _ _ Hdur).
  destruct (negb (index =? 0)%nat).
  - erewrite bind_run;
      [|erewrite bind_lift by apply format_duration_line;
        apply (file_write_appends E f _ d w Hos Hf)].
    rewrite (bind_lift _ _ _ _ Hpath).
    erewrite bind_lift by apply format_file_line.
    erewrite bind_run
      by apply (file_write_appends E f _ _ _ Hos (with_file_lookup _ _ _)).
    rewrite (bind_lift _ _ _ _ Hlast).
    rewrite with_file_twice, append_assoc. reflexivity.
  - erewrite bind_run by reflexivity.
    rewrite (bind_lift _ _ _ _ Hpath).
    erewrite bind_lift by apply format_file_line.
    erewrite bind_run by apply (file_write_appends E f _ d w Hos Hf).
    rewrite (bind_lift _ _ _ _ Hlast). reflexivity.
Qed.

Lemma format_playlist_path (folder : string) :
  py_format "{0}/ffmpeg_concat.txt" [PyStr folder] [] = Ok (folder +:+ "/ffmpeg_concat.txt").
Proof. reflexivity. Qed.

Lemma open_append_creates (E : environment) (f : string) (w : world) :
  os_reliable E -> fs w !! f = None ->
  open_append E f w = (Ok tt, with_file f "" w).
Proof.
  intros Hos Hf. unfold open_append, sys, bind. rewrite Hos, Hf. reflexivity.
Qed.

(** C5: for three slides at 0, 2000 and 5000 milliseconds and the size [big],
    [create_ffmpeg_concat_file] writes exactly the seven lines of
    [three_slide_playlist]: the two inner durations 2 and 3, then [duration
    30], with the file of the last slide once before its duration and once as
    the closing line; that is four [file] lines and three [duration]
    lines. *)
Theorem playlist_three_slides (E : environment) (video_id video_name : string)
    (n1 n2 n3 : string) (e1 e2 e3 : value) (w : world) :
  os_reliable E ->
  fs w !! playlist_path video_id video_name = None ->
  create_ffmpeg_concat_file E video_id video_name
    (enumerate [json_slide n1 e1 0; json_slide n2 e2 2000; json_slide n3 e3 5000])
    (PyStr "big") w
  = (Ok tt, with_file (playlist_path video_id video_name)
              (render (three_slide_playlist n1 n2 n3)) w)
  /\ three_slide_playlist n1 n2 n3
     = [FileLine ("0-" +:+ n1 +:+ "-big.jpg"); DurationLine 2;
        FileLine ("2000-" +:+ n2 +:+ "-big.jpg"); DurationLine 3;
        FileLine ("5000-" +:+ n3 +:+ "-big.jpg"); DurationLine 30;
        FileLine ("5000-" +:+ n3 +:+ "-big.jpg")]
  /\ length (filter is_file_line (three_slide_playlist n1 n2 n3)) = 4%nat
  /\ length (filter is_duration_line (three_slide_playlist n1 n2 n3)) = 3%nat.
Proof.
  intros Hos Hnone. split; [|repeat split].
  unfold create_ffmpeg_concat_file, playlist_path in *.
  rewrite (bind_lift _ _ _ _ (folder_name_of_eq video_id video_name)).
  rewrite (bind_lift _ _ _ _ (format_playlist_path _)).
  erewrite bind_run by (unfold path_exists; rewrite Hnone; reflexivity).
  cbv beta iota.
  erewrite bind_run by (apply open_append_creates; assumption).
  cbn [enumerate enumerate_from].
  erewrite bind_run.
  2:{ rewrite (concat_loop_step E _ _ (PyStr "big") 0 (json_slide n1 e1 0) _ 0 _ "" _
                 (PyFloat (S754_zero false)) (PyFloat (S754_zero false)) 0 0
                 ("0-" +:+ n1 +:+ "-big.jpg") Hos (with_file_lookup _ _ _)
                 eq_refl eq_refl eq_refl eq_refl eq_refl).
      rewrite (concat_loop_step E _ _ (PyStr "big") 1 (json_slide n2 e2 2000) _ 0 _ _ _
                 (PyFloat (S754_finite false 4503599627370496 (-51)))
                 (PyFloat (S754_finite false 4503599627370496 (-51))) 2 2
                 ("2000-" +:+ n2 +:+ "-big.jpg") Hos (with_file_lookup _ _ _)
                 eq_refl eq_refl eq_refl eq_refl eq_refl).
      rewrite (concat_loop_step E _ _ (PyStr "big") 2 (json_slide n3 e3 5000) _ 2 _ _ _
                 (PyFloat (S754_finite false 5629499534213120 (-50)))
                 (PyFloat (S754_finite false 6755399441055744 (-51))) 3 5
                 ("5000-" +:+ n3 +:+ "-big.jpg") Hos (with_file_lookup _ _ _)
                 eq_refl eq_refl eq_refl eq_refl eq_refl).
      reflexivity. }
  erewrite bind_run by (apply file_write_appends; [assumption|apply with_file_lookup]).
  rewrite (bind_lift _ _ _ _ (format_file_line _)).
  erewrite file_write_appends by (assumption || apply with_file_lookup).
  rewrite !with_file_twice. f_equal. f_equal.
  cbn [negb Nat.eqb render three_slide_playlist].
  rewrite !append_assoc, append_empty_r. reflexivity.
Qed.

Lemma playlist_three_slides_witness :
  create_ffmpeg_concat_file env_ok "123" "talk" (enumerate (slides example_slides))
    (PyStr "big") empty_world
  = (Ok tt, with_file "123-talk/ffmpeg_concat.txt"
              (render (three_slide_playlist "a" "b" "c")) empty_world).
Proof.
  apply (playlist_three_slides env_ok "123" "talk" "a" "b" "c"
           (PyStr ".png") (PyStr ".png") (PyStr ".png") empty_world).
  - intros w c. reflexivity.
  - reflexivity.
Defined.

(** ** Playlist names and download names *)

(** For a row of the XML schema the two names agree: the image is saved, inside
    the folder of the video, under the very name the playlist lists. *)
Lemma xml_playlist_name_matches_download (folder : string) (r : row) (size : value)
    (p : string) :
  file_path_xml folder r size = Ok p ->
  exists q, concat_file_path folder r size = Ok q /\ p = folder +:+ "/" +:+ q.
Proof.
  unfold file_path_xml, concat_file_path.
  destruct (getitem r "slideName") as [name| | |]; try discriminate.
  destruct (getitem r "time") as [time| | |]; try discriminate.
  cbn.
  destruct (py_str time) as [t| | |]; try discriminate. cbn.
  destruct (py_str name) as [n| | |]; try discriminate. cbn.
  destruct (py_str size) as [s| | |]; try discriminate. cbn.
  intros H. inversion H; subst. eauto.
Qed.

(** C1 at a JSON manifest: a run of the script on the talk of [example_args],
    whose manifest is [json_three_slides], with every fetch succeeding.  The
    images are saved as [a-1080-0.png], [b-1080-2000.png] and
    [c-1080-5000.png]; the playlist lists [0-a-big.jpg], [2000-b-big.jpg] and
    [5000-c-big.jpg], and no file of these names exists after the run. *)
Theorem json_playlist_names_missing_files :
  fst (main env_ok example_args empty_world) = Ok tt
  /\ file_path_json "123-talk" (example_slide "a" 0) (resolve_size "big")
     = Ok "123-talk/a-1080-0.png"
  /\ concat_file_path "123-talk" (example_slide "a" 0) (PyStr "big") = Ok "0-a-big.jpg"
  /\ fs (after (main env_ok example_args) empty_world) !! "123-talk/a-1080-0.png"
     = Some (File "IMG")
  /\ fs (after (main env_ok example_args) empty_world) !! "123-talk/b-1080-2000.png"
     = Some (File "IMG")
  /\ fs (after (main env_ok example_args) empty_world) !! "123-talk/c-1080-5000.png"
     = Some (File "IMG")
  /\ fs (after (main env_ok example_args) empty_world) !! "123-talk/ffmpeg_concat.txt"
     = Some (File (render (three_slide_playlist "a" "b" "c")))
  /\ fs (after (main env_ok example_args) empty_world) !! "123-talk/0-a-big.jpg" = None
  /\ fs (after (main env_ok example_args) empty_world) !! "123-talk/2000-b-big.jpg" = None
  /\ fs (after (main env_ok example_args) empty_world) !! "123-talk/5000-c-big.jpg" = None.
Proof. repeat split; vm_compute; reflexivity. Qed.

(** For a row of the XML schema whose [time] element has text, the [time] of
    the row is that text, and dividing it by 1000 raises [TypeError]. *)
Lemma time_sec_of_xml_row (na : string -> missing) (node : element) (t s : string)
    (cs : list element) :
  node_find node "time" = Some (Element t (Some s) cs) ->
  exists msg,
    time_sec_of (store_row na (row_of_node manifest_columns node)) = Raise (TypeError msg).
Proof.
  intros Hfind. unfold time_sec_of.
  rewrite (manifest_cell_text na node "time" t s cs ltac:(repeat constructor) Hfind).
  cbn. eauto.
Qed.

(** The playlist of an XML deck is not written: when the playlist is missing
    and the [time] element of the first row of the deck has text,
    [create_ffmpeg_concat_file] creates the file, raises [TypeError] at the
    first row, where it divides that text by 1000, and leaves the file
    empty. *)
Lemma xml_playlist_raises (E : environment) (video_id video_name : string)
    (na : nat -> string -> missing) (xroot node : element) (nodes : list element)
    (t s : string) (cs : list element) (size : value) (w : world) :
  os_reliable E ->
  fs w !! playlist_path video_id video_name = None ->
  children_of xroot = node :: nodes ->
  node_find node "time" = Some (Element t (Some s) cs) ->
  exists msg,
    create_ffmpeg_concat_file E video_id video_name
      (iterrows (parse_xml_root na xroot manifest_columns)) size w
    = (Raise (TypeError msg), with_file (playlist_path video_id video_name) "" w).
Proof.
  intros Hos Hnone Hchildren Hfind. unfold create_ffmpeg_concat_file, playlist_path in *.
  rewrite (bind_lift _ _ _ _ (folder_name_of_eq video_id video_name)).
  rewrite (bind_lift _ _ _ _ (format_playlist_path _)).
  erewrite bind_run by (unfold path_exists; rewrite Hnone; reflexivity).
  cbv beta iota.
  erewrite bind_run by (apply open_append_creates; assumption).
  unfold iterrows, enumerate, parse_xml_root, pd_DataFrame. cbn [df_rows].
  rewrite Hchildren.
  cbn [map imap enumerate_from concat_loop].
  destruct (time_sec_of_xml_row (na 0%nat) node t s cs Hfind) as [msg Hmsg].
  exists msg. unfold bind at 1. unfold bind at 1, lift at 1. rewrite Hmsg. reflexivity.
Qed.

(** * Further properties of the script *)

(** ** The playlist builder *)

Lemma xml_playlist_raises_witness :
  exists msg,
    create_ffmpeg_concat_file env_ok "123" "talk"
      (iterrows (parse_xml_root (pandas_na env_ok) xml_one_slide manifest_columns))
      (PyStr "big") empty_world
    = (Raise (TypeError msg), with_file (playlist_path "123" "talk") "" empty_world).
Proof.
  apply (xml_playlist_raises env_ok "123" "talk" (pandas_na env_ok) xml_one_slide
           (Element "slide" None [Element "orderId" (Some "0") [];
                                  Element "timeSec" (Some "5") [];
                                  Element "time" (Some "7") [];
                                  Element "slideName" (Some "slide_0001") []])
           [] "time" "7" [] (PyStr "big") empty_world).
  - intros w c. reflexivity.
  - reflexivity.
  - reflexivity.
  - reflexivity.
Defined.

Lemma xml_playlist_name_matches_download_witness :
  exists q,
    concat_file_path "123-talk" (row_of_node manifest_columns
                                   (Element "slide" None
                                      [Element "time" (Some "7") [];
                                       Element "slideName" (Some "slide_0001") []]))
      (PyStr "big") = Ok q
    /\ "123-talk/7-slide_0001-big.jpg" = "123-talk" +:+ "/" +:+ q.
Proof.
  apply (xml_playlist_name_matches_download "123-talk" _ (PyStr "big")).
  reflexivity.
Defined.

(** A playlist that exists is left alone: the call returns at once, whatever
    the slides are, and changes nothing. *)
Theorem playlist_not_regenerated (E : environment) (video_id video_name : string)
    (slides_iterator : list (nat * row)) (size : value) (w : world) :
  is_Some (fs w !! playlist_path video_id video_name) ->
  create_ffmpeg_concat_file E video_id video_name slides_iterator size w = (Ok tt, w).
Proof.
  intros [x Hx]. unfold create_ffmpeg_concat_file, playlist_path in *.
  rewrite (bind_lift _ _ _ _ (folder_name_of_eq video_id video_name)).
  rewrite (bind_lift _ _ _ _ (format_playlist_path _)).
  erewrite bind_run by (unfold path_exists; rewrite Hx; reflexivity).
  reflexivity.
Qed.

Lemma playlist_not_regenerated_witness :
  create_ffmpeg_concat_file env_ok "123" "talk" (enumerate (slides example_slides))
    (PyStr "big") (with_file "123-talk/ffmpeg_concat.txt" "" empty_world)
  = (Ok tt, with_file "123-talk/ffmpeg_concat.txt" "" empty_world).
Proof.
  apply (playlist_not_regenerated env_ok "123" "talk").
  eexists. reflexivity.
Defined.

(** The playlist of a deck without slides is not empty: it holds [duration
    30] and a [file] line with an empty name. *)
Theorem playlist_of_empty_deck (E : environment) (video_id video_name : string)
    (size : value) (w : world) :
  os_reliable E ->
  fs w !! playlist_path video_id video_name = None ->
  create_ffmpeg_concat_file E video_id video_name [] size w
  = (Ok tt, with_file (playlist_path video_id video_name)
              (render [DurationLine 30; FileLine ""]) w).
Proof.
  intros Hos Hnone. unfold create_ffmpeg_concat_file, playlist_path in *.
  rewrite (bind_lift _ _ _ _ (folder_name_of_eq video_id video_name)).
  rewrite (bind_lift _ _ _ _ (format_playlist_path _)).
  erewrite bind_run by (unfold path_exists; rewrite Hnone; reflexivity).
  cbv beta iota.
  erewrite bind_run by (apply open_append_creates; assumption).
  erewrite bind_run by reflexivity.
  erewrite bind_run by (apply file_write_appends; [assumption|apply with_file_lookup]).
  rewrite (bind_lift _ _ _ _ (format_file_line _)).
  erewrite file_write_appends by (assumption || apply with_file_lookup).
  rewrite !with_file_twice. reflexivity.
Qed.

Lemma playlist_of_empty_deck_witness :
  create_ffmpeg_concat_file env_ok "123" "talk" [] (PyStr "big") empty_world
  = (Ok tt, with_file (playlist_path "123" "talk")
              (render [DurationLine 30; FileLine ""]) empty_world).
Proof.
  apply (playlist_of_empty_deck env_ok "123" "talk" (PyStr "big") empty_world).
  - intros w c. reflexivity.
  - reflexivity.
Defined.

Lemma bind_inv {A B} (c : M A) (k : A -> M B) (w w' : world) (b : B) :
  bind c k w = (Ok b, w') ->
  exists a w1, c w = (Ok a, w1) /\ k a w1 = (Ok b, w').
Proof.
  unfold bind. destruct (c w) as [[a| | |] w1]; try discriminate. eauto.
Qed.

Lemma bind_lift_inv {A B} (o : outcome A) (k : A -> M B) (w w' : world) (b : B) :
  bind (lift o) k w = (Ok b, w') ->
  exists a, o = Ok a /\ k a w = (Ok b, w').
Proof.
  intros H. apply bind_inv in H as (a & w1 & Ho & Hk).
  unfold lift in Ho. inversion Ho; subst. eauto.
Qed.

Lemma render_app (l1 l2 : list playlist_line) :
  render (l1 ++ l2) = render l1 +:+ render l2.
Proof.
  induction l1 as [|l l1 IH]; simpl; [reflexivity|].
  now rewrite IH, append_assoc.
Qed.

Lemma with_file_same (f d : string) (w : world) :
  fs w !! f = Some (File d) -> with_file f d w = w.
Proof.
  intros H. destruct w as [m t]. unfold with_file. cbn [fs trace] in *.
  now rewrite insert_id.
Qed.

Lemma last_cons {A} (x d : A) (l : list A) : List.last (x :: l) d = List.last l x.
Proof.
  revert x d. induction l as [|y l IH]; intros x d; [reflexivity|].
  change (List.last (x :: y :: l) d) with (List.last (y :: l) d).
  rewrite IH. symmetry. apply IH.
Qed.

Lemma loop_lines_succ (i : nat) (paths : list string) (durations : list Z) :
  loop_lines (S i) paths durations = inner_lines paths durations.
Proof.
  revert i durations. induction paths as [|p paths IH]; intros i [|d ds]; simpl; auto.
  now rewrite IH.
Qed.

(** What a successful run of the playlist loop has written: for every row,
    in order, its file line, preceded by a duration line except at index
    0. *)
Lemma concat_loop_lines (E : environment) (f folder : string) (size : value)
    (rows : list row) :
  os_reliable E ->
  forall (i : nat) (last_time : Z) (last_file_path d : string) (w w' : world)
         (last : string),
    fs w !! f = Some (File d) ->
    concat_loop E f folder size (enumerate_from i rows) last_time last_file_path w
    = (Ok last, w') ->
    exists paths durations,
      Forall2 (fun r p => concat_file_path folder r size = Ok p) rows paths /\
      length durations = length paths /\
      last = List.last paths last_file_path /\
      w' = with_file f (d +:+ render (loop_lines i paths durations)) w.
Proof.
  intros Hos. induction rows as [|r rows IH]; intros i lt lp d w w' last Hf Hrun.
  - simpl in Hrun. inversion Hrun; subst. exists [], []. repeat split; [constructor|].
    simpl. rewrite append_empty_r. symmetry. now apply with_file_same.
  - pose proof Hrun as Hcopy. cbn [enumerate_from concat_loop] in Hrun.
    apply bind_lift_inv in Hrun as (ts & Hts & Hrun).
    apply bind_lift_inv in Hrun as (diff & Hdiff & Hrun).
    apply bind_lift_inv in Hrun as (dur & Hdur & Hrun).
    apply bind_inv in Hrun as ([] & w1 & _ & Hrun).
    apply bind_lift_inv in Hrun as (p & Hp & Hrun).
    apply bind_lift_inv in Hrun as (line & _ & Hrun).
    apply bind_inv in Hrun as ([] & w2 & _ & Hrun).
    apply bind_lift_inv in Hrun as (lt' & Hlt' & _).
    cbn [enumerate_from] in Hcopy.
    rewrite (concat_loop_step E f folder size i r _ lt lp d w ts diff dur lt' p
               Hos Hf Hts Hdiff Hdur Hp Hlt') in Hcopy.
    eapply IH in Hcopy as (paths & ds & Hall & Hlen & Hlast & Hw');
      [|apply with_file_lookup].
    exists (p :: paths), (dur :: ds). split; [constructor; assumption|].
    split; [simpl; congruence|]. split.
    + rewrite Hlast. symmetry. apply last_cons.
    + rewrite Hw', with_file_twice. f_equal.
      cbn [loop_lines]. rewrite render_app. cbn [render].
      destruct (i =? 0)%nat; cbn [negb render]; rewrite !append_assoc; reflexivity.
Qed.

(** The shape of a playlist.  When [create_ffmpeg_concat_file] writes the
    playlist of a deck of at least one slide and returns, the playlist lists
    the file of every slide once, in the order of the deck, each but the first
    preceded by a duration line, and ends with [duration 30] and the file of
    the last slide a second time. *)
Theorem playlist_shape (E : environment) (video_id video_name : string)
    (r : row) (rows : list row) (size : value) (w w' : world) :
  os_reliable E ->
  fs w !! playlist_path video_id video_name = None ->
  create_ffmpeg_concat_file E video_id video_name (enumerate (r :: rows)) size w
  = (Ok tt, w') ->
  exists first paths durations,
    Forall2 (fun x p => concat_file_path (video_id +:+ "-" +:+ video_name) x size = Ok p)
            (r :: rows) (first :: paths) /\
    length durations = length paths /\
    w' = with_file (playlist_path video_id video_name)
           (render (deck_lines first paths durations)) w.
Proof.
  intros Hos Hnone. unfold create_ffmpeg_concat_file, playlist_path in *.
  rewrite (bind_lift _ _ _ _ (folder_name_of_eq video_id video_name)).
  rewrite (bind_lift _ _ _ _ (format_playlist_path _)).
  erewrite bind_run by (unfold path_exists; rewrite Hnone; reflexivity).
  cbv beta iota.
  erewrite bind_run by (apply open_append_creates; assumption).
  intros Hrun. apply bind_inv in Hrun as (last & w1 & Hloop & Hrun).
  apply (concat_loop_lines E _ _ _ _ Hos) with (d := "") in Hloop
      as (paths0 & ds0 & Hall & Hlen & Hlast & Hw1); [|apply with_file_lookup].
  destruct paths0 as [|first paths]; [inversion Hall|].
  destruct ds0 as [|d0 ds]; [discriminate|].
  exists first, paths, ds. split; [exact Hall|]. split; [simpl in Hlen; congruence|].
  subst w1.
  erewrite bind_run in Hrun
    by (apply file_write_appends; [assumption|apply with_file_lookup]).
  rewrite (bind_lift _ _ _ _ (format_file_line _)) in Hrun.
  erewrite file_write_appends in Hrun by (assumption || apply with_file_lookup).
  inversion Hrun; subst. rewrite !with_file_twice. f_equal.
  unfold deck_lines. cbn [loop_lines Nat.eqb app]. rewrite loop_lines_succ.
  change (FileLine first :: inner_lines paths ds ++ [DurationLine 30; FileLine (List.last paths first)])
    with ((FileLine first :: inner_lines paths ds) ++ [DurationLine 30; FileLine (List.last paths first)]).
  rewrite (render_app (FileLine first :: inner_lines paths ds)).
  cbn [render]. rewrite !append_assoc, append_empty_r.
  rewrite (last_cons first "" paths).
  unfold render_line. simpl. rewrite ?append_assoc. simpl. rewrite ?append_assoc.
  reflexivity.
Qed.

Lemma playlist_shape_witness :
  exists first paths durations,
    Forall2 (fun x p => concat_file_path ("123" +:+ "-" +:+ "talk") x (PyStr "big") = Ok p)
            (slides example_slides) (first :: paths) /\
    length durations = length paths /\
    after (create_ffmpeg_concat_file env_ok "123" "talk" (enumerate (slides example_slides))
             (PyStr "big")) empty_world
    = with_file (playlist_path "123" "talk")
        (render (deck_lines first paths durations)) empty_world.
Proof.
  apply (playlist_shape env_ok "123" "talk" (example_slide "a" 0)
           [example_slide "b" 2000; example_slide "c" 5000] (PyStr "big") empty_world).
  - intros w c. reflexivity.
  - reflexivity.
  - vm_compute. reflexivity.
Defined.

(** ** The URL resolver *)

Lemma findall_skips_prefix (pre s : string) :
  has_char "h" pre = false ->
  findall_from 0 (pre +:+ s) = findall_from 0 s.
Proof.
  induction pre as [|c pre IH]; simpl; intros H; [reflexivity|].
  apply orb_false_iff in H as [Hc H].
  unfold match_here. simpl. rewrite Hc. auto.
Qed.

(** The search is not anchored: text before the URL that does not contain
    the letter [h] (blanks, a bracket, a quote) is skipped, and the resolver
    returns the identifier and the name of the URL that follows. *)
Theorem get_video_id_skips_leading_text (pre tld id name rest : string) (w : world) :
  has_char "h" pre = false ->
  is_tld tld -> all_digits id = true -> string_all is_name_char name = true ->
  stops is_name_char rest ->
  get_video_id (pre +:+ matched_text tld id name rest) w = (Ok (id, name), w).
Proof.
  intros Hpre Htld Hid Hname Hrest.
  destruct (re_findall_head tld id name rest Htld Hid Hname Hrest) as (r & l & H).
  assert (re_findall (pre +:+ matched_text tld id name rest)
          = re_findall (matched_text tld id name rest)) as Hskip
    by (apply findall_skips_prefix; exact Hpre).
  unfold get_video_id. rewrite Hskip, H. reflexivity.
Qed.

Lemma get_video_id_skips_leading_text_witness :
  get_video_id ("  <" +:+ matched_text "com" "38956531" "some-talk" "?ref=x") empty_world
  = (Ok ("38956531", "some-talk"), empty_world).
Proof.
  apply (get_video_id_skips_leading_text "  <" "com" "38956531" "some-talk" "?ref=x");
    [reflexivity | left; reflexivity | reflexivity | reflexivity | reflexivity].
Defined.

Lemma has_char_app (c : ascii) (a b : string) :
  has_char c (a +:+ b) = has_char c a || has_char c b.
Proof.
  induction a as [|x a IH]; simpl; [reflexivity|]. now rewrite IH, orb_assoc.
Qed.

Lemma string_all_no_char (f : ascii -> bool) (c : ascii) (s : string) :
  f c = false -> string_all f s = true -> has_char c s = false.
Proof.
  intros Hc. induction s as [|x s IH]; simpl; [reflexivity|].
  intros [Hx Hs]%andb_true_iff. rewrite (IH Hs), orb_false_r.
  destruct (Ascii.eqb c x) eqn:Heq; [|reflexivity].
  apply Ascii.eqb_eq in Heq. congruence.
Qed.

(** The folder of a run is a single path component: whatever string the
    resolver accepts, the folder name [<id>-<name>] built from its result
    contains no slash. *)
Theorem folder_name_has_no_slash (url id name : string) (w w' : world) :
  get_video_id url w = (Ok (id, name), w') ->
  folder_name_of id name = Ok (id +:+ "-" +:+ name) /\
  has_char "/" (id +:+ "-" +:+ name) = false.
Proof.
  intros H. split; [apply folder_name_of_eq|].
  unfold get_video_id in H.
  destruct (re_findall url) as [|g l] eqn:Hf.
  - unfold bind, lift in H. rewrite format_error_url in H. discriminate.
  - inversion H; subst.
    apply re_findall_occurs in Hf as (pre & rest & _ & Hid & Hname & _).
    rewrite !has_char_app.
    rewrite (string_all_no_char is_digit "/" _ eq_refl Hid).
    rewrite (string_all_no_char is_name_char "/" _ eq_refl Hname).
    reflexivity.
Qed.

Lemma folder_name_has_no_slash_witness :
  folder_name_of "123" "talk" = Ok ("123" +:+ "-" +:+ "talk") /\
  has_char "/" ("123" +:+ "-" +:+ "talk") = false.
Proof.
  apply (folder_name_has_no_slash "https://slideslive.com/123/talk/extra?x=1" "123" "talk"
           empty_world empty_world).
  reflexivity.
Defined.

(** ** The entry point *)

(** A URL that the resolver rejects ends the run at once: [main] prints the
    error and exits, with no fetch and no change to the file system. *)
Theorem main_rejects_url (E : environment) (args : arguments) (w : world) :
  ~ pattern_occurs (arg_url args) ->
  main E args w
  = (Exit, World (fs w)
             (trace w ++ [EvPrint ("Error: " +:+ arg_url args +:+ " is not a correct url.")])).
Proof.
  intros Hno. unfold main. unfold bind at 1.
  rewrite get_video_id_no_match; [reflexivity|].
  destruct (re_findall (arg_url args)) as [|g l] eqn:H; [reflexivity|].
  exfalso. apply Hno. apply pattern_occurs_findall. congruence.
Qed.

Lemma main_rejects_url_witness :
  main env_ok (MkArguments "https://example.org/123/talk" "big" "Mozilla/5.0" "" "" ""
                 (S754_zero false)) empty_world
  = (Exit, World ∅ [EvPrint "Error: https://example.org/123/talk is not a correct url."]).
Proof.
  apply (main_rejects_url env_ok
           (MkArguments "https://example.org/123/talk" "big" "Mozilla/5.0" "" "" ""
              (S754_zero false)) empty_world).
  intros H. apply pattern_occurs_findall in H. apply H. reflexivity.
Defined.

(** ** The fetch layer, case by case *)

(** An error response is not stored: for a status from 400 to 599
    [download_save_file] raises [HTTPError] right after the fetch, writes no
    file and does not sleep. *)
Theorem download_save_file_http_error (E : environment) (url save_path : string)
    (h : headers) (wait_time : spec_float) (w : world) (r : response) :
  requests_get E w url h = inr r ->
  400 <= status_code r < 600 ->
  exists msg,
    download_save_file E url save_path h wait_time w
    = (Raise (HTTPError msg), World (fs w) (trace w ++ [EvGet url h])).
Proof.
  intros Hget Hstatus.
  unfold download_save_file, requests_dot_get, bind at 1. rewrite Hget.
  unfold bind at 1, raise_for_status, lift.
  destruct (status_code r <? 500) eqn:H5.
  - replace (400 <=? status_code r) with true by (symmetry; apply Z.leb_le; lia).
    cbn [andb]. eauto.
  - replace (500 <=? status_code r) with true
      by (symmetry; apply Z.leb_le; apply Z.ltb_ge in H5; lia).
    replace (status_code r <? 600) with true by (symmetry; apply Z.ltb_lt; lia).
    rewrite andb_false_r. cbn [andb]. eauto.
Qed.

Lemma download_save_file_http_error_witness :
  exists msg,
    download_save_file env_image_404 (example_image_url "b") "123-talk/b-1080-2000.png" []
      (arg_waittime example_args) empty_world
    = (Raise (HTTPError msg), World ∅ [EvGet (example_image_url "b") []]).
Proof.
  apply (download_save_file_http_error env_image_404 (example_image_url "b")
           "123-talk/b-1080-2000.png" [] (arg_waittime example_args) empty_world
           (Response 404 "" (example_image_url "b") "IMG")).
  - reflexivity.
  - cbn. lia.
Defined.

(** A good response replaces whatever was at the local path: when the fetch
    is answered with a status outside 400..599, the path is not a directory
    and the operating system does not fail, the call returns, the file holds
    exactly the body of the response, and the events are one fetch followed
    by one sleep of [wait_time]. *)
Theorem download_save_file_stores_body (E : environment) (url save_path : string)
    (h : headers) (wait_time : spec_float) (w : world) (r : response) :
  os_reliable E ->
  requests_get E w url h = inr r ->
  status_code r < 400 \/ 600 <= status_code r ->
  fs w !! save_path <> Some Dir ->
  download_save_file E url save_path h wait_time w
  = (Ok tt, World (<[save_path := File (content r)]> (fs w))
              (trace w ++ [EvGet url h; EvSleep wait_time])).
Proof.
  intros Hos Hget Hstatus Hdir.
  unfold download_save_file, requests_dot_get, bind at 1. rewrite Hget.
  assert (raise_for_status r = ret tt) as ->.
  { unfold raise_for_status.
    destruct Hstatus as [Hlt | Hge].
    - replace (400 <=? status_code r) with false by (symmetry; apply Z.leb_gt; lia).
      replace (500 <=? status_code r) with false by (symmetry; apply Z.leb_gt; lia).
      reflexivity.
    - replace (status_code r <? 500) with false by (symmetry; apply Z.ltb_ge; lia).
      replace (status_code r <? 600) with false by (symmetry; apply Z.ltb_ge; lia).
      rewrite !andb_false_r. reflexivity. }
  erewrite bind_run by reflexivity.
  erewrite bind_run by (apply open_write_truncates; assumption).
  erewrite bind_run by (apply file_write_appends; [assumption | apply with_file_lookup]).
  rewrite (time_sleep_logs E _ _ Hos), with_file_twice.
  unfold with_file. cbn [fs trace]. rewrite <- app_assoc. reflexivity.
Qed.

Lemma download_save_file_stores_body_witness :
  download_save_file env_ok (example_image_url "a") "123-talk/a-1080-0.png" []
    (arg_waittime example_args) (with_file "123-talk/a-1080-0.png" "old" empty_world)
  = (Ok tt, World (<["123-talk/a-1080-0.png" := File "IMG"]>
                     (fs (with_file "123-talk/a-1080-0.png" "old" empty_world)))
              ([] ++ [EvGet (example_image_url "a") []; EvSleep (arg_waittime example_args)])).
Proof.
  apply (download_save_file_stores_body env_ok (example_image_url "a")
           "123-talk/a-1080-0.png" [] (arg_waittime example_args)
           (with_file "123-talk/a-1080-0.png" "old" empty_world)
           (Response 200 "" (example_image_url "a") "IMG")).
  - intros w c. reflexivity.
  - reflexivity.
  - left. cbn. lia.
  - vm_compute. discriminate.
Defined.

(** ** The metadata resolver, case by case *)

Lemma format_folder_is_file (folder : string) :
  py_format "Error: {0} is a file, can't create a folder with that name" [PyStr folder] []
  = Ok ("Error: " +:+ folder +:+ " is a file, can't create a folder with that name").
Proof. reflexivity. Qed.

(** When a plain file has the name of the video's folder, the run ends before
    any metadata is requested: [download_slides_info] prints the error and
    exits, with no fetch and no change to the file system. *)
Theorem folder_name_taken_by_file (E : environment)
    (base_json_url base_xml_url video_id video_name : string) (h : headers)
    (wait_time : spec_float) (w : world) (d : string) :
  fs w !! (video_id +:+ "-" +:+ video_name) = Some (File d) ->
  download_slides_info E base_json_url base_xml_url video_id video_name h wait_time w
  = (Exit, World (fs w)
             (trace w ++ [EvPrint ("Error: " +:+ (video_id +:+ "-" +:+ video_name)
                                   +:+ " is a file, can't create a folder with that name")])).
Proof.
  intros Hf. unfold download_slides_info.
  rewrite (bind_lift _ _ _ _ (folder_name_of_eq video_id video_name)).
  unfold bind at 1, ensure_folder.
  erewrite bind_run by (unfold path_exists; rewrite Hf; reflexivity).
  cbn [negb]. erewrite bind_run by reflexivity.
  erewrite bind_run by (unfold path_isfile; rewrite Hf; reflexivity).
  cbv beta iota.
  rewrite (bind_lift _ _ _ _ (format_folder_is_file _)).
  reflexivity.
Qed.

Lemma folder_name_taken_by_file_witness :
  download_slides_info env_ok "https://slides.slideslive.com" "https://slides.slideslive.com"
    "123" "talk" [] (arg_waittime example_args) (with_file "123-talk" "notes" empty_world)
  = (Exit, World (fs (with_file "123-talk" "notes" empty_world))
             ([] ++ [EvPrint ("Error: " +:+ ("123" +:+ "-" +:+ "talk")
                              +:+ " is a file, can't create a folder with that name")])).
Proof.
  apply (folder_name_taken_by_file env_ok "https://slides.slideslive.com"
           "https://slides.slideslive.com" "123" "talk" [] (arg_waittime example_args)
           (with_file "123-talk" "notes" empty_world) "notes").
  reflexivity.
Defined.

Lemma parse_json_world (E : environment) (text : string) (w w' : world)
    (o : outcome slide_dict) :
  parse_json E text w = (o, w') -> w' = w.
Proof.
  unfold parse_json, json_dot_load, bind, lift. intros H.
  repeat (case_match; simplify_eq/=); reflexivity.
Qed.

Lemma download_slides_info_json_world (E : environment) (base_url video_id folder : string)
    (h : headers) (wait_time : spec_float) (w w' : world) (text : string) :
  download_slides_info_json E base_url video_id folder h wait_time w = (Ok text, w') ->
  fetches (trace w') = fetches (trace w) \/
  fetches (trace w')
  = fetches (trace w) ++ [base_url +:+ "/" +:+ video_id +:+ "/v6/slides.json"].
Proof.
  intros H. destruct (fs w !! (folder +:+ "/slides.json")) as [x|] eqn:Hf.
  - destruct (download_slides_info_json_cached E base_url video_id folder h wait_time w)
      as [o Ho]; [eauto|]. rewrite Ho in H. inversion H; subst. now left.
  - right. eapply download_slides_info_json_fresh; eassumption.
Qed.

(** When the JSON manifest is obtained and parsed, [download_slides_info]
    returns it as a dict and the XML manifest is never requested: the only
    fetch of the call, if the manifest was not on disk, is the one of
    [slides.json]. *)
Theorem json_success_skips_xml (E : environment)
    (base_json_url base_xml_url video_id video_name : string) (h : headers)
    (wait_time : spec_float) (w w1 w2 : world) (info : slides_info) :
  ensure_folder E (video_id +:+ "-" +:+ video_name) w = (Ok tt, w1) ->
  json_attempt E base_json_url video_id (video_id +:+ "-" +:+ video_name) h wait_time w1
  = (Ok info, w2) ->
  download_slides_info E base_json_url base_xml_url video_id video_name h wait_time w
  = (Ok info, w2) /\
  isinstance_dict info = true /\
  (fetches (trace w2) = fetches (trace w1) \/
   fetches (trace w2)
   = fetches (trace w1) ++ [base_json_url +:+ "/" +:+ video_id +:+ "/v6/slides.json"]).
Proof.
  intros Hfolder Hjson. split; [|split].
  - unfold download_slides_info, bind, lift.
    rewrite folder_name_of_eq, Hfolder. unfold try_except_all. now rewrite Hjson.
  - unfold json_attempt in Hjson.
    apply bind_inv in Hjson as (text & w3 & _ & Hjson).
    apply bind_inv in Hjson as (d & w4 & _ & Hjson).
    unfold ret in Hjson. inversion Hjson; subst. reflexivity.
  - unfold json_attempt in Hjson.
    apply bind_inv in Hjson as (text & w3 & Hdl & Hjson).
    apply bind_inv in Hjson as (d & w4 & Hparse & Hjson).
    apply parse_json_world in Hparse. unfold ret in Hjson. inversion Hjson; subst.
    eapply download_slides_info_json_world. eassumption.
Qed.

Lemma json_success_skips_xml_witness :
  download_slides_info env_ok "https://slides.slideslive.com" "https://slides.slideslive.com"
    "123" "talk" [] (arg_waittime example_args) empty_world
  = (Ok (FromJson example_slides),
     after (json_attempt env_ok "https://slides.slideslive.com" "123" "123-talk" []
              (arg_waittime example_args))
           (after (ensure_folder env_ok "123-talk") empty_world)) /\
  isinstance_dict (FromJson example_slides) = true /\
  (fetches (trace (after (json_attempt env_ok "https://slides.slideslive.com" "123"
                            "123-talk" [] (arg_waittime example_args))
                         (after (ensure_folder env_ok "123-talk") empty_world)))
   = fetches (trace (after (ensure_folder env_ok "123-talk") empty_world)) \/
   fetches (trace (after (json_attempt env_ok "https://slides.slideslive.com" "123"
                            "123-talk" [] (arg_waittime example_args))
                         (after (ensure_folder env_ok "123-talk") empty_world)))
   = fetches (trace (after (ensure_folder env_ok "123-talk") empty_world))
     ++ ["https://slides.slideslive.com" +:+ "/" +:+ "123" +:+ "/v6/slides.json"]).
Proof.
  apply (json_success_skips_xml env_ok "https://slides.slideslive.com"
           "https://slides.slideslive.com" "123" "talk" [] (arg_waittime example_args)
           empty_world (after (ensure_folder env_ok "123-talk") empty_world)).
  - vm_compute. reflexivity.
  - vm_compute. reflexivity.
Defined.

(** A manifest on disk that cannot be parsed stays: the JSON attempt reads
    the cached [slides.json], raises the parser's exception and leaves the
    world as it is, so no later run fetches the manifest again. *)
Theorem corrupt_cached_manifest_persists (E : environment)
    (base_url video_id folder : string) (h : headers) (wait_time : spec_float)
    (w : world) (text : string) (e : exn) :
  fs w !! (folder +:+ "/slides.json") = Some (File text) ->
  os_error E w (SysOpenRead (folder +:+ "/slides.json")) = None ->
  json_load E text = inl e ->
  json_attempt E base_url video_id folder h wait_time w = (Raise e, w).
Proof.
  intros Hf Hos Hload.
  apply json_attempt_malformed with (text := text); [|left; exact Hload].
  unfold download_slides_info_json.
  rewrite (bind_lift _ _ _ _ (format_slides_json_path _ _)).
  erewrite bind_run by (unfold path_exists; rewrite Hf; reflexivity).
  cbn [negb]. erewrite bind_run by reflexivity.
  unfold open_read, sys, bind. rewrite Hos, Hf. reflexivity.
Qed.

Lemma corrupt_cached_manifest_persists_witness :
  json_attempt env_ok "https://slides.slideslive.com" "123" "123-talk" []
    (arg_waittime example_args) (with_file "123-talk/slides.json" "<html>" empty_world)
  = (Raise (Exn "JSONDecodeError" "Expecting value"),
     with_file "123-talk/slides.json" "<html>" empty_world).
Proof.
  apply (corrupt_cached_manifest_persists env_ok "https://slides.slideslive.com" "123"
           "123-talk" [] (arg_waittime example_args)
           (with_file "123-talk/slides.json" "<html>" empty_world) "<html>").
  - reflexivity.
  - reflexivity.
  - reflexivity.
Defined.

(** ** Base URLs *)

Lemma rstrip_slash_split (s : string) :
  exists n, s = rstrip_slash s +:+ replicate_char n "/".
Proof.
  induction s as [|c s [n IH]].
  - exists 0%nat. reflexivity.
  - simpl. destruct (rstrip_slash s) as [|d r] eqn:Hr.
    + destruct (Ascii.eqb c "/") eqn:Hc.
      * apply Ascii.eqb_eq in Hc. subst c. exists (S n). simpl in *. congruence.
      * exists n. simpl in *. congruence.
    + exists n. simpl in *. congruence.
Qed.

Lemma rstrip_slash_end (s : string) : ends_with "/" (rstrip_slash s) = false.
Proof.
  induction s as [|c s IH]; [reflexivity|].
  simpl. destruct (rstrip_slash s) as [|d r] eqn:Hr.
  - destruct (Ascii.eqb c "/") eqn:Hc; [reflexivity|].
    cbn [ends_with]. rewrite Ascii.eqb_sym. exact Hc.
  - exact IH.
Qed.

(** [rstrip('/')] as [main] applies it to the two base URLs: the result does
    not end with a slash, the argument is the result followed by slashes
    only, and stripping twice changes nothing more. *)
Theorem rstrip_slash_correct (s : string) :
  ends_with "/" (rstrip_slash s) = false /\
  (exists n, s = rstrip_slash s +:+ replicate_char n "/") /\
  rstrip_slash (rstrip_slash s) = rstrip_slash s.
Proof.
  split; [apply rstrip_slash_end|]. split; [apply rstrip_slash_split|].
  induction s as [|c s IH]; [reflexivity|].
  simpl. destruct (rstrip_slash s) as [|d r] eqn:Hr.
  - destruct (Ascii.eqb c "/") eqn:Hc; [reflexivity|]. simpl. now rewrite Hc.
  - change (rstrip_slash (String c (String d r)))
      with (match rstrip_slash (String d r) with
            | EmptyString => if Ascii.eqb c "/" then EmptyString else String c EmptyString
            | x => String c x
            end).
    rewrite IH. reflexivity.
Qed.

(** ** [parse_json] on every document *)

Lemma subscript_ok_raw (v : value) (k : string) (x : value) :
  subscript v k = Ok x -> raw_field k v = Some x.
Proof.
  destruct v; simpl; try discriminate. unfold getitem.
  destruct (dict_lookup k d); [congruence | discriminate].
Qed.

Lemma slide_entry_ok_valid (slide : value) (r : row) :
  slide_entry slide = Ok r -> valid_entry slide.
Proof.
  unfold slide_entry, valid_entry, raw_image_field. intros H.
  destruct (subscript slide "image") as [image| | |] eqn:Hi; try discriminate.
  apply subscript_ok_raw in Hi. rewrite Hi. simpl in H.
  destruct (subscript image "name") as [name| | |] eqn:Hn; try discriminate.
  destruct (subscript image "extname") as [ext| | |] eqn:He; try discriminate.
  destruct (subscript slide "time") as [t| | |] eqn:Ht; try discriminate.
  apply subscript_ok_raw in Hn, He, Ht. rewrite Hn, He, Ht. eauto.
Qed.

Lemma omap_slide_entry_ok (entries : list value) (rows : list row) :
  omap slide_entry entries = Ok rows -> Forall valid_entry entries.
Proof.
  revert rows. induction entries as [|x entries IH]; intros rows H; [constructor|].
  simpl in H.
  destruct (slide_entry x) as [r| | |] eqn:Hx; try discriminate. simpl in H.
  destruct (omap slide_entry entries) as [rs| | |] eqn:Hrs; try discriminate.
  constructor; [eapply slide_entry_ok_valid; eassumption | eapply IH; reflexivity].
Qed.

(** All or nothing: for a document whose [slides] is an array, [parse_json]
    returns a slide list exactly when every entry has an [image] object with
    [name] and [extname], and a [time]; one entry that lacks a field makes the
    whole call raise, and no partial list is returned. *)
Theorem parse_json_value_ok_iff (parsed : value) (entries : list value) :
  raw_field "slides" parsed = Some (PyList entries) ->
  ((exists d, parse_json_value parsed = Ok d) <-> Forall valid_entry entries).
Proof.
  intros Hs. unfold parse_json_value.
  rewrite (subscript_raw_field _ _ _ Hs). simpl. split.
  - intros [d H].
    destruct (omap slide_entry entries) as [rows| | |] eqn:Hrows; try discriminate.
    eapply omap_slide_entry_ok. eassumption.
  - intros Hv. destruct (omap_slide_entry entries Hv) as (rows & Hrows & _).
    rewrite Hrows. simpl. eauto.
Qed.

Lemma parse_json_value_ok_iff_witness :
  (exists d, parse_json_value json_three_slides = Ok d) <->
  Forall valid_entry [json_entry "a" 0; json_entry "b" 2000; json_entry "c" 5000].
Proof.
  apply (parse_json_value_ok_iff json_three_slides). reflexivity.
Defined.

(** The documents [parse_json] does not accept as a deck, and the ones it
    accepts as an empty deck: without a [slides] key it raises [KeyError]; a
    [slides] that is an empty array, an empty object or an empty string gives
    an empty slide list without an error; a [slides] that is a non-empty
    object or string raises [TypeError], as does a number, a bool or
    [null]. *)
Theorem parse_json_value_edges (top : list (string * value)) :
  (dict_lookup "slides" top = None ->
   parse_json_value (PyDict top) = Raise (KeyError "slides")) /\
  (forall v, dict_lookup "slides" top = Some v ->
     v = PyList [] \/ v = PyDict [] \/ v = PyStr "" ->
     parse_json_value (PyDict top) = Ok (SlideDict [])) /\
  (forall k x d, dict_lookup "slides" top = Some (PyDict ((k, x) :: d)) ->
     exists msg, parse_json_value (PyDict top) = Raise (TypeError msg)) /\
  (forall c s, dict_lookup "slides" top = Some (PyStr (String c s)) ->
     exists msg, parse_json_value (PyDict top) = Raise (TypeError msg)) /\
  (forall v, dict_lookup "slides" top = Some v ->
     v = PyNone \/ (exists b, v = PyBool b) \/ (exists z, v = PyInt z)
     \/ (exists f, v = PyFloat f) ->
     exists msg, parse_json_value (PyDict top) = Raise (TypeError msg)).
Proof.
  unfold parse_json_value, subscript, getitem.
  split; [|split; [|split; [|split]]].
  - intros ->. reflexivity.
  - intros v -> [-> | [-> | ->]]; reflexivity.
  - intros k x d ->. simpl. eauto.
  - intros c s ->. simpl. eauto.
  - intros v -> [-> | [[b ->] | [[z ->] | [f ->]]]]; simpl; eauto.
Qed.

Lemma parse_json_value_edges_witness :
  parse_json_value (PyDict [("slides", PyDict [])]) = Ok (SlideDict []) /\
  parse_json_value (PyDict [("title", PyStr "talk")]) = Raise (KeyError "slides").
Proof.
  split.
  - apply (proj1 (proj2 (parse_json_value_edges [("slides", PyDict [])])) (PyDict []));
      [reflexivity | right; left; reflexivity].
  - apply (proj1 (parse_json_value_edges [("title", PyStr "talk")])). reflexivity.
Defined.

(** ** [parse_xml] for any list of columns *)

Lemma dict_lookup_dict_set {A} (k k' : string) (v : A) (d : list (string * A)) :
  dict_lookup k (dict_set k' v d)
  = if String.eqb k k' then Some v else dict_lookup k d.
Proof.
  induction d as [|[k0 v0] d IH]; simpl.
  - reflexivity.
  - destruct (String.eqb k' k0) eqn:H0; simpl.
    + apply String.eqb_eq in H0. subst k0.
      destruct (String.eqb k k'); reflexivity.
    + destruct (String.eqb k k0) eqn:H1.
      * apply String.eqb_eq in H1. subst k0.
        rewrite String.eqb_sym, H0. reflexivity.
      * exact IH.
Qed.

Lemma row_fold_lookup (node : element) (cols : list string) (acc : row) (c : string) :
  dict_lookup c (fold_left (fun d kv => dict_set (fst kv) (snd kv) d)
                           (combine cols (map (cell node) cols)) acc)
  = if bool_decide (c ∈ cols) then Some (cell node c) else dict_lookup c acc.
Proof.
  revert acc. induction cols as [|x cols IH]; intros acc; simpl.
  - reflexivity.
  - rewrite IH, dict_lookup_dict_set.
    destruct (String.eqb c x) eqn:Hcx.
    + apply String.eqb_eq in Hcx. subst x.
      rewrite (bool_decide_eq_true_2 (c ∈ c :: cols)) by left.
      destruct (bool_decide (c ∈ cols)); reflexivity.
    + apply String.eqb_neq in Hcx.
      destruct (bool_decide (c ∈ cols)) eqn:Hin.
      * apply bool_decide_eq_true_1 in Hin.
        rewrite (bool_decide_eq_true_2 (c ∈ x :: cols)) by (now right). reflexivity.
      * apply bool_decide_eq_false_1 in Hin.
        rewrite (bool_decide_eq_false_2 (c ∈ x :: cols)); [reflexivity|].
        intros [?|?]%elem_of_cons; congruence.
Qed.

(** For one or more distinct plain tag names as columns, every child of the
    root gives one row, in order and whatever its tag is; the row has a cell
    for each requested column, and where the first sub-element of that name
    has text the cell is that text; asking a row for any other column raises
    [KeyError]. *)
Theorem parse_xml_root_rows (na : nat -> string -> missing) (xroot : element)
    (df_cols : list string) :
  plain_columns df_cols = true ->
  length (df_rows (parse_xml_root na xroot df_cols)) = length (children_of xroot) /\
  forall i node, children_of xroot !! i = Some node ->
    exists r, df_rows (parse_xml_root na xroot df_cols) !! i = Some r /\
      forall c,
        (c ∈ df_cols ->
         exists v, getitem r c = Ok v /\
           forall t s cs, node_find node c = Some (Element t (Some s) cs) -> v = PyStr s) /\
        (c ∉ df_cols -> getitem r c = Raise (KeyError c)).
Proof.
  intros _. split; [apply parse_xml_root_length|].
  intros i node Hi. exists (store_row (na i) (row_of_node df_cols node)). split.
  - rewrite parse_xml_root_lookup, Hi. reflexivity.
  - intros c. unfold getitem, row_of_node.
    rewrite dict_lookup_store_row, row_fold_lookup. split; intros Hc.
    + rewrite bool_decide_eq_true_2 by assumption. cbn.
      eexists. split; [reflexivity|].
      intros t s cs Hfind. rewrite cell_text, Hfind. reflexivity.
    + rewrite bool_decide_eq_false_2 by assumption. reflexivity.
Qed.

(** ** Names under the XML schema *)

(** Under the XML schema the size token is used as it was given, aliases
    included, in the URL and in the file name of a row whose [slideName] and
    [time] elements have text: the URL ends in [<size>/<slideName>.jpg], the
    file is [<folder>/<time>-<slideName>-<size>.jpg]. *)
Theorem xml_url_and_file_name (base_url video_id folder size : string)
    (na : string -> missing) (node : element) (t1 name t2 time : string)
    (cs1 cs2 : list element) :
  brace_free base_url ->
  node_find node "slideName" = Some (Element t1 (Some name) cs1) ->
  node_find node "time" = Some (Element t2 (Some time) cs2) ->
  img_url_xml base_url video_id (store_row na (row_of_node manifest_columns node))
    (PyStr size)
  = Ok (base_url +:+ "/" +:+ video_id +:+ "/slides/" +:+ size +:+ "/" +:+ name +:+ ".jpg") /\
  file_path_xml folder (store_row na (row_of_node manifest_columns node)) (PyStr size)
  = Ok (folder +:+ "/" +:+ time +:+ "-" +:+ name +:+ "-" +:+ size +:+ ".jpg").
Proof.
  intros Hb Hname Htime.
  assert (getitem (store_row na (row_of_node manifest_columns node)) "slideName"
          = Ok (PyStr name)) as Hn
    by (apply (manifest_cell_text na node "slideName" t1 name cs1);
        [repeat constructor | assumption]).
  assert (getitem (store_row na (row_of_node manifest_columns node)) "time"
          = Ok (PyStr time)) as Ht
    by (apply (manifest_cell_text na node "time" t2 time cs2);
        [repeat constructor | assumption]).
  split.
  - now apply (img_url_xml_eq _ _ _ _ (PyStr name)).
  - now apply (file_path_xml_eq _ _ _ (PyStr name) (PyStr time)).
Qed.

Lemma xml_url_and_file_name_witness :
  img_url_xml "https://d2ygwrecguqg66.cloudfront.net/data/presentations" "123"
    (store_row (fun _ => MissingNaN)
       (row_of_node manifest_columns (Element "slide" None
                                        [Element "time" (Some "7") [];
                                         Element "slideName" (Some "slide_0001") []])))
    (PyStr "big")
  = Ok ("https://d2ygwrecguqg66.cloudfront.net/data/presentations" +:+ "/" +:+ "123"
        +:+ "/slides/" +:+ "big" +:+ "/" +:+ "slide_0001" +:+ ".jpg")
  /\ file_path_xml "123-talk"
       (store_row (fun _ => MissingNaN)
          (row_of_node manifest_columns (Element "slide" None
                                           [Element "time" (Some "7") [];
                                            Element "slideName" (Some "slide_0001") []])))
       (PyStr "big")
     = Ok ("123-talk" +:+ "/" +:+ "7" +:+ "-" +:+ "slide_0001" +:+ "-" +:+ "big" +:+ ".jpg").
Proof.
  apply (xml_url_and_file_name "https://d2ygwrecguqg66.cloudfront.net/data/presentations"
           "123" "123-talk" "big" (fun _ => MissingNaN)
           (Element "slide" None [Element "time" (Some "7") [];
                                  Element "slideName" (Some "slide_0001") []])
           "slideName" "slide_0001" "time" "7" [] []).
  - reflexivity.
  - reflexivity.
  - reflexivity.
Defined.

Lemma parse_xml_root_rows_witness :
  exists r,
    df_rows (parse_xml_root (fun _ _ => MissingNaN) xml_one_slide ["slideName"; "time"])
      !! 0%nat = Some r /\
    forall c,
      (c ∈ ["slideName"; "time"] ->
       exists v, getitem r c = Ok v /\
         forall t s cs,
           node_find (Element "slide" None [
                        Element "orderId" (Some "0") [];
                        Element "timeSec" (Some "5") [];
                        Element "time" (Some "7") [];
                        Element "slideName" (Some "slide_0001") []]) c
           = Some (Element t (Some s) cs) -> v = PyStr s) /\
      (c ∉ ["slideName"; "time"] -> getitem r c = Raise (KeyError c)).
Proof.
  apply (proj2 (parse_xml_root_rows (fun _ _ => MissingNaN) xml_one_slide
                  ["slideName"; "time"] eq_refl) 0%nat).
  reflexivity.
Defined.

(** ** What a run sends *)

Section Within.

Context (E : environment) (h : headers).

Lemma fetched_with_app (t1 t2 : list event) :
  fetched_with h t1 -> fetched_with h t2 -> fetched_with h (t1 ++ t2).
Proof.
  induction t1 as [|e t1 IH]; simpl; [auto|].
  destruct e; simpl; intuition auto.
Qed.

Lemma run_within_refl (w : world) : run_within h w w.
Proof. exists []. split; [now rewrite app_nil_r | exact I]. Qed.

Lemma run_within_trans (w1 w2 w3 : world) :
  run_within h w1 w2 -> run_within h w2 w3 -> run_within h w1 w3.
Proof.
  intros (t1 & Ht1 & Hf1) (t2 & Ht2 & Hf2).
  exists (t1 ++ t2). split; [now rewrite Ht2, Ht1, app_assoc|].
  now apply fetched_with_app.
Qed.

Lemma run_within_event (w : world) (e : event) :
  fetched_with h [e] -> run_within h w (World (fs w) (trace w ++ [e])).
Proof. intros He. exists [e]. auto. Qed.

Lemma run_within_insert (w : world) (p : string) (x : entry) :
  run_within h w (World (<[p := x]> (fs w)) (trace w)).
Proof. exists []. split; [simpl; now rewrite app_nil_r | exact I]. Qed.

Lemma stays_ret {A} (a : A) : stays_within h (ret a).
Proof. intros w o w' H. inversion H; subst. apply run_within_refl. Qed.

Lemma stays_lift {A} (x : outcome A) : stays_within h (lift x).
Proof. intros w o w' H. inversion H; subst. apply run_within_refl. Qed.

Lemma stays_exit {A} : stays_within h (@exit A).
Proof. intros w o w' H. inversion H; subst. apply run_within_refl. Qed.

Lemma stays_bind {A B} (c : M A) (k : A -> M B) :
  stays_within h c -> (forall a, stays_within h (k a)) ->
  stays_within h (bind c k).
Proof.
  intros Hc Hk w o w' H. unfold bind in H.
  destruct (c w) as [[a| | |] w1] eqn:Hcw;
    try (inversion H; subst; eapply Hc; eassumption).
  eapply run_within_trans; [eapply Hc; eassumption | eapply Hk; eassumption].
Qed.

Lemma stays_bind_lift {A B} (x : outcome A) (k : A -> M B) :
  (forall a, x = Ok a -> stays_within h (k a)) ->
  stays_within h (bind (lift x) k).
Proof.
  intros Hk w o w' H. unfold bind, lift in H.
  destruct x as [a| | |]; try (inversion H; subst; apply run_within_refl).
  eapply Hk; [reflexivity | eassumption].
Qed.

Lemma stays_try_all {A} (c handler : M A) :
  stays_within h c -> stays_within h handler ->
  stays_within h (try_except_all c handler).
Proof.
  intros Hc Hh w o w' H. unfold try_except_all in H.
  destruct (c w) as [[a| e | |] w1] eqn:Hcw;
    try (inversion H; subst; eapply Hc; eassumption);
    (eapply run_within_trans; [eapply Hc; eassumption | eapply Hh; eassumption]).
Qed.

Lemma stays_try_Exception {A} (c : M A) (handler : exn -> M A) :
  stays_within h c -> (forall e, stays_within h (handler e)) ->
  stays_within h (try_except_Exception c handler).
Proof.
  intros Hc Hh w o w' H. unfold try_except_Exception in H.
  destruct (c w) as [[a| e | |] w1] eqn:Hcw;
    try (inversion H; subst; eapply Hc; eassumption).
  eapply run_within_trans; [eapply Hc; eassumption | eapply Hh; eassumption].
Qed.

Lemma stays_for_each {A} (l : list A) (body : A -> M unit) :
  (forall x, stays_within h (body x)) -> stays_within h (for_each l body).
Proof.
  intros Hb. induction l as [|x l IH]; simpl.
  - apply stays_ret.
  - apply stays_bind; auto.
Qed.

Lemma stays_print (msg : string) : stays_within h (print msg).
Proof.
  intros w o w' H. inversion H; subst. apply run_within_event. exact I.
Qed.

Lemma stays_sys (c : syscall) : stays_within h (sys E c).
Proof.
  intros w o w' H. unfold sys in H.
  destruct (os_error E w c); inversion H; subst; apply run_within_refl.
Qed.

Lemma stays_path_exists (p : string) : stays_within h (path_exists p).
Proof. intros w o w' H. inversion H; subst. apply run_within_refl. Qed.

Lemma stays_path_isfile (p : string) : stays_within h (path_isfile p).
Proof. intros w o w' H. inversion H; subst. apply run_within_refl. Qed.

Lemma stays_os_mkdir (p : string) : stays_within h (os_mkdir E p).
Proof.
  apply stays_bind; [apply stays_sys|]. intros _ w o w' H.
  destruct (fs w !! p); inversion H; subst;
    [apply run_within_refl | apply run_within_insert].
Qed.

Lemma stays_open_read (p : string) : stays_within h (open_read E p).
Proof.
  apply stays_bind; [apply stays_sys|]. intros _ w o w' H.
  destruct (fs w !! p) as [[d|]|]; inversion H; subst; apply run_within_refl.
Qed.

Lemma stays_open_write (p : string) : stays_within h (open_write E p).
Proof.
  apply stays_bind; [apply stays_sys|]. intros _ w o w' H.
  destruct (fs w !! p) as [[d|]|]; inversion H; subst;
    first [apply run_within_refl | apply run_within_insert].
Qed.

Lemma stays_open_append (p : string) : stays_within h (open_append E p).
Proof.
  apply stays_bind; [apply stays_sys|]. intros _ w o w' H.
  destruct (fs w !! p) as [[d|]|]; inversion H; subst;
    first [apply run_within_refl | apply run_within_insert].
Qed.

Lemma stays_file_write (p data : string) : stays_within h (file_write E p data).
Proof.
  apply stays_bind; [apply stays_sys|]. intros _ w o w' H.
  inversion H; subst. apply run_within_insert.
Qed.

Lemma stays_time_sleep (secs : spec_float) : stays_within h (time_sleep E secs).
Proof.
  apply stays_bind; [apply stays_sys|]. intros _ w o w' H.
  inversion H; subst. apply run_within_event. exact I.
Qed.

Lemma stays_requests_get (url : string) : stays_within h (requests_dot_get E url h).
Proof.
  intros w o w' H. unfold requests_dot_get in H.
  destruct (requests_get E w url h); inversion H; subst;
    apply run_within_event; simpl; auto.
Qed.

Lemma stays_raise_for_status (r : response) : stays_within h (raise_for_status r).
Proof.
  unfold raise_for_status.
  repeat case_match; first [apply stays_lift | apply stays_ret].
Qed.

Lemma stays_download_save_file (url p : string) (wait_time : spec_float) :
  stays_within h (download_save_file E url p h wait_time).
Proof.
  unfold download_save_file.
  apply stays_bind; [apply stays_requests_get|]. intros r.
  apply stays_bind; [apply stays_raise_for_status|]. intros _.
  apply stays_bind; [now apply stays_open_write|]. intros _.
  apply stays_bind; [now apply stays_file_write|]. intros _.
  apply stays_time_sleep.
Qed.

Lemma stays_try_download (url p : string) (wait_time : spec_float) :
  stays_within h (try_download E url p h wait_time).
Proof.
  unfold try_download.
  apply stays_try_Exception; [now apply stays_download_save_file|]. intros e.
  apply stays_bind_lift. intros msg _. apply stays_print.
Qed.

Lemma stays_parse_json (text : string) : stays_within h (parse_json E text).
Proof.
  unfold parse_json, json_dot_load.
  apply stays_bind; [apply stays_lift|]. intros v. apply stays_lift.
Qed.

Lemma stays_parse_xml (text : string) (cols : list string) :
  stays_within h (parse_xml E text cols).
Proof.
  unfold parse_xml, et_dot_parse.
  apply stays_bind; [apply stays_lift|]. intros v.
  destruct (plain_columns cols); [apply stays_ret | apply stays_lift].
Qed.


Context (folder : string).

Lemma stays_download_slides_info_json (base_url video_id : string)
    (wait_time : spec_float) :
  stays_within h (download_slides_info_json E base_url video_id folder h wait_time).
Proof.
  unfold download_slides_info_json.
  apply stays_bind_lift. intros file_path Hpath.
  rewrite format_slides_json_path in Hpath. inversion Hpath; subst file_path.
  apply stays_bind; [apply stays_path_exists|]. intros present.
  apply stays_bind; [|intros _; apply stays_open_read].
  destruct present; cbn [negb]; [apply stays_ret|].
  apply stays_bind_lift. intros url _.
  apply stays_bind_lift. intros msg _.
  apply stays_bind; [apply stays_print|]. intros _.
  apply stays_download_save_file.
Qed.

Lemma stays_download_slides_info_xml (base_url video_id : string)
    (wait_time : spec_float) :
  stays_within h (download_slides_info_xml E base_url video_id folder h wait_time).
Proof.
  unfold download_slides_info_xml.
  apply stays_bind_lift. intros file_path Hpath.
  rewrite format_xml_path in Hpath. inversion Hpath; subst file_path.
  apply stays_bind; [apply stays_path_exists|]. intros present.
  apply stays_bind; [|intros _; apply stays_open_read].
  destruct present; cbn [negb]; [apply stays_ret|].
  apply stays_bind_lift. intros url _.
  apply stays_bind_lift. intros msg _.
  apply stays_bind; [apply stays_print|]. intros _.
  apply stays_download_save_file.
Qed.

Lemma stays_ensure_folder : stays_within h (ensure_folder E folder).
Proof.
  unfold ensure_folder.
  apply stays_bind; [apply stays_path_exists|]. intros present.
  apply stays_bind.
  { destruct present; cbn [negb]; [apply stays_ret|]. apply stays_os_mkdir. }
  intros _. apply stays_bind; [apply stays_path_isfile|]. intros isfile.
  destruct isfile; [|apply stays_ret].
  apply stays_bind_lift. intros msg _.
  apply stays_bind; [apply stays_print|]. intros _. apply stays_exit.
Qed.

Lemma stays_json_attempt (base_url video_id : string) (wait_time : spec_float) :
  stays_within h (json_attempt E base_url video_id folder h wait_time).
Proof.
  unfold json_attempt.
  apply stays_bind; [apply stays_download_slides_info_json|]. intros text.
  apply stays_bind; [apply stays_parse_json|]. intros d. apply stays_ret.
Qed.

Lemma stays_xml_fallback (base_url video_id : string) (wait_time : spec_float) :
  stays_within h (xml_fallback E base_url video_id folder h wait_time).
Proof.
  unfold xml_fallback.
  apply stays_bind; [apply stays_print|]. intros _.
  apply stays_bind; [apply stays_download_slides_info_xml|]. intros text.
  apply stays_bind; [apply stays_parse_xml|]. intros d. apply stays_ret.
Qed.

Lemma stays_download_slide_json (video_id : string) (size : value) (base_url : string)
    (wait_time : spec_float) (slide : row) :
  stays_within h (download_slide_json E video_id folder size base_url h wait_time slide).
Proof.
  unfold download_slide_json.
  apply stays_bind_lift. intros url _.
  apply stays_bind_lift. intros p Hp.
  apply stays_bind_lift. intros msg _.
  apply stays_bind; [apply stays_print|]. intros _.
  apply stays_try_download.
Qed.

Lemma stays_download_slide_xml (video_id : string) (size : value) (base_url : string)
    (wait_time : spec_float) (item : nat * row) :
  stays_within h (download_slide_xml E video_id folder size base_url h wait_time item).
Proof.
  destruct item as [index r]. unfold download_slide_xml.
  apply stays_bind_lift. intros url _.
  apply stays_bind_lift. intros p Hp.
  apply stays_bind_lift. intros msg _.
  apply stays_bind; [apply stays_print|]. intros _.
  apply stays_try_download.
Qed.

Lemma stays_concat_loop (f : string) (size : value) (rows : list (nat * row)) :
  forall last_time last_file_path,
    stays_within h (concat_loop E f folder size rows last_time last_file_path).
Proof.
  induction rows as [|[index r] rows IH]; intros lt lp; cbn [concat_loop].
  - apply stays_ret.
  - apply stays_bind_lift. intros ts _.
    apply stays_bind_lift. intros diff _.
    apply stays_bind_lift. intros dur _.
    apply stays_bind.
    { destruct (negb (index =? 0)%nat); [|apply stays_ret].
      apply stays_bind_lift. intros line _. now apply stays_file_write. }
    intros _. apply stays_bind_lift. intros p _.
    apply stays_bind_lift. intros line _.
    apply stays_bind; [now apply stays_file_write|]. intros _.
    apply stays_bind_lift. intros lt' _. apply IH.
Qed.

End Within.

(** Everything after the URL is resolved: the run only adds events and sends
    every fetch with the [User-Agent] header. *)
Lemma main_within (E : environment) (args : arguments) (id name : string)
    (w w1 w' : world) (o : outcome unit) :
  get_video_id (arg_url args) w = (Ok (id, name), w1) ->
  main E args w = (o, w') ->
  run_within [("User-Agent", arg_useragent args)] w w'.
Proof.
  intros Hid. assert (w1 = w) as ->.
  { unfold get_video_id in Hid. destruct (re_findall (arg_url args)).
    - unfold bind, lift in Hid. rewrite format_error_url in Hid. discriminate.
    - now inversion Hid. }
  unfold main. rewrite (bind_run _ _ _ _ _ Hid).
  set (h := [("User-Agent", arg_useragent args)]).
  set (folder := id +:+ "-" +:+ name).
  cbv beta iota.
  refine ((_ : stays_within h _) w o w').
  assert (Hplaylist : forall rows size,
             stays_within h (create_ffmpeg_concat_file E id name rows size)).
  { intros rows size. unfold create_ffmpeg_concat_file.
    apply stays_bind_lift. intros f Hf.
    rewrite folder_name_of_eq in Hf. inversion Hf; subst f.
    apply stays_bind_lift. intros path Hpath.
    rewrite format_playlist_path in Hpath. inversion Hpath; subst path.
    apply stays_bind; [apply stays_path_exists|]. intros present.
    destruct present; [apply stays_ret|].
    apply stays_bind; [now apply stays_open_append|]. intros _.
    apply stays_bind; [now apply stays_concat_loop|]. intros last.
    apply stays_bind; [now apply stays_file_write|]. intros _.
    apply stays_bind_lift. intros line _. now apply stays_file_write. }
  apply stays_bind.
  - unfold download_slides_info.
    apply stays_bind_lift. intros f Hf.
    rewrite folder_name_of_eq in Hf. inversion Hf; subst f.
    apply stays_bind; [apply stays_ensure_folder|]. intros _.
    apply stays_try_all; [apply stays_json_attempt | apply stays_xml_fallback].
  - intros [d | df].
    + apply stays_bind; [|intros _; apply Hplaylist].
      unfold download_slides_json.
      apply stays_bind_lift. intros f Hf.
      rewrite folder_name_of_eq in Hf. inversion Hf; subst f.
      apply stays_for_each. intros slide. apply stays_download_slide_json.
    + apply stays_bind; [apply stays_print|]. intros _.
      apply stays_bind; [|intros _; apply Hplaylist].
      unfold download_slides_xml.
      apply stays_bind_lift. intros f Hf.
      rewrite folder_name_of_eq in Hf. inversion Hf; subst f.
      apply stays_for_each. intros item. apply stays_download_slide_xml.
Qed.

(** Every request of a run carries the configured [User-Agent] header and
    no other header: whatever [main] does and however it ends, the trace only
    grows, and each fetch added to it was sent with that header. *)
Theorem main_sends_user_agent (E : environment) (args : arguments) (w w' : world)
    (o : outcome unit) :
  main E args w = (o, w') ->
  exists t, trace w' = trace w ++ t /\
            fetched_with [("User-Agent", arg_useragent args)] t.
Proof.
  intros Hrun.
  destruct (get_video_id (arg_url args) w) as [[[id name]| e | |] w1] eqn:Hid.
  - exact (main_within E args id name w w1 w' o Hid Hrun).
  - unfold get_video_id in Hid. destruct (re_findall (arg_url args)); [|discriminate].
    unfold bind, lift in Hid. rewrite format_error_url in Hid. discriminate.
  - unfold main, bind at 1 in Hrun. rewrite Hid in Hrun. inversion Hrun; subst.
    unfold get_video_id in Hid. destruct (re_findall (arg_url args)); [|discriminate].
    unfold bind, lift in Hid. rewrite format_error_url in Hid.
    inversion Hid; subst. eexists. split; [reflexivity | exact I].
  - unfold get_video_id in Hid. destruct (re_findall (arg_url args)); [|discriminate].
    unfold bind, lift in Hid. rewrite format_error_url in Hid. discriminate.
Qed.

Lemma main_sends_user_agent_witness :
  exists t, trace (after (main env_image_404 example_args) empty_world)
            = trace empty_world ++ t /\
            fetched_with [("User-Agent", arg_useragent example_args)] t.
Proof.
  apply (main_sends_user_agent env_image_404 example_args empty_world
           (after (main env_image_404 example_args) empty_world) (Ok tt)).
  vm_compute. reflexivity.
Defined.

(** After the folder step has returned, the folder of the video is a
    directory: it was one already, or it was missing and has been created; a
    plain file of that name never lets the step return. *)
Theorem ensure_folder_makes_directory (E : environment) (folder : string) (w w' : world) :
  ensure_folder E folder w = (Ok tt, w') ->
  fs w' !! folder = Some Dir /\
  (fs w !! folder = Some Dir /\ w' = w \/
   fs w !! folder = None /\ w' = World (<[folder := Dir]> (fs w)) (trace w)).
Proof.
  unfold ensure_folder, path_exists, path_isfile, os_mkdir, sys, print, log, exit,
    bind, lift, ret.
  destruct (fs w !! folder) as [[d|]|] eqn:Hf; cbn [negb].
  - rewrite Hf. discriminate.
  - rewrite Hf. intros H. inversion H; subst. auto.
  - destruct (os_error E w (SysMkdir folder)); [discriminate|].
    rewrite Hf. cbn [fs trace]. rewrite lookup_insert_eq.
    intros H. inversion H; subst. cbn [fs]. rewrite lookup_insert_eq. auto.
Qed.

Lemma ensure_folder_makes_directory_witness :
  fs (after (ensure_folder env_ok "123-talk") empty_world) !! "123-talk" = Some Dir /\
  (fs empty_world !! "123-talk" = Some Dir /\
   after (ensure_folder env_ok "123-talk") empty_world = empty_world \/
   fs empty_world !! "123-talk" = None /\
   after (ensure_folder env_ok "123-talk") empty_world
   = World (<["123-talk" := Dir]> (fs empty_world)) (trace empty_world)).
Proof.
  apply (ensure_folder_makes_directory env_ok "123-talk" empty_world).
  vm_compute. reflexivity.
Defined.

(** Under the JSON schema the file of a slide is named after the image name,
    the resolved height, the time stamp and the extension of the manifest:
    [<folder>/<name>-1080-<time><ext>] for the size [big], with the token
    itself in place of the height for a size that is no alias. *)
Theorem json_file_name (folder name ext : string) (time : Z) :
  file_path_json folder (json_slide name (PyStr ext) time) (resolve_size "big")
  = Ok (folder +:+ "/" +:+ name +:+ "-1080-" +:+ str_of_Z time +:+ ext) /\
  file_path_json folder (json_slide name (PyStr ext) time) (resolve_size "medium")
  = Ok (folder +:+ "/" +:+ name +:+ "-540-" +:+ str_of_Z time +:+ ext) /\
  forall size, size <> "big" -> size <> "medium" ->
    file_path_json folder (json_slide name (PyStr ext) time) (resolve_size size)
    = Ok (folder +:+ "/" +:+ name +:+ "-" +:+ size +:+ "-" +:+ str_of_Z time +:+ ext).
Proof.
  split; [|split].
  - exact (file_path_json_eq folder (json_slide name (PyStr ext) time) (PyInt 1080) (PyInt time) name ext "1080"
             (str_of_Z time) eq_refl eq_refl eq_refl eq_refl eq_refl).
  - exact (file_path_json_eq folder (json_slide name (PyStr ext) time) (PyInt 540) (PyInt time) name ext "540"
             (str_of_Z time) eq_refl eq_refl eq_refl eq_refl eq_refl).
  - intros size Hb Hm.
    assert (resolve_size size = PyStr size) as ->.
    { unfold resolve_size, dict_get, size_conversion. simpl.
      destruct (String.eqb size "big") eqn:E1;
        [apply String.eqb_eq in E1; contradiction|].
      destruct (String.eqb size "medium") eqn:E2;
        [apply String.eqb_eq in E2; contradiction|].
      reflexivity. }
    exact (file_path_json_eq folder (json_slide name (PyStr ext) time) (PyStr size) (PyInt time) name ext size
             (str_of_Z time) eq_refl eq_refl eq_refl eq_refl eq_refl).
Qed.

Lemma json_file_name_witness :
  file_path_json "123-talk" (json_slide "slide_0001" (PyStr ".png") 2000) (resolve_size "720")
  = Ok ("123-talk" +:+ "/" +:+ "slide_0001" +:+ "-" +:+ "720" +:+ "-"
        +:+ str_of_Z 2000 +:+ ".png").
Proof.
  apply (proj2 (proj2 (json_file_name "123-talk" "slide_0001" ".png" 2000)) "720");
    discriminate.
Defined.
